(** * Background workers of the three GUI tools (Audio, Video, Imagenes)

    Shallow embedding of the worker classes of [Audio/main-gui.py],
    [Video/main-gui.py] and [Imagenes/main-gui.py] and of the single-slot
    runner of the Audio window, followed by the properties the specification
    states about them.

    Conventions of the embedding.
    - A Qt signal emission is an event appended to the trace a [run] returns;
      calls to the HTTP library, the clock and the file system are events of
      the same trace.
    - What the outside world answers (HTTP responses, raised exceptions, the
      chunks of a streamed body) is an explicit environment argument.
    - [stop()] is called from another thread.  The only thing a worker can
      observe of it is the value of its flag at the places where it reads
      the flag, so the environment says, for each such place, whether a
      [stop()] landed since the previous read.
    - A Python exception is a value of type [exn]; a [try] block is a
      computation returning [exn + A]. *)

From Stdlib Require Import ZArith List String Bool Lia.
From Stdlib Require Import Floats.SpecFloat.
From stdpp Require Import base option list strings pretty.

Local Open Scope Z_scope.
Local Open Scope string_scope.
Local Open Scope list_scope.

#[local] Set Warnings "-register-all".

(** ** Python values the workers inspect *)

Module Py.

(** Exceptions are split the way the handlers of the workers split them:
    [requests.exceptions.RequestException] (and its subclasses) against every
    other [Exception].  [str(e)] is the carried message. *)
Inductive exn : Type :=
| RequestException (msg : string)
| OtherException (msg : string).

Definition str_exn (e : exn) : string :=
  match e with
  | RequestException m => m
  | OtherException m => m
  end.

(** A decoded JSON document.  A dict is kept as its list of items; numbers
    are integers. *)
Inductive pyval : Type :=
| PyNone
| PyBool (b : bool)
| PyInt (z : Z)
| PyStr (s : string)
| PyList (l : list pyval)
| PyDict (d : list (string * pyval)).

(** Truth value of [if v:]. *)
Definition truthy (v : pyval) : bool :=
  match v with
  | PyNone => false
  | PyBool b => b
  | PyInt z => negb (z =? 0)%Z
  | PyStr s => negb (String.eqb s "")
  | PyList l => match l with [] => false | _ => true end
  | PyDict d => match d with [] => false | _ => true end
  end.

Definition type_name (v : pyval) : string :=
  match v with
  | PyNone => "NoneType"
  | PyBool _ => "bool"
  | PyInt _ => "int"
  | PyStr _ => "str"
  | PyList _ => "list"
  | PyDict _ => "dict"
  end.

Fixpoint assoc (k : string) (d : list (string * pyval)) : option pyval :=
  match d with
  | [] => None
  | (k', v) :: d' => if String.eqb k k' then Some v else assoc k d'
  end.

(** [v.get(k, default)]: only a dict has the method; on anything else the
    attribute access raises [AttributeError]. *)
Definition get (v : pyval) (k : string) (default : pyval) : exn + pyval :=
  match v with
  | PyDict d => inr (match assoc k d with Some x => x | None => default end)
  | _ => inl (OtherException
                ("'" +:+ type_name v +:+ "' object has no attribute 'get'"))
  end.

(** [v == "s"] for a string literal. *)
Definition eq_str (v : pyval) (s : string) : bool :=
  match v with
  | PyStr s' => String.eqb s' s
  | _ => false
  end.

(** [str(v)] as an f-string inserts it.  The text Python prints for a list
    or a dict is left to [repr]. *)
Definition str (repr : pyval -> string) (v : pyval) : string :=
  match v with
  | PyNone => "None"
  | PyBool b => if b then "True" else "False"
  | PyInt z => pretty z
  | PyStr s => s
  | _ => repr v
  end.

(** [a or b] *)
Definition or_else (a b : pyval) : pyval := if truthy a then a else b.

(** A [bytes] object, and its truth value in [if b:]. *)
Definition bytes : Type := list Byte.byte.

Definition nonempty (b : bytes) : bool :=
  match b with
  | [] => false
  | _ => true
  end.

(** [s[:n]] (the strings sliced here are ASCII: one byte per character) *)
Definition prefix (n : nat) (s : string) : string := String.substring 0 n s.

(** Python floats are IEEE binary64 numbers. *)
Definition float : Type := spec_float.
Definition prec : Z := 53.
Definition emax : Z := 1024.

(** [float(z)] *)
Definition float_of_int (z : Z) : float := binary_normalize prec emax z 0 false.

(** [a / b] on two ints: the quotient as a float.  (For operands below
    [2^53], the sizes a download can have, converting each operand and
    dividing is the correctly rounded quotient Python computes.) *)
Definition true_div (a b : Z) : exn + float :=
  if (b =? 0)%Z then inl (OtherException "division by zero")
  else
    match SFdiv prec emax (float_of_int a) (float_of_int b) with
    | S754_infinity _ | S754_nan =>
        inl (OtherException "integer division result too large for a float")
    | q => inr q
    end.

(** [x * n] for a float [x] and an int [n] *)
Definition mul_int (x : float) (n : Z) : float :=
  SFmul prec emax x (float_of_int n).

(** [int(x)]: truncation towards zero; infinities and NaN raise. *)
Definition int_of_float (x : float) : exn + Z :=
  match x with
  | S754_zero _ => inr 0%Z
  | S754_finite s m e =>
      let a := if (0 <=? e)%Z then Z.shiftl (Z.pos m) e
               else Z.shiftr (Z.pos m) (- e) in
      inr (if s then (- a)%Z else a)
  | S754_infinity _ => inl (OtherException "cannot convert float infinity to integer")
  | S754_nan => inl (OtherException "cannot convert float NaN to integer")
  end.

(** How a statement can end. *)
Inductive flow : Type :=
| Normal
| Returned
| Raised (e : exn).

(** An HTTP response as far as the workers read it.  [json] is what
    [response.json()] does: it returns the decoded body or raises. *)
Record Response : Type := mkResponse {
  status_code : Z;
  text : string;
  content : bytes;
  json : exn + pyval
}.

End Py.

Import Py.

(** ** Audio/main-gui.py *)

Module Audio.

(** *** class ApiWorker *)

Module ApiWorker.

Record t : Type := mk {
  api_key : string;
  endpoint : string;
  method : string;
  data : pyval;
  is_running : bool
}.

(** What the [finished] signal carries as its first argument. *)
Inductive payload : Type :=
| NoData
| JsonData (v : pyval)
| RawResponse (r : Response).

Inductive event : Type :=
| Request (method endpoint : string)
| Finished (data : payload) (success : bool) (error_message : string).

(** [__init__] *)
Definition init (api_key endpoint method : string) (data : pyval) : t :=
  mk api_key endpoint method data true.

Definition set_is_running (b : bool) (w : t) : t :=
  mk (api_key w) (endpoint w) (method w) (data w) b.

(** [stop] *)
Definition stop (w : t) : t := set_is_running false w.

Record env : Type := mkEnv {
  (** outcome of [requests.get] / [requests.post] *)
  http : exn + Response;
  (** a [stop()] landed between the first and the second read of the flag *)
  stop_during_request : bool
}.

Definition observe_stop (b : bool) (w : t) : t := if b then stop w else w.

(** The statements of the [try] block after the request: [response] is
    [None] when neither branch of the [if] / [elif] bound the variable. *)
Definition after_request (w : t) (e : env) (issued : list event)
    (response : option Response) : t * list event * (exn + unit) :=
  let w := observe_stop (stop_during_request e) w in
  if negb (is_running w) then
    (w, issued ++ [Finished NoData false "Operación cancelada durante la ejecución."],
     inr tt)
  else
    match response with
    | None =>
        (w, issued,
         inl (OtherException
                "cannot access local variable 'response' where it is not associated with a value"))
    | Some response =>
        if (status_code response =? 200)%Z then
          if negb (String.eqb (method w) "POST") || nonempty (content response) then
            match json response with
            | inl ex => (w, issued, inl ex)
            | inr v => (w, issued ++ [Finished (JsonData v) true ""], inr tt)
            end
          else (w, issued ++ [Finished (RawResponse response) true ""], inr tt)
        else
          (w, issued ++ [Finished NoData false
                           ("Error: " +:+ pretty (status_code response) +:+ " - "
                            +:+ text response)],
           inr tt)
    end.

(** The [try] block of [run]: the worker after it, the events it emitted and
    [inl ex] when it was left by exception [ex]. *)
Definition run_try (w : t) (e : env) : t * list event * (exn + unit) :=
  if String.eqb (method w) "GET" || String.eqb (method w) "POST" then
    let issued := [Request (method w) (endpoint w)] in
    match http e with
    | inl ex => (w, issued, inl ex)
    | inr response => after_request w e issued (Some response)
    end
  else after_request w e [] None.

(** [run]: the early return, then [try] / [except] / [finally]. *)
Definition run (w : t) (e : env) : t * list event :=
  if negb (is_running w) then
    (w, [Finished NoData false "Operación cancelada antes de iniciar."])
  else
    let '(w1, evs, r) := run_try w e in
    let handled :=
      match r with
      | inr tt => evs
      | inl (RequestException m) => evs ++ [Finished NoData false ("Error de red: " +:+ m)]
      | inl (OtherException m) => evs ++ [Finished NoData false m]
      end in
    (set_is_running false w1, handled).

End ApiWorker.

(** *** class AudioGenerator *)

Module AudioGenerator.

Record t : Type := mk {
  api_key : string;
  voice_id : string;
  text : string;
  model_id : string;
  stability : float;
  clarity : float;
  is_running : bool
}.

Inductive event : Type :=
| Request (url : string)
| MakeDirs (path : string)
| Open (path : string)
| Write (chunk : bytes)
| Progress (percent : Z)
| Finished (file_path : string) (success : bool) (error_message : string).

(** [__init__] *)
Definition init (api_key voice_id text model_id : string) (stability clarity : float) : t :=
  mk api_key voice_id text model_id stability clarity true.

Definition set_is_running (b : bool) (w : t) : t :=
  mk (api_key w) (voice_id w) (text w) (model_id w) (stability w) (clarity w) b.

(** [stop] *)
Definition stop (w : t) : t := set_is_running false w.

Definition observe_stop (b : bool) (w : t) : t := if b then stop w else w.

(** One item of [response.iter_content(chunk_size=4096)] as the loop body
    meets it. *)
Record item : Type := mkItem {
  (** a [stop()] landed before the flag is read for this item *)
  stop_before : bool;
  chunk : bytes;
  (** [f.write(chunk)] raising *)
  write_error : option exn
}.

(** [response.headers.get('content-length')] followed by
    [int(content_length) if content_length else None]: the header is absent
    or empty, or [int] returns, or [int] raises [ValueError]. *)
Inductive length_header : Type :=
| NoLength
| Length (n : Z)
| BadLength (e : exn).

Record env : Type := mkEnv {
  (** outcome of [requests.post(..., stream=True)] *)
  http : exn + Response;
  stop_during_request : bool;
  (** [os.path.expanduser("~")] joined with [".elevenlabs_tts"] *)
  temp_dir : string;
  temp_dir_exists : bool;
  makedirs_error : option exn;
  (** the path built from [os.urandom(4).hex()] *)
  temp_file : string;
  open_error : option exn;
  content_length : length_header;
  body : list item;
  (** the iterator raising once the items of [body] are consumed *)
  body_error : option exn;
  (** [os.path.exists(temp_file)], asked at most once by a run *)
  temp_file_exists : bool;
  (** [f.close()], which leaving the [with] block calls, raising: closing
      writes out what is still buffered, so it can raise once something has
      been written *)
  close_error : option exn
}.

Definition url (w : t) : string :=
  "https://api.elevenlabs.io/v1/text-to-speech/" +:+ voice_id w +:+ "/stream".

(** [int((total_size / expected_size) * 100)] *)
Definition percent (total_size expected_size : Z) : exn + Z :=
  match true_div total_size expected_size with
  | inl ex => inl ex
  | inr q => int_of_float (mul_int q 100)
  end.

(** The [for i, chunk in enumerate(...)] loop.  Returns the worker, the
    running byte count, the events and how the loop was left. *)
Fixpoint download (e : env) (expected_size : option Z) (items : list item)
    (i : nat) (w : t) (total_size : Z) : t * Z * list event * flow :=
  match items with
  | [] =>
      match body_error e with
      | Some ex => (w, total_size, [], Raised ex)
      | None => (w, total_size, [], Normal)
      end
  | it :: rest =>
      let w := observe_stop (stop_before it) w in
      if negb (is_running w) then
        (w, total_size,
         [Finished (if temp_file_exists e then temp_file e else "") false
                   "Generación de audio cancelada durante la descarga."],
         Returned)
      else if negb (nonempty (chunk it)) then
        download e expected_size rest (S i) w total_size
      else
        match write_error it with
        | Some ex => (w, total_size, [], Raised ex)
        | None =>
            let total_size := (total_size + Z.of_nat (List.length (chunk it)))%Z in
            let emitted :=
              match expected_size with
              | Some n =>
                  if (n =? 0)%Z then inr ((Z.of_nat i * 5) mod 100)%Z
                  else percent total_size n
              | None => inr ((Z.of_nat i * 5) mod 100)%Z
              end in
            match emitted with
            | inl ex => (w, total_size, [Write (chunk it)], Raised ex)
            | inr p =>
                let '(w', total', evs, fl) :=
                  download e expected_size rest (S i) w total_size in
                (w', total', Write (chunk it) :: Progress p :: evs, fl)
            end
        end
  end.

(** Leaving the [with open(...) as f:] block, by its end, by [return] or by
    an exception: the file is closed, and an exception raised by the closing
    replaces whatever was leaving the block.  [total_size] counts what the
    loop has written: a file nothing was written to has nothing to write out
    and is taken to close without error. *)
Definition close (e : env) (total_size : Z) : option exn :=
  if (total_size =? 0)%Z then None else close_error e.

(** The branch [if response.status_code == 200:] *)
Definition save_stream (w : t) (e : env) : t * list event * flow :=
  let mk_dir := if temp_dir_exists e then [] else [MakeDirs (temp_dir e)] in
  match (if temp_dir_exists e then None else makedirs_error e) with
  | Some ex => (w, [], Raised ex)
  | None =>
      match open_error e with
      | Some ex => (w, mk_dir, Raised ex)
      | None =>
          let opened := mk_dir ++ [Open (temp_file e)] in
          match content_length e with
          | BadLength ex => (w, opened, Raised ex)
          | cl =>
              let expected_size := match cl with Length n => Some n | _ => None end in
              let '(w, total_size, evs, fl) :=
                download e expected_size (body e) 0 w 0 in
              match close e total_size with
              | Some ex => (w, opened ++ evs, Raised ex)
              | None =>
                  match fl with
                  | Normal =>
                      if (total_size =? 0)%Z then
                        (w, opened ++ evs ++
                            [Finished (temp_file e) false
                                      "Error: Archivo de audio generado está vacío."],
                         Returned)
                      else
                        (w, opened ++ evs ++
                            [Progress 100; Finished (temp_file e) true ""],
                         Normal)
                  | _ => (w, opened ++ evs, fl)
                  end
              end
          end
      end
  end.

(** The [try] block of [run]; the boolean tells whether [temp_file] has been
    assigned when the block is left. *)
Definition run_try (w : t) (e : env) : t * list event * flow * bool :=
  match http e with
  | inl ex => (w, [Request (url w)], Raised ex, false)
  | inr response =>
      let w := observe_stop (stop_during_request e) w in
      if negb (is_running w) then
        (w, [Request (url w);
             Finished "" false "Generación de audio cancelada durante la petición."],
         Returned, false)
      else if (status_code response =? 200)%Z then
        let '(w, evs, fl) := save_stream w e in
        (w, Request (url w) :: evs, fl,
         match (if temp_dir_exists e then None else makedirs_error e) with
         | Some _ => false
         | None => true
         end)
      else
        (w, [Request (url w);
             Finished "" false
               ("Error al generar audio: " +:+ pretty (status_code response) +:+ " - "
                +:+ Py.text response)],
         Normal, false)
  end.

(** [temp_file if temp_file and os.path.exists(temp_file) else ""] *)
Definition reported_path (e : env) (assigned : bool) : string :=
  if assigned && negb (String.eqb (temp_file e) "") && temp_file_exists e
  then temp_file e else "".

(** [run]: the early return, then [try] / [except] / [finally]. *)
Definition run (w : t) (e : env) : t * list event :=
  if negb (is_running w) then
    (w, [Finished "" false "Generación de audio cancelada antes de iniciar."])
  else
    let '(w1, evs, fl, assigned) := run_try w e in
    let handled :=
      match fl with
      | Normal | Returned => evs
      | Raised (RequestException m) =>
          evs ++ [Finished (reported_path e assigned) false
                           ("Error de red generando audio: " +:+ m)]
      | Raised (OtherException m) =>
          evs ++ [Finished (reported_path e assigned) false m]
      end in
    (set_is_running false w1, handled).

End AudioGenerator.

(** *** class ElevenLabsTTS: the worker slot of the window *)

Module ElevenLabsTTS.

Inductive worker_instance : Type :=
| AnApiWorker (w : ApiWorker.t)
| AnAudioGenerator (w : AudioGenerator.t).

(** A [QThread] object: [isRunning()], and whether the worker that was moved
    to it has emitted [finished]. *)
Record QThread : Type := mkThread {
  isRunning : bool;
  worker_finished : bool
}.

(** The two attributes of the window that hold the slot, the [QThread]
    objects created so far, each known by its position, and the calls of
    [_clear_worker_references] that the [finished] signal of a thread has
    posted to the thread of the window and that have not run yet. *)
Record t : Type := mk {
  worker : option worker_instance;
  worker_thread : option nat;
  threads : list QThread;
  queued_clears : nat
}.

(** [__init__] *)
Definition init : t := mk None None [] 0.

Inductive dialog : Type :=
| Warning (title message : string).

Definition thread_is_running (self : t) (tid : nat) : bool :=
  match threads self !! tid with
  | Some th => isRunning th
  | None => false
  end.

(** [_start_worker]: the window after the call, the returned boolean and the
    dialog shown. *)
Definition _start_worker (self : t) (instance : worker_instance)
    : t * bool * list dialog :=
  if match worker_thread self with
     | Some tid => thread_is_running self tid
     | None => false
     end
  then
    (self, false,
     [Warning "Operación en curso"
              "Por favor, espera a que la operación actual termine."])
  else
    (* QThread() followed, after the connections, by start() *)
    let tid := length (threads self) in
    (mk (Some instance) (Some tid) (threads self ++ [mkThread true false])
        (queued_clears self), true, []).

(** [_clear_worker_references] *)
Definition _clear_worker_references (self : t) : t :=
  mk None None (threads self) (queued_clears self).

(** The worker living in thread [tid] emits [finished]: the result slot runs
    and [quit] is requested from the thread. *)
Definition on_worker_finished (self : t) (tid : nat) : t :=
  mk (worker self) (worker_thread self)
     (alter (fun th => mkThread (isRunning th) true) tid (threads self))
     (queued_clears self).

(** Thread [tid] leaves its event loop: it stops running, and its [finished]
    signal, emitted from that thread, posts [_clear_worker_references] to
    the thread of the window.  The attributes of the window are not touched
    yet. *)
Definition on_thread_finished (self : t) (tid : nat) : t :=
  mk (worker self) (worker_thread self)
     (alter (fun th => mkThread false (worker_finished th)) tid (threads self))
     (S (queued_clears self)).

(** A posted [_clear_worker_references] runs in the thread of the window. *)
Definition on_clear_delivered (self : t) : t :=
  _clear_worker_references
    (mk (worker self) (worker_thread self) (threads self)
        (Nat.pred (queued_clears self))).

(** What can happen to the slot, and when, from the creation of the window
    until it is closed. *)
Inductive action : Type :=
| Start (instance : worker_instance)
| WorkerFinished (tid : nat)
| ThreadFinished (tid : nat)
| ClearDelivered.

Inductive step : t -> action -> t -> Prop :=
| step_start self instance :
    step self (Start instance) (_start_worker self instance).1.1
| step_worker_finished self tid th :
    threads self !! tid = Some th ->
    isRunning th = true ->
    worker_finished th = false ->
    step self (WorkerFinished tid) (on_worker_finished self tid)
| step_thread_finished self tid th :
    threads self !! tid = Some th ->
    isRunning th = true ->
    worker_finished th = true ->
    step self (ThreadFinished tid) (on_thread_finished self tid)
| step_clear_delivered self :
    (0 < queued_clears self)%nat ->
    step self ClearDelivered (on_clear_delivered self).




End ElevenLabsTTS.

End Audio.

(** ** Video/main-gui.py *)

Module Video.

Definition NOVITA_API_BASE_URL : string := "https://api.novita.ai/v3/async".

(** [TaskCompleted v] stands for the call [task_completed.emit(v)] with
    the value [v] it is given.  The signal is declared [Signal(str)]: what a
    slot receives for a [v] that is not a [str] is Qt's conversion of it,
    which is not modelled. *)
Inductive event : Type :=
| Get (url : string)
| Post (url : string)
| Sleep (seconds : Z)
| ReadFlag (value : bool)
| StatusUpdated (message : string)
| TaskCompleted (video_url : pyval)
| TaskFailed (message : string).

(** *** class NovitaApiClient *)

Module NovitaApiClient.

(** The [headers] attribute is a function of the key and is only sent. *)
Record t : Type := mk { api_key : string }.

Section Client.

Variable repr : pyval -> string.

(** The [try] block of [get_task_result] after the request returned. *)
Definition task_result_of (response : Response) (task_id : string)
    : exn + (pyval * pyval * string) :=
  if (status_code response =? 200)%Z then
    match json response with
    | inl ex => inl ex
    | inr data =>
        match get data "task" (PyDict []) with
        | inl ex => inl ex
        | inr task_data =>
            match get task_data "status" (PyStr "unknown"),
                  get task_data "result" (PyDict []),
                  get task_data "error_message" PyNone with
            | inr status, inr result, inr error_message =>
                if eq_str status "completed" then
                  match get result "video_url" PyNone with
                  | inl ex => inl ex
                  | inr video_url =>
                      if truthy video_url then
                        inr (status, result, "Tarea completada exitosamente.")
                      else
                        inr (PyStr "failed", result,
                             "Tarea completada, pero no se encontró la URL del video en el resultado.")
                  end
                else if eq_str status "failed" then
                  inr (status, result,
                       "Tarea fallida: "
                       +:+ str repr (or_else error_message (PyStr "Motivo desconocido")))
                else
                  inr (status, result, "Estado de la tarea: " +:+ str repr status +:+ "...")
            | inl ex, _, _ => inl ex
            | _, inl ex, _ => inl ex
            | _, _, inl ex => inl ex
            end
        end
    end
  else
    inr (PyStr "failed", PyNone,
         "Error al consultar estado de tarea " +:+ task_id +:+ ": Código "
         +:+ pretty (status_code response) +:+ " - " +:+ text response).

(** [get_task_result]: the status, the result and the message, with the
    request it issued (if any). *)
Definition get_task_result (c : t) (task_id : string) (http : exn + Response)
    : (pyval * pyval * string) * list event :=
  if String.eqb (api_key c) "" then
    ((PyStr "failed", PyNone, "API Key no proporcionada."), [])
  else if String.eqb task_id "" then
    ((PyStr "failed", PyNone, "Task ID no proporcionado."), [])
  else
    let endpoint := NOVITA_API_BASE_URL +:+ "/task-result?task_id=" +:+ task_id in
    let outcome :=
      match http with
      | inl ex => inl ex
      | inr response => task_result_of response task_id
      end in
    (match outcome with
     | inr r => r
     | inl (RequestException m) =>
         (PyStr "failed", PyNone,
          "Error de conexión al consultar estado de tarea " +:+ task_id +:+ ": " +:+ m)
     | inl (OtherException m) =>
         (PyStr "failed", PyNone,
          "Ocurrió un error inesperado al consultar el estado de la tarea "
          +:+ task_id +:+ ": " +:+ m)
     end, [Get endpoint]).

(** [start_image_to_video_task]: the task id (or [None]), the message and
    the decoded answer (or [None]). *)
Definition start_image_to_video_task (c : t) (image_url prompt : string)
    (width height seed : Z) (http : exn + Response)
    : (pyval * string * pyval) * list event :=
  if String.eqb (api_key c) "" then
    ((PyNone, "API Key no proporcionada.", PyNone), [])
  else if String.eqb image_url "" then
    ((PyNone, "La URL de la imagen no puede estar vacía.", PyNone), [])
  else if String.eqb prompt "" then
    ((PyNone, "El prompt no puede estar vacío.", PyNone), [])
  else
    let endpoint := NOVITA_API_BASE_URL +:+ "/wan-i2v" in
    let outcome : exn + (pyval * string * pyval) :=
      match http with
      | inl ex => inl ex
      | inr response =>
          if (status_code response =? 200)%Z then
            match json response with
            | inl ex => inl ex
            | inr data =>
                match get data "task_id" PyNone with
                | inl ex => inl ex
                | inr task_id =>
                    if truthy task_id then
                      inr (task_id, "Tarea de generación iniciada.", data)
                    else
                      inr (PyNone,
                           "Error: La API no devolvió un task_id válido. Respuesta: "
                           +:+ str repr data, data)
                end
            end
          else
            match (if String.eqb (text response) "" then inr PyNone
                   else json response) with
            | inl ex => inl ex
            | inr body =>
                inr (PyNone,
                     "Error al iniciar tarea: Código " +:+ pretty (status_code response)
                     +:+ " - " +:+ text response, body)
            end
      end in
    (match outcome with
     | inr r => r
     | inl (RequestException m) =>
         (PyNone, "Error de conexión al iniciar tarea: " +:+ m, PyNone)
     | inl (OtherException m) =>
         (PyNone, "Ocurrió un error inesperado al iniciar la tarea: " +:+ m, PyNone)
     end, [Post endpoint]).

(** [check_api_status] *)
Definition check_api_status (c : t) (http : exn + Response) : (bool * string) * list event :=
  if String.eqb (api_key c) "" then ((false, "API Key no proporcionada."), [])
  else
    let test_url := "https://api.novita.ai/v2/models" in
    (match http with
     | inr response =>
         if (status_code response =? 200)%Z then (true, "API Key válida.")
         else if (status_code response =? 401)%Z then
           (false, "API Key inválida o no autorizada.")
         else
           (false, "Error al verificar API: Código " +:+ pretty (status_code response)
                   +:+ " - " +:+ text response)
     | inl (RequestException m) =>
         (false, "Error de conexión al verificar API: " +:+ m)
     | inl (OtherException m) =>
         (false, "Ocurrió un error inesperado durante la verificación: " +:+ m)
     end, [Get test_url]).

End Client.

End NovitaApiClient.

(** *** class VideoTaskWorker *)

Module VideoTaskWorker.

Record t : Type := mk {
  api_client : NovitaApiClient.t;
  task_id : string;
  _is_running : bool
}.

(** [__init__] *)
Definition init (api_client : NovitaApiClient.t) (task_id : string) : t :=
  mk api_client task_id true.

Definition set_is_running (b : bool) (w : t) : t :=
  mk (api_client w) (task_id w) b.

Definition observe_stop (b : bool) (w : t) : t :=
  if b then set_is_running false w else w.

Record env : Type := mkEnv {
  (** a [stop()] landed before the loop condition is evaluated with
      [poll_count = n] *)
  stop_before_poll : nat -> bool;
  (** a [stop()] landed between the last evaluation of the loop condition
      and the [if] after the loop *)
  stop_before_exit : bool;
  (** what the HTTP library does on the query number [n] (from 1) *)
  http : nat -> exn + Response
}.

Definition polling_interval : Z := 5.
Definition max_polls : nat := 120.

Definition timeout_message (w : t) : string :=
  "Tiempo de espera agotado. La tarea " +:+ prefix 8 (task_id w)
  +:+ "... podría seguir procesando.".

Section Run.

Variable repr : pyval -> string.
Variable e : env.

(** The body of the [while] loop after [poll_count += 1]. *)
Definition poll_once (w : t) (poll_count : nat) : t * list event * flow :=
  let '((status, result, message), issued) :=
    NovitaApiClient.get_task_result repr (api_client w) (task_id w) (http e poll_count) in
  let evs :=
    Sleep polling_interval :: issued ++
    [StatusUpdated ("Tarea " +:+ prefix 8 (task_id w) +:+ "... - " +:+ message)] in
  if eq_str status "completed" then
    match get result "video_url" PyNone with
    | inl ex => (w, evs, Raised ex)
    | inr video_url =>
        if truthy video_url then
          (set_is_running false w, evs ++ [TaskCompleted video_url], Normal)
        else
          (set_is_running false w,
           evs ++ [TaskFailed "La tarea completó pero no se encontró URL de video."],
           Normal)
    end
  else if eq_str status "failed" then
    (set_is_running false w, evs ++ [TaskFailed message], Normal)
  else (w, evs, Normal).

(** [while self._is_running and poll_count < max_polls: ...]; [None] when
    [fuel] iterations did not reach the end of the loop. *)
Fixpoint poll_loop (fuel : nat) (max_polls : nat) (w : t) (poll_count : nat)
    : option (t * nat * list event * flow) :=
  match fuel with
  | O => None
  | S fuel =>
      let w := observe_stop (stop_before_poll e poll_count) w in
      if _is_running w && (poll_count <? max_polls)%nat then
        let poll_count := S poll_count in
        let '(w, evs, fl) := poll_once w poll_count in
        match fl with
        | Normal =>
            match poll_loop fuel max_polls w poll_count with
            | Some (w', n, evs', fl') => Some (w', n, ReadFlag true :: evs ++ evs', fl')
            | None => None
            end
        | _ => Some (w, poll_count, ReadFlag true :: evs, fl)
        end
      else Some (w, poll_count, [ReadFlag (_is_running w)], Normal)
  end.

(** [run] with the two local constants as arguments. *)
Definition run_with (fuel : nat) (max_polls : nat) (w : t)
    : option (t * list event * flow) :=
  let started := StatusUpdated ("Iniciando monitoreo de tarea: " +:+ task_id w) in
  match poll_loop fuel max_polls w 0 with
  | None => None
  | Some (w, _, evs, Normal) =>
      let w := observe_stop (stop_before_exit e) w in
      if _is_running w then
        Some (w, started :: evs ++ [ReadFlag true; TaskFailed (timeout_message w)], Normal)
      else Some (w, started :: evs ++ [ReadFlag false], Normal)
  | Some (w, _, evs, fl) => Some (w, started :: evs, fl)
  end.

(** [run] *)
Definition run (w : t) : option (t * list event * flow) :=
  run_with (S max_polls) max_polls w.

End Run.

(** [stop]: clears the flag, then [self.wait()] blocks the caller until the
    thread has left [run]. *)
Definition stop (w : t) : t := set_is_running false w.

End VideoTaskWorker.

End Video.

(** ** Imagenes/main-gui.py *)

Module Imagenes.

Module ImageGeneratorThread.

Record t : Type := mk {
  prompt : string;
  api_key : string
}.

Inductive event : Type :=
| Post (url : string)
| progress_signal (message : string)
| result_signal (image : bytes)
| error_signal (message : string)
| finished_signal (elapsed : float).

Record env : Type := mkEnv {
  http : exn + Response;
  (** [time.time() - start_time] *)
  elapsed_time : float
}.

Definition url : string :=
  "https://api-inference.huggingface.co/models/black-forest-labs/FLUX.1-schnell".

(** [run] *)
Definition run (w : t) (e : env) : list event :=
  [progress_signal "Enviando solicitud a FLUX.1-schnell..."; Post url] ++
  match http e with
  | inr response =>
      if (status_code response =? 200)%Z then
        [result_signal (content response); finished_signal (elapsed_time e)]
      else
        [error_signal ("Error " +:+ pretty (status_code response) +:+ ": "
                       +:+ text response)]
  | inl ex => [error_signal ("Error: " +:+ str_exn ex)]
  end.

End ImageGeneratorThread.

(** *** class MainWindow *)

Module MainWindow.

(** What the slots of the window read or write, apart from texts, styles
    and the focus. *)
Record t : Type := mk {
  (** the five widgets [toggle_ui] switches, the button "Generar Imagen"
      among them *)
  controls_enabled : bool;
  save_button_enabled : bool;
  progress_bar_visible : bool;
  (** [None] or the bytes of the last picture *)
  current_image : option bytes
}.

(** [init_ui] *)
Definition init : t := mk true false false None.

Inductive dialog : Type :=
| Warning (title message : string)
| Critical (title message : string).

(** [toggle_ui] *)
Definition toggle_ui (enabled : bool) (self : t) : t :=
  mk enabled (save_button_enabled self) (progress_bar_visible self) (current_image self).

Definition setVisible (visible : bool) (self : t) : t :=
  mk (controls_enabled self) (save_button_enabled self) visible (current_image self).

(** [generate_image]: [prompt] and [api_key] are the texts of the two
    fields after [strip()].  Returns the window, the dialogs shown and the
    thread that was started, if any. *)
Definition generate_image (self : t) (prompt api_key : string)
    : t * list dialog * option ImageGeneratorThread.t :=
  if String.eqb api_key "" then
    (self,
     [Warning "Advertencia" "Por favor, ingresa tu API Key de Hugging Face."], None)
  else if negb (String.prefix "hf_" api_key) then
    (self,
     [Warning "Advertencia"
        "La API Key de Hugging Face generalmente comienza con 'hf_'. Verifica que sea correcta."],
     None)
  else if String.eqb prompt "" then
    (self, [Warning "Advertencia" "Por favor, ingresa un prompt primero."], None)
  else
    (setVisible true (toggle_ui false self), [],
     Some (ImageGeneratorThread.mk prompt api_key)).

(** [process_image] *)
Definition process_image (self : t) (image_data : bytes) : t :=
  mk (controls_enabled self) true (progress_bar_visible self) (Some image_data).

(** [generation_finished] *)
Definition generation_finished (self : t) : t :=
  setVisible false (toggle_ui true self).

(** [show_error] *)
Definition show_error (self : t) (error_message : string) : t * list dialog :=
  (setVisible false (toggle_ui true self), [Critical "Error" error_message]).

(** [clear_ui] *)
Definition clear_ui (self : t) : t :=
  mk (controls_enabled self) false (progress_bar_visible self) None.

(** [resizeEvent] *)
Definition resizeEvent (self : t) : t :=
  match current_image self with
  | Some image_data =>
      if nonempty image_data then process_image self image_data else self
  | None => self
  end.

(** The slot [generate_image] connects to each signal of the thread
    ([update_status] only writes the status label). *)
Definition deliver (self : t) (signal : ImageGeneratorThread.event) : t :=
  match signal with
  | ImageGeneratorThread.progress_signal _ => self
  | ImageGeneratorThread.result_signal image_data => process_image self image_data
  | ImageGeneratorThread.error_signal error_message =>
      (show_error self error_message).1
  | ImageGeneratorThread.finished_signal _ => generation_finished self
  | ImageGeneratorThread.Post _ => self
  end.

End MainWindow.

End Imagenes.

(** ** What a trace says *)

Module Trace.


Definition api_success (ev : Audio.ApiWorker.event) : bool :=
  match ev with
  | Audio.ApiWorker.Finished _ ok _ => ok
  | _ => false
  end.

Definition api_request (ev : Audio.ApiWorker.event) : bool :=
  match ev with
  | Audio.ApiWorker.Request _ _ => true
  | _ => false
  end.


Definition audio_success (ev : Audio.AudioGenerator.event) : bool :=
  match ev with
  | Audio.AudioGenerator.Finished _ ok _ => ok
  | _ => false
  end.

(** Network or file-system activity of the streaming worker. *)
Definition audio_effect (ev : Audio.AudioGenerator.event) : bool :=
  match ev with
  | Audio.AudioGenerator.Request _
  | Audio.AudioGenerator.MakeDirs _
  | Audio.AudioGenerator.Open _
  | Audio.AudioGenerator.Write _ => true
  | _ => false
  end.

(** The values sent on the [progress] signal, in order. *)
Fixpoint percents (tr : list Audio.AudioGenerator.event) : list Z :=
  match tr with
  | [] => []
  | Audio.AudioGenerator.Progress p :: rest => p :: percents rest
  | _ :: rest => percents rest
  end.

(** A terminal signal of the polling worker. *)
Definition terminal (ev : Video.event) : bool :=
  match ev with
  | Video.TaskCompleted _ | Video.TaskFailed _ => true
  | _ => false
  end.

(** A signal of the polling worker, as opposed to what it does or reads. *)
Definition signal (ev : Video.event) : bool :=
  match ev with
  | Video.StatusUpdated _ | Video.TaskCompleted _ | Video.TaskFailed _ => true
  | _ => false
  end.

(** A status query that goes out. *)
Definition query (ev : Video.event) : bool :=
  match ev with
  | Video.Get _ => true
  | _ => false
  end.

(** A read of the flag, and a wait. *)
Definition flag_read (ev : Video.event) : bool :=
  match ev with
  | Video.ReadFlag _ => true
  | _ => false
  end.

Definition wait (ev : Video.event) : bool :=
  match ev with
  | Video.Sleep _ => true
  | _ => false
  end.

(** An HTTP request of either kind. *)
Definition request (ev : Video.event) : bool :=
  match ev with
  | Video.Get _ | Video.Post _ => true
  | _ => false
  end.

End Trace.

Import Trace.


(** ** Notions used by the statements *)

Module Notions.



Import Video Video.VideoTaskWorker.

(** What the polling loop leaves behind: it never raises; entered with the
    flag down it only reads the flag; and either it emitted one terminal
    signal, no signal after it, and the flag is down, or it emitted none, and
    then the flag is down only because a [stop()] was seen. *)
Definition loop_outcome (e : env) (w : t) (r : t * nat * list event * flow) : Prop :=
  let '(w', _, evs, fl) := r in
  fl = Normal
  /\ (_is_running w = false -> evs = [ReadFlag false] /\ _is_running w' = false)
  /\ ((exists pre T post,
         evs = pre ++ T :: post /\ terminal T = true
         /\ forallb (fun ev => negb (terminal ev)) pre = true
         /\ forallb (fun ev => negb (signal ev)) post = true
         /\ _is_running w' = false)
      \/ (forallb (fun ev => negb (terminal ev)) evs = true
          /\ (_is_running w' = false ->
              _is_running w = false \/ exists k, stop_before_poll e k = true))).

(** The remote job is never seen in a terminal state: no query is answered
    "completed" or "failed". *)
Definition never_terminal (repr : pyval -> string) (e : env) (w : t) : Prop :=
  forall n,
    let status :=
      (NovitaApiClient.get_task_result repr (api_client w) (task_id w) (http e n)).1.1.1 in
    eq_str status "completed" = false /\ eq_str status "failed" = false.

(** No [stop()] reaches the worker. *)
Definition never_stopped (e : env) : Prop :=
  (forall n, stop_before_poll e n = false) /\ stop_before_exit e = false.

(** Which event may directly follow which in a trace of [run]. *)
Definition allowed (a b : event) : bool :=
  match a, b with
  | StatusUpdated _, (ReadFlag _ | TaskCompleted _ | TaskFailed _) => true
  | ReadFlag true, (Sleep _ | ReadFlag _ | TaskFailed _) => true
  | ReadFlag false, ReadFlag false => true
  | Sleep _, (Get _ | StatusUpdated _) => true
  | Get _, StatusUpdated _ => true
  | (TaskCompleted _ | TaskFailed _), ReadFlag false => true
  | _, _ => false
  end.

(** Every event of [tr] is allowed after its predecessor, [prev] being the
    predecessor of the first. *)
Fixpoint chain (prev : event) (tr : list event) : bool :=
  match tr with
  | [] => true
  | ev :: rest => allowed prev ev && chain ev rest
  end.

(** A running thread is the one the window refers to. *)
Definition slot_invariant (self : Audio.ElevenLabsTTS.t) : Prop :=
  forall tid th,
    Audio.ElevenLabsTTS.threads self !! tid = Some th ->
    Audio.ElevenLabsTTS.isRunning th = true ->
    Audio.ElevenLabsTTS.worker_thread self = Some tid.

(** What can be done to a worker object once it exists. *)
Inductive api_op : Type :=
| ApiStop
| ApiRun (e : Audio.ApiWorker.env).

Definition api_apply (w : Audio.ApiWorker.t) (o : api_op) : Audio.ApiWorker.t :=
  match o with
  | ApiStop => Audio.ApiWorker.stop w
  | ApiRun e => (Audio.ApiWorker.run w e).1
  end.

Inductive audio_op : Type :=
| AudioStop
| AudioRun (e : Audio.AudioGenerator.env).

Definition audio_apply (w : Audio.AudioGenerator.t) (o : audio_op)
    : Audio.AudioGenerator.t :=
  match o with
  | AudioStop => Audio.AudioGenerator.stop w
  | AudioRun e => (Audio.AudioGenerator.run w e).1
  end.

Inductive video_op : Type :=
| VideoStop
| VideoRun (repr : pyval -> string) (e : env).

Definition video_apply (w : t) (o : video_op) : t :=
  match o with
  | VideoStop => stop w
  | VideoRun repr e =>
      match run repr e w with
      | Some (w', _, _) => w'
      | None => w
      end
  end.

End Notions.

Import Notions.

(** ** Further notions: what a trace wrote, what a poll was answered *)

Module More.

Import Video Video.VideoTaskWorker.

(** The chunks given to [f.write], in order. *)
Fixpoint writes (tr : list Audio.AudioGenerator.event) : list bytes :=
  match tr with
  | [] => []
  | Audio.AudioGenerator.Write c :: rest => c :: writes rest
  | _ :: rest => writes rest
  end.

(** The paths carried by [finished]. *)
Fixpoint reported_paths (tr : list Audio.AudioGenerator.event) : list string :=
  match tr with
  | [] => []
  | Audio.AudioGenerator.Finished p _ _ :: rest => p :: reported_paths rest
  | _ :: rest => reported_paths rest
  end.

(** The non-empty chunks of a streamed body, in order. *)
Definition payload_chunks (items : list Audio.AudioGenerator.item) : list bytes :=
  List.filter nonempty (List.map Audio.AudioGenerator.chunk items).

(** What the streaming worker does before it reads the body. *)
Definition setup (ev : Audio.AudioGenerator.event) : bool :=
  match ev with
  | Audio.AudioGenerator.Request _
  | Audio.AudioGenerator.MakeDirs _
  | Audio.AudioGenerator.Open _ => true
  | _ => false
  end.

(** [expected_size] as the loop tests it. *)
Definition expected_of (h : Audio.AudioGenerator.length_header) : option Z :=
  match h with
  | Audio.AudioGenerator.Length n => Some n
  | _ => None
  end.

(** A status notification of the polling worker. *)
Definition status_update (ev : event) : bool :=
  match ev with
  | StatusUpdated _ => true
  | _ => false
  end.

(** What [get_task_result] answers to the query number [n] of worker [w]. *)
Definition answer (repr : pyval -> string) (e : env) (w : t) (n : nat)
    : pyval * pyval * string :=
  (NovitaApiClient.get_task_result repr (api_client w) (task_id w) (http e n)).1.

(** The answer to query [n] is neither "completed" nor "failed". *)
Definition pending_at (repr : pyval -> string) (e : env) (w : t) (n : nat) : Prop :=
  eq_str (answer repr e w n).1.1 "completed" = false
  /\ eq_str (answer repr e w n).1.1 "failed" = false.

(** The terminal signal the loop body emits for an answer, if any. *)
Definition signal_of (a : pyval * pyval * string) : option event :=
  let '(status, result, message) := a in
  if eq_str status "completed" then
    match get result "video_url" PyNone with
    | inr video_url =>
        Some (if truthy video_url then TaskCompleted video_url
              else TaskFailed "La tarea completó pero no se encontró URL de video.")
    | inl _ => None
    end
  else if eq_str status "failed" then Some (TaskFailed message)
  else None.

(** What holds of every event of a trace of the polling worker: a wait
    lasts five seconds, [task_completed] carries a true value, and
    [task_failed] never carries the message of the branch that finds no URL. *)
Definition well_reported (ev : event) : Prop :=
  match ev with
  | Sleep s => s = 5
  | TaskCompleted v => truthy v = true
  | TaskFailed m => m <> "La tarea completó pero no se encontró URL de video."
  | _ => True
  end.

(** The schedules of the speech window in which [_start_worker] is never
    called between the moment a thread stops and the moment the
    [_clear_worker_references] it posted runs. *)
Inductive orderly : Audio.ElevenLabsTTS.t -> Prop :=
| orderly_init : orderly Audio.ElevenLabsTTS.init
| orderly_next self a self' :
    orderly self ->
    Audio.ElevenLabsTTS.step self a self' ->
    (Audio.ElevenLabsTTS.queued_clears self = 0%nat
     \/ forall instance, a <> Audio.ElevenLabsTTS.Start instance) ->
    orderly self'.

(** What such schedules preserve: a running thread is the one the window
    refers to, and a clear is pending only while no thread runs. *)
Definition orderly_invariant (self : Audio.ElevenLabsTTS.t) : Prop :=
  slot_invariant self
  /\ (Audio.ElevenLabsTTS.queued_clears self = 0%nat
      \/ (Audio.ElevenLabsTTS.queued_clears self = 1%nat
          /\ forall tid, Audio.ElevenLabsTTS.thread_is_running self tid = false)).

(** The signals of the image worker whose slots give the controls back
    ([generation_finished] and [show_error] call [toggle_ui(True)]). *)
Definition releases_controls (ev : Imagenes.ImageGeneratorThread.event) : bool :=
  match ev with
  | Imagenes.ImageGeneratorThread.finished_signal _
  | Imagenes.ImageGeneratorThread.error_signal _ => true
  | _ => false
  end.

Definition image_request (ev : Imagenes.ImageGeneratorThread.event) : bool :=
  match ev with
  | Imagenes.ImageGeneratorThread.Post _ => true
  | _ => false
  end.

(** The events of the image worker that are Qt signals. *)
Definition image_signal (ev : Imagenes.ImageGeneratorThread.event) : bool :=
  negb (image_request ev).

(** The image window at work: the window and, for each thread started so
    far, the signals it emits that are still to be delivered (a thread emits
    from its own thread, the slots run later in the thread of the window, in
    the order of emission). *)
Record session : Type := mkSession {
  window : Imagenes.MainWindow.t;
  runs : list (list Imagenes.ImageGeneratorThread.event)
}.

(** What can happen to the window.  A disabled button is not clicked; the
    window can be resized at any time; the signals of a thread are delivered
    one by one.  The clicks that leave the record of the window as it is
    (saving the key, saving the picture) are not listed. *)
Inductive session_step : session -> session -> Prop :=
| click_generate s prompt api_key e :
    Imagenes.MainWindow.controls_enabled (window s) = true ->
    session_step s
      (mkSession (Imagenes.MainWindow.generate_image (window s) prompt api_key).1.1
         (runs s ++
          match (Imagenes.MainWindow.generate_image (window s) prompt api_key).2 with
          | Some w => [List.filter image_signal (Imagenes.ImageGeneratorThread.run w e)]
          | None => []
          end))
| click_clear s :
    Imagenes.MainWindow.controls_enabled (window s) = true ->
    session_step s (mkSession (Imagenes.MainWindow.clear_ui (window s)) (runs s))
| resized s :
    session_step s (mkSession (Imagenes.MainWindow.resizeEvent (window s)) (runs s))
| signal_delivered s i ev rest :
    runs s !! i = Some (ev :: rest) ->
    session_step s
      (mkSession (Imagenes.MainWindow.deliver (window s) ev) (<[i := rest]> (runs s))).

Inductive session_reachable : session -> Prop :=
| session_init : session_reachable (mkSession Imagenes.MainWindow.init [])
| session_next s s' :
    session_reachable s -> session_step s s' -> session_reachable s'.

(** A run that still has to give the controls back: its last signal does,
    and none before it. *)
Definition releases_last (pending : list Imagenes.ImageGeneratorThread.event) : Prop :=
  exists pre ev,
    pending = pre ++ [ev] /\ releases_controls ev = true
    /\ forallb (fun ev => negb (releases_controls ev)) pre = true.

(** The controls are enabled and nothing is pending, or they are disabled
    and exactly one thread has signals pending. *)
Definition session_invariant (s : session) : Prop :=
  Imagenes.MainWindow.progress_bar_visible (window s)
  = negb (Imagenes.MainWindow.controls_enabled (window s))
  /\ if Imagenes.MainWindow.controls_enabled (window s)
     then forall i pending, runs s !! i = Some pending -> pending = []
     else exists i pending,
         runs s !! i = Some pending /\ releases_last pending
         /\ forall j other, j <> i -> runs s !! j = Some other -> other = [].

End More.

Import More.

(** ** Concrete workers and environments *)

Module Examples.

Definition not_found : Response :=
  mkResponse 404 "Not Found" (list_byte_of_string "Not Found") (inl (RequestException "Expecting value")).

Definition connect_worker : Audio.ApiWorker.t :=
  Audio.ApiWorker.init "sk-key" "https://api.elevenlabs.io/v1/user" "GET" PyNone.

(** The service answers 404 and nobody stops the worker. *)
Definition answers_404 : Audio.ApiWorker.env :=
  Audio.ApiWorker.mkEnv (inr not_found) false.

(** The connection times out. *)
Definition times_out : Audio.ApiWorker.env :=
  Audio.ApiWorker.mkEnv (inl (RequestException "Read timed out.")) false.

Definition ok_stream : Response :=
  mkResponse 200 "" [] (inl (RequestException "Expecting value")).

Definition speech_worker : Audio.AudioGenerator.t :=
  Audio.AudioGenerator.init "sk-key" "voice-1" "Hola" "eleven_multilingual_v2"
    (binary_normalize prec emax 3 (-2) false) (binary_normalize prec emax 3 (-2) false).

(** A 200 answer whose stream ends after two empty chunks. *)
Definition empty_stream : Audio.AudioGenerator.env :=
  Audio.AudioGenerator.mkEnv (inr ok_stream) false
    "/home/user/.elevenlabs_tts" true None
    "/home/user/.elevenlabs_tts/temp_audio_0a1b2c3d.mp3" None
    Audio.AudioGenerator.NoLength
    [Audio.AudioGenerator.mkItem false [] None;
     Audio.AudioGenerator.mkItem false [] None]
    None true None.

(** A 200 answer that declares 10 bytes and delivers one chunk of 20. *)
Definition overlong_stream : Audio.AudioGenerator.env :=
  Audio.AudioGenerator.mkEnv (inr ok_stream) false
    "/home/user/.elevenlabs_tts" true None
    "/home/user/.elevenlabs_tts/temp_audio_0a1b2c3d.mp3" None
    (Audio.AudioGenerator.Length 10)
    [Audio.AudioGenerator.mkItem false (list_byte_of_string "ID3-0123456789abcdef") None]
    None true None.




Definition window_busy : Audio.ElevenLabsTTS.t :=
  (Audio.ElevenLabsTTS._start_worker Audio.ElevenLabsTTS.init
     (Audio.ElevenLabsTTS.AnApiWorker connect_worker)).1.1.





Definition plain_repr (v : pyval) : string := "{...}".

Definition processing : Response :=
  mkResponse 200 "" []
    (inr (PyDict [("task", PyDict [("status", PyStr "processing")])])).

Definition poller : Video.VideoTaskWorker.t :=
  Video.VideoTaskWorker.init (Video.NovitaApiClient.mk "nv-key") "0123456789abcdef".

(** The job stays in "processing" and nobody stops the worker. *)
Definition always_processing : Video.VideoTaskWorker.env :=
  Video.VideoTaskWorker.mkEnv (fun _ => false) false (fun _ => inr processing).

(** The job stays in "processing"; [stop()] is called during the second
    iteration. *)
Definition stopped_in_loop : Video.VideoTaskWorker.env :=
  Video.VideoTaskWorker.mkEnv (fun n => Nat.eqb n 2) false (fun _ => inr processing).

Definition stopped_poller : Video.VideoTaskWorker.t :=
  Video.VideoTaskWorker.stop poller.

End Examples.

(** ** More concrete answers and environments *)

Module Examples2.

Import Examples.

(** The job is done and its result holds the URL "X". *)
Definition completed_X : Response :=
  mkResponse 200 "" []
    (inr (PyDict [("task", PyDict [("status", PyStr "completed");
                                   ("result", PyDict [("video_url", PyStr "X")])])])).

(** Three queries find the job in "processing", the fourth finds it
    completed. *)
Definition done_on_fourth : Video.VideoTaskWorker.env :=
  Video.VideoTaskWorker.mkEnv (fun _ => false) false
    (fun n => if (n <? 4)%nat then inr processing else inr completed_X).

(** The second query cannot reach the service. *)
Definition fails_on_second : Video.VideoTaskWorker.env :=
  Video.VideoTaskWorker.mkEnv (fun _ => false) false
    (fun n => if (n <? 2)%nat then inr processing
              else inl (RequestException "Connection aborted.")).

(** A 200 answer that is a JSON object without the task. *)
Definition empty_object : Response :=
  mkResponse 200 "{}" (list_byte_of_string "{}") (inr (PyDict [])).

Definition always_empty_object : Video.VideoTaskWorker.env :=
  Video.VideoTaskWorker.mkEnv (fun _ => false) false (fun _ => inr empty_object).

(** The answer to a submission that was accepted. *)
Definition accepted : Response :=
  mkResponse 200 "" []
    (inr (PyDict [("task_id", PyStr "0123456789abcdef")])).

Definition client : Video.NovitaApiClient.t := Video.NovitaApiClient.mk "nv-key".

(** A 200 answer whose body is the JSON list [[]]. *)
Definition ok_list : Response :=
  mkResponse 200 "[]" (list_byte_of_string "[]") (inr (PyList [])).

(** The service answers 200 and nobody stops the worker. *)
Definition answers_ok : Audio.ApiWorker.env :=
  Audio.ApiWorker.mkEnv (inr ok_list) false.

(** The service answers 200, but [stop()] lands while the request is out. *)
Definition stopped_while_asking : Audio.ApiWorker.env :=
  Audio.ApiWorker.mkEnv (inr ok_list) true.

(** A 200 answer without a declared length: a chunk, an empty chunk, a
    chunk. *)
Definition three_items : Audio.AudioGenerator.env :=
  Audio.AudioGenerator.mkEnv (inr ok_stream) false
    "/home/user/.elevenlabs_tts" false None
    "/home/user/.elevenlabs_tts/temp_audio_0a1b2c3d.mp3" None
    Audio.AudioGenerator.NoLength
    [Audio.AudioGenerator.mkItem false (list_byte_of_string "ID3-") None;
     Audio.AudioGenerator.mkItem false [] None;
     Audio.AudioGenerator.mkItem false (list_byte_of_string "0123") None]
    None true None.

(** The same answer, but [stop()] lands while the request is out. *)
Definition stopped_while_posting : Audio.AudioGenerator.env :=
  Audio.AudioGenerator.mkEnv (inr ok_stream) true
    "/home/user/.elevenlabs_tts" false None
    "/home/user/.elevenlabs_tts/temp_audio_0a1b2c3d.mp3" None
    Audio.AudioGenerator.NoLength
    [Audio.AudioGenerator.mkItem false (list_byte_of_string "ID3-") None]
    None false None.

(** The window once the worker of its only thread has emitted [finished]. *)
Definition window_finishing : Audio.ElevenLabsTTS.t :=
  Audio.ElevenLabsTTS.on_worker_finished window_busy 0.

(** The window once that thread has stopped and its clear has run. *)
Definition window_released : Audio.ElevenLabsTTS.t :=
  Audio.ElevenLabsTTS.on_clear_delivered
    (Audio.ElevenLabsTTS.on_thread_finished window_finishing 0).

(** The image service answers with a picture. *)
Definition picture : Response :=
  mkResponse 200 "" (list_byte_of_string "JFIF-0123") (inl (OtherException "Expecting value")).

Definition image_ok : Imagenes.ImageGeneratorThread.env :=
  Imagenes.ImageGeneratorThread.mkEnv (inr picture) (float_of_int 2).

(** The image service is loading its model. *)
Definition loading : Response :=
  mkResponse 503 "Model is loading" (list_byte_of_string "Model is loading")
    (inl (OtherException "Expecting value")).

Definition image_refused : Imagenes.ImageGeneratorThread.env :=
  Imagenes.ImageGeneratorThread.mkEnv (inr loading) (float_of_int 2).

(** The image window after its first click on "Generar Imagen". *)
Definition one_click : session :=
  mkSession
    (Imagenes.MainWindow.generate_image Imagenes.MainWindow.init "un gato" "hf_0123").1.1
    ([] ++
     match (Imagenes.MainWindow.generate_image Imagenes.MainWindow.init
              "un gato" "hf_0123").2 with
     | Some w => [List.filter image_signal (Imagenes.ImageGeneratorThread.run w image_ok)]
     | None => []
     end).

(** An image window that shows a picture. *)
Definition window_with_picture : Imagenes.MainWindow.t :=
  Imagenes.MainWindow.process_image Imagenes.MainWindow.init
    (list_byte_of_string "JFIF-0123").

End Examples2.
(** * Properties *)

(** ** The simple request worker *)

Section ApiWorkerFacts.

Import Audio.ApiWorker.

Implicit Types (w : t) (e : env).

Lemma run_cancelled_before w e :
  is_running w = false ->
  run w e = (w, [Finished NoData false "Operación cancelada antes de iniciar."]).
Proof. intros H. unfold run. now rewrite H. Qed.


(** A non-200 answer that arrives while the worker is still running is
    reported with its status code and its body. *)
Lemma api_run_http_status w e r :
  is_running w = true ->
  method w = "GET" \/ method w = "POST" ->
  http e = inr r ->
  status_code r <> 200 ->
  stop_during_request e = false ->
  (run w e).2 =
    [Request (method w) (endpoint w);
     Finished NoData false
       ("Error: " +:+ pretty (status_code r) +:+ " - " +:+ Py.text r)].
Proof.
  intros Hr Hm Hh Hs Hstop.
  unfold run, run_try, after_request, observe_stop.
  rewrite Hr, Hh, Hstop. simpl. rewrite Hr. simpl.
  apply Z.eqb_neq in Hs. rewrite Hs.
  destruct Hm as [-> | ->]; reflexivity.
Qed.

(** A [RequestException] raised by the request is reported as a network
    error, whatever [stop()] did meanwhile. *)
Lemma api_run_network w e m :
  is_running w = true ->
  method w = "GET" \/ method w = "POST" ->
  http e = inl (RequestException m) ->
  (run w e).2 =
    [Request (method w) (endpoint w); Finished NoData false ("Error de red: " +:+ m)].
Proof.
  intros Hr Hm Hh.
  unfold run, run_try. rewrite Hr, Hh. simpl.
  destruct Hm as [-> | ->]; reflexivity.
Qed.

(** [finished] carries [success = True] only for an answer with status 200. *)
Lemma api_run_success_200 w e ev :
  In ev (run w e).2 -> api_success ev = true ->
  exists r, http e = inr r /\ status_code r = 200.
Proof.
  unfold run, run_try, after_request, observe_stop, stop.
  destruct (is_running w) eqn:Hr; simpl.
  2: { intros [<- | []]; discriminate. }
  repeat (case_match; simplify_eq; simpl in * );
    intros Hin Hok;
    repeat (destruct Hin as [<- | Hin]; try discriminate);
    try contradiction.
  all: match goal with
    | H : (status_code ?r =? 200)%Z = true |- _ =>
        exists r; split; [reflexivity | now apply Z.eqb_eq]
    end.
Qed.

Lemma api_run_no_success w e :
  (forall r, http e = inr r -> status_code r <> 200) ->
  forallb (fun ev => negb (api_success ev)) (run w e).2 = true.
Proof.
  intros H. apply forallb_forall. intros ev Hin.
  destruct (api_success ev) eqn:Hok; [| reflexivity].
  destruct (api_run_success_200 w e ev Hin Hok) as (r & Hr & Hs).
  now destruct (H r Hr).
Qed.

(** The flag after [run], and after [stop]. *)
Lemma api_run_clears_flag w e : is_running (run w e).1 = false.
Proof.
  unfold run. destruct (is_running w) eqn:Hr; simpl; [| exact Hr].
  destruct (run_try w e) as [[w1 evs] r]. reflexivity.
Qed.

End ApiWorkerFacts.

(** ** The streaming download worker *)

Section AudioGeneratorFacts.

Import Audio.AudioGenerator.

Implicit Types (w : t) (e : env) (items : list item).

Lemma audio_run_cancelled_before w e :
  is_running w = false ->
  run w e = (w, [Finished "" false "Generación de audio cancelada antes de iniciar."]).
Proof. intros H. unfold run. now rewrite H. Qed.

(** Either every chunk of a body is empty or one is not. *)
Lemma classic_all_empty items :
  (forall it, In it items -> chunk it = [])
  \/ (exists it, In it items /\ chunk it <> []).
Proof.
  induction items as [| it rest [IH | (it' & Hin & Hne)]].
  - left. intros it [].
  - destruct (chunk it) as [| b bs] eqn:Hc.
    + left. intros it' [<- | Hin]; auto.
    + right. exists it. split; [now left | congruence].
  - right. exists it'. split; [now right | exact Hne].
Qed.








Lemma download_no_success e expected items :
  forall i w total,
    forallb (fun ev => negb (audio_success ev))
            (download e expected items i w total).1.2 = true.
Proof.
  induction items as [| it rest IH]; intros i w total; simpl.
  - destruct (body_error e); reflexivity.
  - destruct (negb (is_running (observe_stop (stop_before it) w))); [reflexivity |].
    destruct (negb (nonempty (chunk it))); [apply IH |].
    destruct (write_error it); [reflexivity |].
    match goal with |- context [match ?x with inl _ => _ | inr _ => _ end] =>
      destruct x as [ex | p] end; [reflexivity |].
    match goal with |- context [download e expected rest ?i' ?w' ?t'] =>
      specialize (IH i' w' t'); destruct (download e expected rest i' w' t')
        as [[[w'' total''] evs] fl] end.
    exact IH.
Qed.

(** Empty chunks are skipped: they are neither written nor counted. *)
Lemma download_all_empty_total e expected items :
  (forall it, In it items -> chunk it = []) ->
  forall i w total, (download e expected items i w total).1.1.2 = total.
Proof.
  induction items as [| it rest IH]; intros Hall i w total; simpl.
  - destruct (body_error e); reflexivity.
  - destruct (negb (is_running (observe_stop (stop_before it) w))); [reflexivity |].
    rewrite (Hall it (or_introl eq_refl)). simpl.
    apply IH. intros it' Hin. apply Hall. now right.
Qed.

(** A stream of empty chunks that is read to its end leaves the loop
    normally, with nothing written and nothing emitted. *)
Lemma download_all_empty e expected items :
  body_error e = None ->
  (forall it, In it items -> chunk it = [] /\ stop_before it = false) ->
  forall i w total,
    is_running w = true ->
    download e expected items i w total = (w, total, [], Normal).
Proof.
  intros Hend. induction items as [| it rest IH]; intros Hall i w total Hr; simpl.
  - now rewrite Hend.
  - destruct (Hall it (or_introl eq_refl)) as [Hc Hs].
    rewrite Hs, Hc. simpl. rewrite Hr. simpl.
    apply IH; [| exact Hr]. intros it' Hin. apply Hall. now right.
Qed.

(** [finished] carries [success = True] only after an answer with status 200
    whose body brought at least one non-empty chunk. *)
Lemma audio_run_success_inv w e ev :
  In ev (run w e).2 -> audio_success ev = true ->
  (exists r, http e = inr r /\ status_code r = 200)
  /\ (exists it, In it (body e) /\ chunk it <> []).
Proof.
  unfold run.
  destruct (is_running w) eqn:Hr; simpl.
  2: { intros [<- | []]; discriminate. }
  unfold run_try.
  destruct (http e) as [ex | r].
  { destruct ex; simpl; intros [<- | [<- | []]]; discriminate. }
  destruct (negb (is_running (observe_stop (stop_during_request e) w))).
  { simpl; intros [<- | [<- | []]]; discriminate. }
  destruct (status_code r =? 200)%Z eqn:Hs.
  2: { simpl; intros [<- | [<- | []]]; discriminate. }
  apply Z.eqb_eq in Hs.
  intros Hin Hok. split; [now exists r |].
  destruct (classic_all_empty (body e)) as [Hall | Hex]; [| exact Hex].
  exfalso. revert Hin Hok.
  unfold save_stream.
  assert (Hdir : forall ev', In ev' (if temp_dir_exists e then []
                                     else [MakeDirs (temp_dir e)]) ->
                             audio_success ev' = false).
  { destruct (temp_dir_exists e); [intros ? [] | intros ? [<- | []]; reflexivity]. }
  assert (Hfin : forall l, (forall ev', In ev' l -> audio_success ev' = false) ->
                           In ev l -> audio_success ev = true -> False).
  { intros l Hl Hin Hok. rewrite (Hl _ Hin) in Hok. discriminate. }
  destruct (if temp_dir_exists e then None else makedirs_error e) as [ex |].
  { destruct ex; simpl; intros [<- | [<- | []]]; discriminate. }
  destruct (open_error e) as [ex |].
  { apply Hfin. destruct ex; simpl; intros ev' [<- | Hin]; try reflexivity;
      apply in_app_or in Hin as [Hin | [<- | []]]; auto. }
  set (w0 := observe_stop (stop_during_request e) w).
  destruct (content_length e) as [| n | ex].
  3: { apply Hfin. destruct ex; simpl; intros ev' [<- | Hin]; try reflexivity;
         apply in_app_or in Hin as [Hin | [<- | []]]; try reflexivity;
         apply in_app_or in Hin as [Hin | [<- | []]]; auto. }
  all: match goal with |- context [download ?e' ?x ?b ?i ?w' ?t'] =>
         pose proof (download_no_success e' x b i w' t') as Hd;
         pose proof (download_all_empty_total e' x b Hall i w' t') as Ht;
         destruct (download e' x b i w' t') as [[[w1 total] evs] fl] end.
  all: simpl in Hd, Ht; subst total; rewrite forallb_forall in Hd.
  all: unfold close; simpl.
  all: assert (Hevs : forall ev', In ev' evs -> audio_success ev' = false)
         by (intros ev' Hin; apply negb_true_iff; now apply Hd).
  all: apply Hfin.
  all: destruct fl as [| | ex]; simpl; try destruct ex; simpl.
  all: intros ev' [<- | Hin]; try reflexivity.
  all: repeat (apply in_app_or in Hin as [Hin | Hin]); auto.
  all: repeat (destruct Hin as [<- | Hin]; try reflexivity); try contradiction.
Qed.

(** The run of a download whose stream ends, after a 200 answer, without a
    single byte. *)
Lemma audio_run_empty w e r :
  is_running w = true ->
  http e = inr r -> status_code r = 200 ->
  stop_during_request e = false ->
  (if temp_dir_exists e then None else makedirs_error e) = None ->
  open_error e = None ->
  (forall ex, content_length e <> BadLength ex) ->
  body_error e = None ->
  (forall it, In it (body e) -> chunk it = [] /\ stop_before it = false) ->
  (run w e).2 =
    Request (url w)
    :: (if temp_dir_exists e then [] else [MakeDirs (temp_dir e)])
    ++ [Open (temp_file e);
        Finished (temp_file e) false "Error: Archivo de audio generado está vacío."].
Proof.
  intros Hr Hh Hs Hstop Hmk Hop Hcl Hend Hall.
  unfold run, run_try, save_stream.
  rewrite Hr, Hh, Hstop, Hs, Hmk, Hop. simpl negb. cbv iota. simpl observe_stop.
  rewrite Hr. simpl negb. cbv iota.
  destruct (content_length e) as [| n | ex] eqn:Hc; [| | now destruct (Hcl ex)].
  all: rewrite (download_all_empty e _ (body e) Hend Hall 0%nat w 0 Hr).
  all: unfold close; simpl; now rewrite <- app_assoc.
Qed.


Lemma audio_run_clears_flag w e : is_running (run w e).1 = false.
Proof.
  unfold run. destruct (is_running w) eqn:Hr; simpl; [| exact Hr].
  destruct (run_try w e) as [[[w1 evs] fl] assigned]. reflexivity.
Qed.

End AudioGeneratorFacts.

(** ** The API client of the video tool *)

Section ClientFacts.

Import Video Video.NovitaApiClient.

Variable repr : pyval -> string.

Implicit Types (c : t) (http : exn + Response).

(** [get_task_result] answers "completed" only with a result that is a dict
    holding a true [video_url]. *)
Lemma task_result_of_completed r tid status result msg :
  task_result_of repr r tid = inr (status, result, msg) ->
  eq_str status "completed" = true ->
  exists v, get result "video_url" PyNone = inr v /\ truthy v = true.
Proof.
  unfold task_result_of.
  repeat (case_match; simplify_eq; try discriminate);
    intros Heq Hc; simplify_eq; try discriminate; eauto; congruence.
Qed.

Lemma get_task_result_completed c tid http status result msg evs :
  get_task_result repr c tid http = ((status, result, msg), evs) ->
  eq_str status "completed" = true ->
  exists v, get result "video_url" PyNone = inr v /\ truthy v = true.
Proof.
  unfold get_task_result.
  repeat (case_match; simplify_eq; try discriminate);
    intros Heq Hc; simplify_eq; try discriminate.
  eapply task_result_of_completed; eassumption.
Qed.

(** The message of a "failed" answer never begins like the timeout
    message. *)
Lemma task_result_of_failed_prefix r tid status result msg :
  task_result_of repr r tid = inr (status, result, msg) ->
  eq_str status "failed" = true ->
  prefix 2 msg <> "Ti".
Proof.
  unfold task_result_of.
  repeat (case_match; simplify_eq; try discriminate);
    intros Heq Hc; simplify_eq; try discriminate; try congruence.
Qed.

Lemma get_task_result_failed_prefix c tid http status result msg evs :
  get_task_result repr c tid http = ((status, result, msg), evs) ->
  eq_str status "failed" = true ->
  prefix 2 msg <> "Ti".
Proof.
  unfold get_task_result.
  repeat (case_match; simplify_eq; try discriminate);
    intros Heq Hc; simplify_eq; try discriminate.
  eapply task_result_of_failed_prefix; eassumption.
Qed.




(** A call issues at most one request. *)
Lemma get_task_result_events c tid http :
  (get_task_result repr c tid http).2 = []
  \/ exists u, (get_task_result repr c tid http).2 = [Get u].
Proof.
  unfold get_task_result. repeat case_match; simpl; eauto.
Qed.

End ClientFacts.

(** ** The polling worker *)

Section VideoTaskWorkerFacts.

Import Video Video.VideoTaskWorker.

Variable repr : pyval -> string.
Variable e : env.

Implicit Types (w : t).

(** One iteration either goes on with the worker unchanged or emits one
    terminal signal, as its last event, and clears the flag.  It never
    raises. *)
Lemma poll_once_cases w n :
  exists q m,
    (q = [] \/ exists u, q = [Get u]) /\
    (poll_once repr e w n = (w, Sleep polling_interval :: q ++ [StatusUpdated m], Normal)
     \/ exists T, terminal T = true /\
          poll_once repr e w n =
            (set_is_running false w,
             Sleep polling_interval :: q ++ [StatusUpdated m; T], Normal)).
Proof.
  unfold poll_once.
  pose proof (get_task_result_events repr (api_client w) (task_id w) (http e n)) as Hq.
  destruct (NovitaApiClient.get_task_result repr (api_client w) (task_id w) (http e n))
    as [[[status result] message] issued] eqn:Hg.
  simpl in Hq.
  exists issued, ("Tarea " +:+ prefix 8 (task_id w) +:+ "... - " +:+ message).
  split; [exact Hq |].
  destruct (eq_str status "completed") eqn:Hc.
  - destruct (get_task_result_completed repr _ _ _ _ _ _ _ Hg Hc) as (v & -> & ->).
    right. exists (TaskCompleted v). split; [reflexivity |].
    f_equal. f_equal. simpl. f_equal. now rewrite <- app_assoc.
  - destruct (eq_str status "failed").
    + right. exists (TaskFailed message). split; [reflexivity |].
      f_equal. f_equal. simpl. f_equal. now rewrite <- app_assoc.
    + now left.
Qed.

(** What an iteration reports on [task_failed] differs from the timeout
    message of any worker. *)
Lemma poll_once_failed_message w n m w' :
  In (TaskFailed m) (poll_once repr e w n).1.2 -> m <> timeout_message w'.
Proof.
  unfold poll_once.
  destruct (NovitaApiClient.get_task_result repr (api_client w) (task_id w) (http e n))
    as [[[status result] message] issued] eqn:Hg.
  pose proof (get_task_result_events repr (api_client w) (task_id w) (http e n)) as Hq.
  rewrite Hg in Hq. simpl in Hq.
  assert (Hti : prefix 2 (timeout_message w') = "Ti") by reflexivity.
  set (evs0 := Sleep polling_interval :: issued ++
        [StatusUpdated ("Tarea " +:+ prefix 8 (task_id w) +:+ "... - " +:+ message)]).
  assert (Hbase : ~ In (TaskFailed m) evs0).
  { unfold evs0. destruct Hq as [-> | (u & ->)]; simpl; intros Hin;
      repeat (destruct Hin as [Hin | Hin]; try discriminate); exact Hin. }
  assert (Hev : forall T, In (TaskFailed m) (evs0 ++ [T]) -> T = TaskFailed m).
  { intros T Hin. apply in_app_or in Hin as [Hin | [Hin | []]]; [now destruct Hbase | exact Hin]. }
  destruct (eq_str status "completed") eqn:Hc.
  - destruct (get result "video_url" PyNone) as [ex | v]; simpl.
    + intros Hin. now destruct Hbase.
    + destruct (truthy v); simpl; intros Hin; apply Hev in Hin; try discriminate.
      injection Hin as <-. intros Heq.
      apply (f_equal (prefix 2)) in Heq. rewrite Hti in Heq. discriminate.
  - destruct (eq_str status "failed") eqn:Hf; simpl; intros Hin.
    + apply Hev in Hin. injection Hin as <-.
      intros Heq. apply (f_equal (prefix 2)) in Heq. rewrite Hti in Heq.
      now apply (get_task_result_failed_prefix repr _ _ _ _ _ _ _ Hg Hf).
    + now destruct Hbase.
Qed.

Lemma poll_once_normal w n : (poll_once repr e w n).2 = Normal.
Proof.
  destruct (poll_once_cases w n) as (q & m & _ & [-> | (T & _ & ->)]); reflexivity.
Qed.

(** Enough fuel: one unit per poll that is left, and one for the last
    evaluation of the condition. *)
Lemma poll_loop_total max_polls fuel :
  forall w poll_count,
    (max_polls - poll_count < fuel)%nat ->
    exists r, poll_loop repr e fuel max_polls w poll_count = Some r.
Proof.
  induction fuel as [| fuel IH]; intros w pc Hlt; [lia |].
  simpl.
  destruct (_is_running (observe_stop (stop_before_poll e pc) w)
            && (pc <? max_polls)%nat) eqn:Hcond; [| eauto].
  apply andb_true_iff in Hcond as [_ Hpc]. apply Nat.ltb_lt in Hpc.
  pose proof (poll_once_normal (observe_stop (stop_before_poll e pc) w) (S pc)) as Hn.
  destruct (poll_once repr e _ (S pc)) as [[w2 evs] fl]. simpl in Hn. subst fl.
  destruct (IH w2 (S pc)) as ([[[w3 n] evs'] fl'] & ->); [lia | eauto].
Qed.

(** Induction along the iterations of the loop. *)
Lemma poll_loop_elim max_polls (P : t -> nat -> t * nat * list event * flow -> Prop) :
  (forall w poll_count,
      _is_running (observe_stop (stop_before_poll e poll_count) w)
      && (poll_count <? max_polls)%nat = false ->
      P w poll_count
        (observe_stop (stop_before_poll e poll_count) w, poll_count,
         [ReadFlag (_is_running (observe_stop (stop_before_poll e poll_count) w))],
         Normal)) ->
  (forall w poll_count w2 evs w3 n evs' fl,
      _is_running (observe_stop (stop_before_poll e poll_count) w) = true ->
      (poll_count < max_polls)%nat ->
      poll_once repr e (observe_stop (stop_before_poll e poll_count) w) (S poll_count)
        = (w2, evs, Normal) ->
      P w2 (S poll_count) (w3, n, evs', fl) ->
      P w poll_count (w3, n, ReadFlag true :: evs ++ evs', fl)) ->
  forall fuel w poll_count r,
    poll_loop repr e fuel max_polls w poll_count = Some r -> P w poll_count r.
Proof.
  intros Hexit Hstep.
  induction fuel as [| fuel IH]; intros w pc r; simpl; [discriminate |].
  destruct (_is_running (observe_stop (stop_before_poll e pc) w)
            && (pc <? max_polls)%nat) eqn:Hcond.
  2: { intros [= <-]. now apply Hexit. }
  apply andb_true_iff in Hcond as [Hrun Hpc]. apply Nat.ltb_lt in Hpc.
  pose proof (poll_once_normal (observe_stop (stop_before_poll e pc) w) (S pc)) as Hn.
  destruct (poll_once repr e _ (S pc)) as [[w2 evs] fl] eqn:Hpo. simpl in Hn. subst fl.
  destruct (poll_loop repr e fuel max_polls w2 (S pc)) as [[[[w3 n] evs'] fl'] |] eqn:Hrec;
    [| discriminate].
  intros [= <-]. eapply Hstep; eauto.
Qed.

Lemma running_observe_stop b w :
  _is_running (observe_stop b w) = _is_running w && negb b.
Proof. destruct b; simpl; [now rewrite andb_false_r | now rewrite andb_true_r]. Qed.

Lemma poll_loop_outcome max_polls fuel w poll_count r :
  poll_loop repr e fuel max_polls w poll_count = Some r -> loop_outcome e w r.
Proof.
  revert fuel w poll_count r.
  apply (poll_loop_elim max_polls (fun w _ r => loop_outcome e w r)).
  - intros w pc Hcond. unfold loop_outcome.
    split; [reflexivity |]. split.
    + intros Hw. rewrite running_observe_stop, Hw. now split.
    + right. split; [reflexivity |].
      rewrite running_observe_stop. intros Hf.
      apply andb_false_iff in Hf as [Hf | Hf]; [now left |].
      right. exists pc. now apply negb_false_iff.
  - intros w pc w2 evs w3 n evs' fl Hrun Hpc Hpo IH.
    unfold loop_outcome in *.
    destruct IH as (-> & Hdown & IH).
    rewrite running_observe_stop in Hrun.
    apply andb_true_iff in Hrun as [Hw Hstop].
    split; [reflexivity |]. split; [intros Hf; congruence |].
    destruct (poll_once_cases (observe_stop (stop_before_poll e pc) w) (S pc))
      as (q & m & Hq & [Hc | (T & HT & Hc)]);
      rewrite Hc in Hpo; injection Hpo as <- <-.
    + (* the iteration goes on *)
      assert (Hevs : forallb (fun ev => negb (terminal ev))
                       (ReadFlag true :: Sleep polling_interval :: q ++ [StatusUpdated m])
                     = true).
      { destruct Hq as [-> | (u & ->)]; reflexivity. }
      destruct IH as [(pre & T & post & -> & HT & Hpre & Hpost & Hf) | (Hno & Hf)].
      * left. exists (ReadFlag true :: (Sleep polling_interval :: q ++ [StatusUpdated m]) ++ pre),
          T, post.
        repeat split; auto.
        -- simpl. now rewrite <- !app_assoc.
        -- change (forallb (fun ev => negb (terminal ev))
                     ((ReadFlag true :: Sleep polling_interval :: q ++ [StatusUpdated m])
                      ++ pre) = true).
           now rewrite forallb_app, Hevs, Hpre.
      * right. split.
        -- change (forallb (fun ev => negb (terminal ev))
                     ((ReadFlag true :: Sleep polling_interval :: q ++ [StatusUpdated m])
                      ++ evs') = true).
           now rewrite forallb_app, Hevs, Hno.
        -- intros Hw3. destruct (Hf Hw3) as [Hf' | Hk]; [| now right].
           rewrite running_observe_stop, Hw, Hstop in Hf'. discriminate.
    + (* the iteration ends the task *)
      destruct (Hdown eq_refl) as [-> Hw3].
      left. exists (ReadFlag true :: Sleep polling_interval :: q ++ [StatusUpdated m]),
        T, [ReadFlag false].
      repeat split; auto.
      * simpl. rewrite <- !app_assoc. reflexivity.
      * destruct Hq as [-> | (u & ->)]; reflexivity.
Qed.

(** [run] always returns, without raising; it emits one terminal signal and
    no signal after it, or none at all, and then a [stop()] was seen. *)
Lemma video_run_outcome max_polls w :
  exists w' tr,
    run_with repr e (S max_polls) max_polls w = Some (w', tr, Normal)
    /\ ((exists pre T post,
           tr = pre ++ T :: post /\ terminal T = true
           /\ forallb (fun ev => negb (terminal ev)) pre = true
           /\ forallb (fun ev => negb (signal ev)) post = true)
        \/ (forallb (fun ev => negb (terminal ev)) tr = true
            /\ (_is_running w = false
                \/ (exists k, stop_before_poll e k = true)
                \/ stop_before_exit e = true))).
Proof.
  unfold run_with.
  destruct (poll_loop_total max_polls (S max_polls) w 0) as ([[[w1 n] evs] fl] & Hl); [lia |].
  rewrite Hl. pose proof (poll_loop_outcome _ _ _ _ _ Hl) as (-> & _ & Hout).
  destruct Hout as [(pre & T & post & -> & HT & Hpre & Hpost & Hf) | (Hno & Hf)].
  - rewrite running_observe_stop, Hf. simpl.
    eexists _, _. split; [reflexivity |]. left.
    exists (StatusUpdated ("Iniciando monitoreo de tarea: " +:+ task_id w) :: pre),
      T, (post ++ [ReadFlag false]).
    repeat split; auto.
    + simpl. now rewrite <- app_assoc.
    + now rewrite forallb_app, Hpost.
  - destruct (_is_running (observe_stop (stop_before_exit e) w1)) eqn:Hfinal.
    + eexists _, _. split; [reflexivity |]. left.
      exists (StatusUpdated ("Iniciando monitoreo de tarea: " +:+ task_id w)
                :: evs ++ [ReadFlag true]),
        (TaskFailed (timeout_message (observe_stop (stop_before_exit e) w1))), [].
      repeat split; auto.
      * simpl. now rewrite <- app_assoc.
      * simpl. now rewrite forallb_app, Hno.
    + eexists _, _. split; [reflexivity |]. right. split.
      * simpl. now rewrite forallb_app, Hno.
      * rewrite running_observe_stop in Hfinal.
        apply andb_false_iff in Hfinal as [Hw1 | Hs].
        -- destruct (Hf Hw1) as [H | H]; auto.
        -- right. right. now apply negb_false_iff.
Qed.

(** While the remote job is pending an iteration waits, asks once, and
    reports the status. *)
Lemma poll_once_pending w n :
  never_terminal repr e w ->
  exists u m,
    poll_once repr e w n
    = (w, [Sleep polling_interval; Get u; StatusUpdated m], Normal).
Proof.
  intros Hnt. specialize (Hnt n). simpl in Hnt. destruct Hnt as [Hc Hf].
  unfold poll_once.
  destruct (NovitaApiClient.get_task_result repr (api_client w) (task_id w) (http e n))
    as [[[status result] message] issued] eqn:Hg.
  simpl in Hc, Hf. rewrite Hc, Hf.
  revert Hg. unfold NovitaApiClient.get_task_result.
  destruct (String.eqb (NovitaApiClient.api_key (api_client w)) "").
  { intros [= <- <- <- <-]. discriminate. }
  destruct (String.eqb (task_id w) "").
  { intros [= <- <- <- <-]. discriminate. }
  intros [= _ <-]. simpl. eauto.
Qed.

(** With nothing to stop it the loop runs until the count is reached: one
    query for each remaining poll, and no terminal signal. *)
Lemma poll_loop_pending max_polls fuel w poll_count r :
  poll_loop repr e fuel max_polls w poll_count = Some r ->
  _is_running w = true ->
  (forall n, stop_before_poll e n = false) ->
  never_terminal repr e w ->
  exists evs,
    r = (w, Nat.max poll_count max_polls, evs, Normal)
    /\ length (List.filter query evs) = (max_polls - poll_count)%nat
    /\ forallb (fun ev => negb (terminal ev)) evs = true.
Proof.
  revert fuel w poll_count r.
  apply (poll_loop_elim max_polls
           (fun w pc r =>
              _is_running w = true ->
              (forall n, stop_before_poll e n = false) ->
              never_terminal repr e w ->
              exists evs,
                r = (w, Nat.max pc max_polls, evs, Normal)
                /\ length (List.filter query evs) = (max_polls - pc)%nat
                /\ forallb (fun ev => negb (terminal ev)) evs = true)).
  - intros w pc Hcond Hw Hs Hnt.
    rewrite Hs in Hcond. simpl in Hcond. rewrite Hw in Hcond. simpl in Hcond.
    apply Nat.ltb_ge in Hcond.
    rewrite Hs. simpl. rewrite Hw.
    exists [ReadFlag true]. repeat split.
    + do 3 f_equal. lia.
    + simpl. lia.
  - intros w pc w2 evs w3 n evs' fl Hrun Hpc Hpo IH Hw Hs Hnt.
    rewrite Hs in Hpo. simpl in Hpo.
    destruct (poll_once_pending w (S pc) Hnt) as (u & m & Hp).
    rewrite Hp in Hpo. injection Hpo as <- <-.
    destruct (IH Hw Hs Hnt) as (evs0 & [= -> -> -> ->] & Hlen & Hno).
    eexists. repeat split.
    + do 3 f_equal. lia.
    + simpl. rewrite Hlen. lia.
    + simpl. exact Hno.
Qed.

(** The run that times out. *)
Lemma video_run_timeout max_polls w :
  _is_running w = true ->
  never_stopped e ->
  never_terminal repr e w ->
  exists evs,
    run_with repr e (S max_polls) max_polls w
    = Some (w, StatusUpdated ("Iniciando monitoreo de tarea: " +:+ task_id w)
               :: evs ++ [ReadFlag true; TaskFailed (timeout_message w)], Normal)
    /\ length (List.filter query evs) = max_polls
    /\ forallb (fun ev => negb (terminal ev)) evs = true.
Proof.
  intros Hw [Hs Hx] Hnt. unfold run_with.
  destruct (poll_loop_total max_polls (S max_polls) w 0) as (r & Hl); [lia |].
  rewrite Hl.
  destruct (poll_loop_pending _ _ _ _ _ Hl Hw Hs Hnt) as (evs & -> & Hlen & Hno).
  rewrite Hx. simpl. rewrite Hw.
  exists evs. repeat split; auto. lia.
Qed.

(** [run] never raises the flag. *)
Lemma video_run_flag max_polls fuel w r :
  run_with repr e fuel max_polls w = Some r ->
  _is_running w = false -> _is_running r.1.1 = false.
Proof.
  unfold run_with.
  destruct (poll_loop repr e fuel max_polls w 0) as [[[[w1 n] evs] fl] |] eqn:Hl;
    [| discriminate].
  pose proof (poll_loop_outcome _ _ _ _ _ Hl) as (-> & Hdown & _).
  intros Hr Hw. destruct (Hdown Hw) as [_ Hw1].
  assert (Hfinal : _is_running (observe_stop (stop_before_exit e) w1) = false)
    by (now rewrite running_observe_stop, Hw1).
  rewrite Hfinal in Hr. injection Hr as <-. exact Hfinal.
Qed.

(** A worker stopped before it starts only announces itself. *)
Lemma video_run_cancelled_before max_polls fuel w :
  _is_running w = false ->
  run_with repr e (S fuel) max_polls w
  = Some (observe_stop (stop_before_exit e) (observe_stop (stop_before_poll e 0) w),
          [StatusUpdated ("Iniciando monitoreo de tarea: " +:+ task_id w);
           ReadFlag false; ReadFlag false],
          Normal).
Proof.
  intros Hw. unfold run_with. simpl poll_loop.
  rewrite running_observe_stop, Hw. simpl.
  rewrite !running_observe_stop, Hw. simpl.
  destruct (stop_before_exit e), (stop_before_poll e 0); reflexivity.
Qed.

End VideoTaskWorkerFacts.

(** ** The order of events in a run of the polling worker *)

Section ChainFacts.

Import Video Video.VideoTaskWorker.

Lemma last_cons_default {A} (a : A) l d d' :
  List.last (a :: l) d = List.last (a :: l) d'.
Proof.
  revert a. induction l as [| b l IH]; intros a; [reflexivity |].
  change (List.last (b :: l) d = List.last (b :: l) d'). apply IH.
Qed.

Lemma last_app_nonempty {A} (l1 l2 : list A) d :
  List.last (l1 ++ l2) d = List.last l2 (List.last l1 d).
Proof.
  induction l1 as [| a l1 IH]; [reflexivity |].
  destruct l1 as [| b l1].
  - destruct l2 as [| c l2]; [reflexivity |].
    change (List.last (c :: l2) d = List.last (c :: l2) a). apply last_cons_default.
  - exact IH.
Qed.

Lemma chain_app prev l1 l2 :
  chain prev (l1 ++ l2) = chain prev l1 && chain (List.last l1 prev) l2.
Proof.
  revert prev. induction l1 as [| a l1 IH]; intros prev; [reflexivity |].
  simpl. rewrite IH, andb_assoc. destruct l1 as [| b l1]; [reflexivity |].
  now rewrite (last_cons_default b l1 a prev).
Qed.

Lemma chain_lookup prev tr :
  chain prev tr = true ->
  forall i a b, tr !! i = Some a -> tr !! S i = Some b -> allowed a b = true.
Proof.
  revert prev. induction tr as [| x tr IH]; intros prev Hc i a b Ha Hb; [discriminate |].
  simpl in Hc. apply andb_true_iff in Hc as [_ Hc].
  destruct i as [| i].
  - simpl in Ha, Hb. injection Ha as <-.
    destruct tr as [| y tr]; [discriminate |]. injection Hb as <-.
    simpl in Hc. now apply andb_true_iff in Hc as [Hc _].
  - exact (IH x Hc i a b Ha Hb).
Qed.

(** After the flag was read down, the trace only reads the flag down. *)
Lemma chain_flag_down tr :
  chain (ReadFlag false) tr = true ->
  forall ev, In ev tr -> ev = ReadFlag false.
Proof.
  induction tr as [| x tr IH]; intros Hc ev Hin; [destruct Hin |].
  simpl in Hc. apply andb_true_iff in Hc as [Hx Hc].
  assert (x = ReadFlag false) as -> by (destruct x as [| | | [] | | |]; try discriminate; reflexivity).
  destruct Hin as [<- | Hin]; [reflexivity | now apply IH].
Qed.

Lemma chain_after_flag_down prev tr :
  chain prev tr = true ->
  forall i j ev,
    tr !! i = Some (ReadFlag false) -> (i < j)%nat -> tr !! j = Some ev ->
    ev = ReadFlag false.
Proof.
  revert prev. induction tr as [| x tr IH]; intros prev Hc i j ev Hi Hij Hj; [discriminate |].
  simpl in Hc. apply andb_true_iff in Hc as [_ Hc].
  destruct j as [| j]; [lia |]. simpl in Hj.
  destruct i as [| i].
  - simpl in Hi. injection Hi as ->.
    apply (chain_flag_down tr Hc). apply list_elem_of_In. now apply list_elem_of_lookup_2 in Hj.
  - simpl in Hi. apply (IH x Hc i j ev Hi); [lia | exact Hj].
Qed.

Lemma chain_lookup_cons x tr :
  chain x tr = true ->
  forall i a b, (x :: tr) !! i = Some a -> (x :: tr) !! S i = Some b ->
                allowed a b = true.
Proof.
  intros Hc [| i] a b Ha Hb.
  - simpl in Ha, Hb. injection Ha as <-.
    destruct tr as [| y tr]; [discriminate |]. injection Hb as <-.
    simpl in Hc. now apply andb_true_iff in Hc as [Hc _].
  - exact (chain_lookup x tr Hc i a b Ha Hb).
Qed.

Lemma chain_after_flag_down_cons x tr :
  chain x tr = true ->
  forall i j ev,
    (x :: tr) !! i = Some (ReadFlag false) -> (i < j)%nat -> (x :: tr) !! j = Some ev ->
    ev = ReadFlag false.
Proof.
  intros Hc [| i] j ev Hi Hij Hj; (destruct j as [| j]; [lia |]); simpl in Hi, Hj.
  - injection Hi as ->.
    apply (chain_flag_down tr Hc). apply list_elem_of_In.
    now apply list_elem_of_lookup_2 in Hj.
  - apply (chain_after_flag_down x tr Hc i j ev Hi); [lia | exact Hj].
Qed.

Variable repr : pyval -> string.
Variable e : env.

Lemma poll_loop_chain max_polls fuel w poll_count r :
  poll_loop repr e fuel max_polls w poll_count = Some r ->
  forall prev,
    (exists m, prev = StatusUpdated m) \/ (terminal prev = true /\ _is_running w = false) ->
    chain prev r.1.2 = true
    /\ List.last r.1.2 prev = ReadFlag (_is_running r.1.1.1).
Proof.
  revert fuel w poll_count r.
  apply (poll_loop_elim repr e max_polls
           (fun w _ r =>
              forall prev,
                (exists m, prev = StatusUpdated m)
                \/ (terminal prev = true /\ _is_running w = false) ->
                chain prev r.1.2 = true
                /\ List.last r.1.2 prev = ReadFlag (_is_running r.1.1.1))).
  - intros w pc _ prev Hprev. simpl. split; [| reflexivity].
    rewrite andb_true_r.
    destruct Hprev as [(m & ->) | (HT & Hw)]; [reflexivity |].
    rewrite running_observe_stop, Hw. simpl.
    destruct prev; try discriminate; reflexivity.
  - intros w pc w2 evs w3 n evs' fl Hrun Hpc Hpo IH prev Hprev.
    rewrite running_observe_stop in Hrun. apply andb_true_iff in Hrun as [Hw Hstop].
    assert (Hfirst : allowed prev (ReadFlag true) = true).
    { destruct Hprev as [(m & ->) | (_ & Hf)]; [reflexivity | congruence]. }
    cbn [fst snd]. change (ReadFlag true :: evs ++ evs') with ([ReadFlag true] ++ evs ++ evs').
    rewrite !chain_app, !last_app_nonempty. simpl chain at 1. rewrite Hfirst. simpl.
    destruct (poll_once_cases repr e (observe_stop (stop_before_poll e pc) w) (S pc))
      as (q & m & Hq & [Hc | (T & HT & Hc)]);
      rewrite Hc in Hpo; injection Hpo as <- <-.
    + destruct (IH (StatusUpdated m)) as [Hch Hlast]; [eauto |]. simpl in Hch, Hlast.
      destruct Hq as [-> | (u & ->)]; simpl; rewrite Hch; (split; [reflexivity | exact Hlast]).
    + destruct (IH T) as [Hch Hlast]; [right; now split |]. simpl in Hch, Hlast.
      destruct Hq as [-> | (u & ->)]; simpl; rewrite Hch;
        destruct T; try discriminate; (split; [reflexivity | exact Hlast]).
Qed.

(** The trace of a run: it starts with the first status notification, and
    every event is allowed after the one before it. *)
Lemma video_run_chain max_polls fuel w r :
  run_with repr e fuel max_polls w = Some r ->
  exists m tr, r.1.2 = StatusUpdated m :: tr /\ chain (StatusUpdated m) tr = true.
Proof.
  unfold run_with.
  destruct (poll_loop repr e fuel max_polls w 0) as [[[[w1 n] evs] fl] |] eqn:Hl;
    [| discriminate].
  destruct (poll_loop_chain _ _ _ _ _ Hl
              (StatusUpdated ("Iniciando monitoreo de tarea: " +:+ task_id w)))
    as [Hch Hlast]; [eauto |].
  pose proof (poll_loop_outcome repr e _ _ _ _ _ Hl) as (-> & _).
  simpl in Hch, Hlast.
  destruct (_is_running (observe_stop (stop_before_exit e) w1)) eqn:Hfinal;
    intros [= <-]; simpl; eexists _, _; (split; [reflexivity |]);
    rewrite chain_app, Hch, Hlast; simpl.
  - rewrite running_observe_stop in Hfinal. apply andb_true_iff in Hfinal as [-> _].
    reflexivity.
  - destruct (_is_running w1); reflexivity.
Qed.

(** A loop that ends with the flag up never read it down. *)
Lemma poll_loop_flag_up max_polls fuel w poll_count r :
  poll_loop repr e fuel max_polls w poll_count = Some r ->
  _is_running r.1.1.1 = true -> ~ In (ReadFlag false) r.1.2.
Proof.
  revert fuel w poll_count r.
  apply (poll_loop_elim repr e max_polls
           (fun _ _ r => _is_running r.1.1.1 = true -> ~ In (ReadFlag false) r.1.2)).
  - intros w pc _ Hup. simpl in *. rewrite Hup. intros [H | []]. discriminate.
  - intros w pc w2 evs w3 n evs' fl _ _ Hpo IH Hup. simpl in *.
    intros [H | Hin]; [discriminate |].
    apply in_app_or in Hin as [Hin | Hin]; [| exact (IH Hup Hin)].
    destruct (poll_once_cases repr e (observe_stop (stop_before_poll e pc) w) (S pc))
      as (q & m & Hq & [Hc | (T & HT & Hc)]);
      rewrite Hc in Hpo; injection Hpo as <- <-;
      destruct Hq as [-> | (u & ->)]; simpl in Hin;
      repeat (destruct Hin as [Hin | Hin]; try discriminate); try exact Hin;
      subst T; discriminate.
Qed.

(** Once [run] has read the flag down, it returns with the flag down. *)
Lemma video_run_flag_down max_polls fuel w r :
  run_with repr e fuel max_polls w = Some r ->
  In (ReadFlag false) r.1.2 -> _is_running r.1.1 = false.
Proof.
  unfold run_with.
  destruct (poll_loop repr e fuel max_polls w 0) as [[[[w1 n] evs] fl] |] eqn:Hl;
    [| discriminate].
  pose proof (poll_loop_outcome repr e _ _ _ _ _ Hl) as (-> & _).
  pose proof (poll_loop_flag_up _ _ _ _ _ Hl) as Hup. simpl in Hup.
  destruct (_is_running (observe_stop (stop_before_exit e) w1)) eqn:Hfinal;
    intros [= <-]; simpl; [| intros _; exact Hfinal].
  rewrite running_observe_stop in Hfinal. apply andb_true_iff in Hfinal as [Hw1 _].
  intros [H | Hin]; [discriminate |].
  apply in_app_or in Hin as [Hin | Hin]; [now destruct (Hup Hw1) |].
  simpl in Hin. repeat (destruct Hin as [Hin | Hin]; try discriminate). destruct Hin.
Qed.

(** The loop reads the flag once for each wait, and once more to leave. *)
Lemma poll_loop_reads max_polls fuel w poll_count r :
  poll_loop repr e fuel max_polls w poll_count = Some r ->
  List.length (List.filter flag_read r.1.2)
  = S (List.length (List.filter wait r.1.2)).
Proof.
  revert fuel w poll_count r.
  apply (poll_loop_elim repr e max_polls
           (fun _ _ r => List.length (List.filter flag_read r.1.2)
                         = S (List.length (List.filter wait r.1.2)))).
  - intros w pc _. reflexivity.
  - intros w pc w2 evs w3 n evs' fl _ _ Hpo IH. simpl in *.
    rewrite !List.filter_app, !length_app, IH.
    destruct (poll_once_cases repr e (observe_stop (stop_before_poll e pc) w) (S pc))
      as (q & m & Hq & [Hc | (T & HT & Hc)]);
      rewrite Hc in Hpo; injection Hpo as <- <-;
      destruct Hq as [-> | (u & ->)]; simpl;
      try (destruct T; try discriminate; simpl); lia.
Qed.

Lemma video_run_reads max_polls fuel w r :
  run_with repr e fuel max_polls w = Some r ->
  List.length (List.filter flag_read r.1.2)
  = (List.length (List.filter wait r.1.2) + 2)%nat.
Proof.
  unfold run_with.
  destruct (poll_loop repr e fuel max_polls w 0) as [[[[w1 n] evs] fl] |] eqn:Hl;
    [| discriminate].
  pose proof (poll_loop_outcome repr e _ _ _ _ _ Hl) as (-> & _).
  pose proof (poll_loop_reads _ _ _ _ _ Hl) as Hc. simpl in Hc.
  destruct (_is_running (observe_stop (stop_before_exit e) w1));
    intros [= <-]; simpl; rewrite !List.filter_app, !length_app, Hc; simpl; lia.
Qed.

End ChainFacts.

(** ** The worker slot of the Audio window *)

Section RunnerFacts.

Import Audio.ElevenLabsTTS.

Implicit Types (self : t) (tid : nat).

Lemma start_worker_rejected self tid instance :
  worker_thread self = Some tid ->
  thread_is_running self tid = true ->
  _start_worker self instance
  = (self, false,
     [Warning "Operación en curso"
              "Por favor, espera a que la operación actual termine."]).
Proof. intros H1 H2. unfold _start_worker. now rewrite H1, H2. Qed.

Lemma slot_invariant_start self instance :
  slot_invariant self -> slot_invariant (_start_worker self instance).1.1.
Proof.
  intros Hinv. unfold _start_worker.
  destruct (match worker_thread self with
            | Some tid => thread_is_running self tid
            | None => false
            end) eqn:Hguard; [exact Hinv |].
  intros tid th Hl Hrun. simpl in *.
  destruct (decide (tid < length (threads self))%nat) as [Hlt | Hge].
  - rewrite lookup_app_l in Hl by exact Hlt.
    pose proof (Hinv tid th Hl Hrun) as Hwt.
    rewrite Hwt in Hguard. unfold thread_is_running in Hguard.
    rewrite Hl in Hguard. congruence.
  - apply lookup_lt_Some in Hl as Hlen. rewrite length_app in Hlen. simpl in Hlen.
    f_equal. lia.
Qed.

Lemma slot_invariant_worker_finished self tid :
  slot_invariant self -> slot_invariant (on_worker_finished self tid).
Proof.
  intros Hinv tid' th Hl Hrun. simpl in *.
  destruct (decide (tid = tid')) as [<- | Hne].
  - rewrite list_lookup_alter_eq in Hl.
    destruct (threads self !! tid) as [th0 |] eqn:Hl0; [| discriminate].
    simpl in Hl. injection Hl as <-. simpl in Hrun. exact (Hinv tid th0 Hl0 Hrun).
  - rewrite list_lookup_alter_ne in Hl by exact Hne. exact (Hinv tid' th Hl Hrun).
Qed.

Lemma thread_finished_none_running self tid th0 :
  slot_invariant self ->
  threads self !! tid = Some th0 -> isRunning th0 = true ->
  forall tid' th,
    threads (on_thread_finished self tid) !! tid' = Some th -> isRunning th = false.
Proof.
  intros Hinv Hl0 Hrun0 tid' th Hl. simpl in Hl.
  destruct (decide (tid = tid')) as [<- | Hne].
  - rewrite list_lookup_alter_eq, Hl0 in Hl. simpl in Hl. now injection Hl as <-.
  - rewrite list_lookup_alter_ne in Hl by exact Hne.
    destruct (isRunning th) eqn:Hrun; [| reflexivity].
    pose proof (Hinv tid th0 Hl0 Hrun0). pose proof (Hinv tid' th Hl Hrun). congruence.
Qed.


End RunnerFacts.

(** ** The image worker *)

Section ImageFacts.

Import Imagenes.ImageGeneratorThread.



End ImageFacts.

(** * Further properties of the workers and the client *)

Section ClientMore.

Import Video Video.NovitaApiClient.

Variable repr : pyval -> string.

(** The message of a "failed" answer never begins with an L. *)
Lemma task_result_of_failed_first r tid status result msg :
  task_result_of repr r tid = inr (status, result, msg) ->
  eq_str status "failed" = true ->
  prefix 1 msg <> "L".
Proof.
  unfold task_result_of.
  repeat (case_match; simplify_eq; try discriminate);
    intros Heq Hc; simplify_eq; try discriminate; try congruence.
Qed.

Lemma get_task_result_failed_first c tid http status result msg evs :
  get_task_result repr c tid http = ((status, result, msg), evs) ->
  eq_str status "failed" = true ->
  prefix 1 msg <> "L".
Proof.
  unfold get_task_result.
  repeat (case_match; simplify_eq; try discriminate);
    intros Heq Hc; simplify_eq; try discriminate.
  eapply task_result_of_failed_first; eassumption.
Qed.

End ClientMore.

Section PollingFacts.

Import Video Video.VideoTaskWorker.

Variable repr : pyval -> string.
Variable e : env.

Implicit Types (w : t).

Lemma poll_once_pending_at w n :
  pending_at repr e w n ->
  exists u m,
    poll_once repr e w n
    = (w, [Sleep polling_interval; Get u; StatusUpdated m], Normal).
Proof.
  unfold pending_at, answer. intros [Hc Hf].
  unfold poll_once.
  destruct (NovitaApiClient.get_task_result repr (api_client w) (task_id w) (http e n))
    as [[[status result] message] issued] eqn:Hg.
  simpl in Hc, Hf. rewrite Hc, Hf.
  revert Hg. unfold NovitaApiClient.get_task_result.
  destruct (String.eqb (NovitaApiClient.api_key (api_client w)) "").
  { intros [= <- <- <- <-]. discriminate. }
  destruct (String.eqb (task_id w) "").
  { intros [= <- <- <- <-]. discriminate. }
  intros [= _ <-]. simpl. eauto.
Qed.

(** An answer in a terminal state makes the iteration emit its signal and
    clear the flag. *)
Lemma poll_once_terminal w n T :
  signal_of (answer repr e w n) = Some T ->
  exists q m,
    (q = [] \/ exists u, q = [Get u])
    /\ poll_once repr e w n
       = (set_is_running false w,
          Sleep polling_interval :: q ++ [StatusUpdated m; T], Normal).
Proof.
  unfold signal_of, answer, poll_once.
  pose proof (get_task_result_events repr (api_client w) (task_id w) (http e n)) as Hq.
  destruct (NovitaApiClient.get_task_result repr (api_client w) (task_id w) (http e n))
    as [[[status result] message] issued] eqn:Hg.
  simpl in *. intros Hsig.
  exists issued, ("Tarea " +:+ prefix 8 (task_id w) +:+ "... - " +:+ message).
  split; [exact Hq |]. revert Hsig.
  destruct (eq_str status "completed").
  - destruct (get result "video_url" PyNone) as [ex | v]; [discriminate |].
    intros [= <-]. destruct (truthy v); simpl; now rewrite <- app_assoc.
  - destruct (eq_str status "failed"); [| discriminate].
    intros [= <-]. simpl. now rewrite <- app_assoc.
Qed.

Lemma observe_stop_down b w :
  _is_running w = false -> observe_stop b w = set_is_running false w.
Proof. destruct w as [c i r], b; simpl; intros ->; reflexivity. Qed.

(** The loop up to the first terminal answer: every earlier answer is
    pending and no [stop()] is seen before the query that brings it. *)
Lemma poll_loop_until max_polls k T fuel w poll_count r :
  poll_loop repr e fuel max_polls w poll_count = Some r ->
  (_is_running w = false ->
   r = (set_is_running false w, poll_count, [ReadFlag false], Normal))
  /\ (_is_running w = true ->
      (poll_count < k <= max_polls)%nat ->
      (forall n, (n < k)%nat -> stop_before_poll e n = false) ->
      (forall j, (poll_count < j < k)%nat -> pending_at repr e w j) ->
      signal_of (answer repr e w k) = Some T ->
      exists evs,
        r = (set_is_running false w, k, evs ++ [T; ReadFlag false], Normal)
        /\ List.length (List.filter wait evs) = (k - poll_count)%nat
        /\ (List.length (List.filter query evs) <= k - poll_count)%nat
        /\ (String.eqb (NovitaApiClient.api_key (api_client w)) "" = false ->
            String.eqb (task_id w) "" = false ->
            List.length (List.filter query evs) = (k - poll_count)%nat)
        /\ forallb (fun ev => negb (terminal ev)) evs = true).
Proof.
  revert fuel w poll_count r.
  apply (poll_loop_elim repr e max_polls
    (fun w pc r =>
       (_is_running w = false ->
        r = (set_is_running false w, pc, [ReadFlag false], Normal))
       /\ (_is_running w = true ->
           (pc < k <= max_polls)%nat ->
           (forall n, (n < k)%nat -> stop_before_poll e n = false) ->
           (forall j, (pc < j < k)%nat -> pending_at repr e w j) ->
           signal_of (answer repr e w k) = Some T ->
           exists evs,
             r = (set_is_running false w, k, evs ++ [T; ReadFlag false], Normal)
             /\ List.length (List.filter wait evs) = (k - pc)%nat
             /\ (List.length (List.filter query evs) <= k - pc)%nat
             /\ (String.eqb (NovitaApiClient.api_key (api_client w)) "" = false ->
                 String.eqb (task_id w) "" = false ->
                 List.length (List.filter query evs) = (k - pc)%nat)
             /\ forallb (fun ev => negb (terminal ev)) evs = true))).
  - intros w pc Hcond. split.
    + intros Hw. rewrite running_observe_stop, Hw. simpl.
      now rewrite (observe_stop_down _ _ Hw).
    + intros Hw Hk Hs _ _. exfalso.
      rewrite running_observe_stop, Hw, (Hs pc) in Hcond by lia. simpl in Hcond.
      apply Nat.ltb_ge in Hcond. lia.
  - intros w pc w2 evs w3 n evs' fl Hrun Hpc Hpo [IHdown IHup]. split.
    { intros Hw. rewrite running_observe_stop, Hw in Hrun. discriminate. }
    intros Hw Hk Hs Hpend HT.
    rewrite (Hs pc) in Hpo by lia. simpl in Hpo.
    destruct (decide (S pc = k)) as [<- | Hne].
    + destruct (poll_once_terminal w (S pc) T HT) as (q & m & Hq & Hp).
      rewrite Hp in Hpo. injection Hpo as <- <-.
      injection (IHdown eq_refl) as -> -> -> ->.
      exists (ReadFlag true :: Sleep polling_interval :: q ++ [StatusUpdated m]).
      split; [| split; [| split; [| split]]].
      * simpl. now rewrite <- !app_assoc.
      * destruct Hq as [-> | (u & ->)]; simpl; lia.
      * destruct Hq as [-> | (u & ->)]; simpl; lia.
      * intros Hkey Hid. revert Hp. unfold poll_once, NovitaApiClient.get_task_result.
        rewrite Hkey, Hid.
        destruct Hq as [-> | (u & ->)]; [| simpl; lia].
        repeat case_match; simpl; intros [= Hq']; try discriminate.
      * destruct Hq as [-> | (u & ->)]; reflexivity.
    + destruct (poll_once_pending_at w (S pc) (Hpend (S pc) ltac:(lia))) as (u & m & Hp).
      rewrite Hp in Hpo. injection Hpo as <- <-.
      destruct (IHup Hw ltac:(lia) Hs ltac:(intros j Hj; apply Hpend; lia) HT)
        as (evs0 & [= -> -> -> ->] & Hwait & Hqle & Hqeq & Hno).
      exists (ReadFlag true :: Sleep polling_interval :: Get u :: StatusUpdated m :: evs0).
      split; [| split; [| split; [| split]]].
      * reflexivity.
      * simpl. rewrite Hwait. lia.
      * simpl. lia.
      * intros Hkey Hid. simpl. rewrite (Hqeq Hkey Hid). lia.
      * simpl. exact Hno.
Qed.

(** The run up to the first terminal answer. *)
Lemma video_run_until max_polls k T w :
  _is_running w = true ->
  (1 <= k <= max_polls)%nat ->
  (forall n, (n < k)%nat -> stop_before_poll e n = false) ->
  (forall j, (1 <= j < k)%nat -> pending_at repr e w j) ->
  signal_of (answer repr e w k) = Some T ->
  exists evs,
    run_with repr e (S max_polls) max_polls w
    = Some (set_is_running false w,
            StatusUpdated ("Iniciando monitoreo de tarea: " +:+ task_id w)
            :: evs ++ [T; ReadFlag false; ReadFlag false],
            Normal)
    /\ List.length (List.filter wait evs) = k
    /\ (List.length (List.filter query evs) <= k)%nat
    /\ (String.eqb (NovitaApiClient.api_key (api_client w)) "" = false ->
        String.eqb (task_id w) "" = false ->
        List.length (List.filter query evs) = k)
    /\ forallb (fun ev => negb (terminal ev)) evs = true.
Proof.
  intros Hw Hk Hs Hpend HT. unfold run_with.
  destruct (poll_loop_total repr e max_polls (S max_polls) w 0) as (r & Hl); [lia |].
  rewrite Hl.
  destruct (proj2 (poll_loop_until max_polls k T _ _ _ _ Hl) Hw ltac:(lia) Hs
              ltac:(intros j Hj; apply Hpend; lia) HT)
    as (evs & -> & Hwait & Hqle & Hqeq & Hno).
  rewrite running_observe_stop. simpl.
  exists evs. split; [| split; [| split; [| split]]].
  - rewrite (observe_stop_down _ (set_is_running false w) eq_refl). simpl.
    do 3 f_equal. now rewrite <- app_assoc.
  - rewrite Hwait. lia.
  - lia.
  - intros Hkey Hid. rewrite (Hqeq Hkey Hid). lia.
  - exact Hno.
Qed.




End PollingFacts.

Section PollingCounts.

Import Video Video.VideoTaskWorker.

Variable repr : pyval -> string.
Variable e : env.

Lemma poll_once_well_reported w n :
  Forall well_reported (poll_once repr e w n).1.2.
Proof.
  unfold poll_once.
  pose proof (get_task_result_events repr (api_client w) (task_id w) (http e n)) as Hq.
  destruct (NovitaApiClient.get_task_result repr (api_client w) (task_id w) (http e n))
    as [[[status result] message] issued] eqn:Hg.
  simpl in Hq.
  assert (Hbase : Forall well_reported
                    (Sleep polling_interval :: issued ++
                     [StatusUpdated ("Tarea " +:+ prefix 8 (task_id w) +:+ "... - "
                                     +:+ message)])).
  { destruct Hq as [-> | (u & ->)]; repeat constructor. }
  destruct (eq_str status "completed") eqn:Hc.
  - destruct (get_task_result_completed repr _ _ _ _ _ _ _ Hg Hc) as (v & -> & Hv).
    rewrite Hv. simpl. rewrite app_comm_cons. apply Forall_app. split; [exact Hbase |].
    constructor; [exact Hv | constructor].
  - destruct (eq_str status "failed") eqn:Hf; simpl; [| exact Hbase].
    rewrite app_comm_cons. apply Forall_app. split; [exact Hbase |].
    constructor; [| constructor].
    simpl. intros Heq.
    apply (get_task_result_failed_first repr _ _ _ _ _ _ _ Hg Hf).
    now rewrite Heq.
Qed.

(** The loop waits at most once for each poll that is left, asks at most
    once per wait, and notifies once per wait. *)
Lemma poll_loop_counts max_polls fuel w poll_count r :
  poll_loop repr e fuel max_polls w poll_count = Some r ->
  (List.length (List.filter wait r.1.2) <= max_polls - poll_count)%nat
  /\ (List.length (List.filter query r.1.2) <= List.length (List.filter wait r.1.2))%nat
  /\ List.length (List.filter status_update r.1.2) = List.length (List.filter wait r.1.2)
  /\ Forall well_reported r.1.2.
Proof.
  revert fuel w poll_count r.
  apply (poll_loop_elim repr e max_polls
    (fun _ pc r =>
       (List.length (List.filter wait r.1.2) <= max_polls - pc)%nat
       /\ (List.length (List.filter query r.1.2)
           <= List.length (List.filter wait r.1.2))%nat
       /\ List.length (List.filter status_update r.1.2)
          = List.length (List.filter wait r.1.2)
       /\ Forall well_reported r.1.2)).
  - intros w pc _. simpl. repeat split; try lia. repeat constructor.
  - intros w pc w2 evs w3 n evs' fl _ Hpc Hpo (IH1 & IH2 & IH3 & IH4). simpl in *.
    pose proof (poll_once_well_reported (observe_stop (stop_before_poll e pc) w) (S pc))
      as Hwr.
    rewrite Hpo in Hwr. simpl in Hwr.
    rewrite !List.filter_app, !length_app.
    assert (Hev : List.length (List.filter wait evs) = 1%nat
                  /\ (List.length (List.filter query evs) <= 1)%nat
                  /\ List.length (List.filter status_update evs) = 1%nat).
    { destruct (poll_once_cases repr e (observe_stop (stop_before_poll e pc) w) (S pc))
        as (q & m & Hq & [Hc | (T & HT & Hc)]);
        rewrite Hc in Hpo; injection Hpo as <- <-;
        destruct Hq as [-> | (u & ->)]; simpl;
        try (destruct T; try discriminate; simpl); repeat split; lia. }
    destruct Hev as (Hw1 & Hq1 & Hs1).
    repeat split; try lia.
    constructor; [exact I |]. apply Forall_app. now split.
Qed.

Lemma video_run_counts max_polls fuel w r :
  run_with repr e fuel max_polls w = Some r ->
  (List.length (List.filter wait r.1.2) <= max_polls)%nat
  /\ (List.length (List.filter query r.1.2) <= List.length (List.filter wait r.1.2))%nat
  /\ List.length (List.filter status_update r.1.2)
     = S (List.length (List.filter wait r.1.2))
  /\ Forall well_reported r.1.2.
Proof.
  unfold run_with.
  destruct (poll_loop repr e fuel max_polls w 0) as [[[[w1 n] evs] fl] |] eqn:Hl;
    [| discriminate].
  pose proof (poll_loop_outcome repr e _ _ _ _ _ Hl) as (-> & _).
  pose proof (poll_loop_counts _ _ _ _ _ Hl) as (H1 & H2 & H3 & H4). simpl in *.
  destruct (_is_running (observe_stop (stop_before_exit e) w1));
    intros [= <-]; simpl; rewrite !List.filter_app, !length_app; simpl;
    (repeat split; try lia);
    (constructor; [exact I |]); apply Forall_app; (split; [exact H4 |]);
    repeat constructor.
  simpl. intros Heq. apply (f_equal (prefix 1)) in Heq. discriminate.
Qed.

End PollingCounts.

Section ClientExtras.

Import Video Video.NovitaApiClient.

Variable repr : pyval -> string.

Lemma eqb_false_ne (a b : string) : a <> b -> String.eqb a b = false.
Proof. intros H. now apply String.eqb_neq. Qed.

Lemma get_task_result_request c tid http :
  api_key c <> "" -> tid <> "" ->
  (get_task_result repr c tid http).2
  = [Get (NOVITA_API_BASE_URL +:+ "/task-result?task_id=" +:+ tid)].
Proof.
  intros Hk Ht. unfold get_task_result.
  now rewrite (eqb_false_ne _ _ Hk), (eqb_false_ne _ _ Ht).
Qed.

Lemma get_task_result_not_failed c tid http :
  eq_str (get_task_result repr c tid http).1.1.1 "failed" = false ->
  exists r data task_data,
    http = inr r /\ status_code r = 200 /\ json r = inr data
    /\ get data "task" (PyDict []) = inr task_data
    /\ get task_data "status" (PyStr "unknown")
       = inr (get_task_result repr c tid http).1.1.1
    /\ get task_data "result" (PyDict [])
       = inr (get_task_result repr c tid http).1.1.2.
Proof.
  unfold get_task_result.
  destruct (String.eqb (api_key c) ""); [discriminate |].
  destruct (String.eqb tid ""); [discriminate |].
  destruct http as [[m | m] | r]; simpl; try discriminate.
  unfold task_result_of.
  destruct (status_code r =? 200)%Z eqn:Hs; [| discriminate].
  apply Z.eqb_eq in Hs.
  destruct (json r) as [[m | m] | data] eqn:Hj; simpl; try discriminate.
  destruct (get data "task" (PyDict [])) as [[m | m] | task_data] eqn:Ht;
    simpl; try discriminate.
  destruct task_data as [| ? | ? | ? | ? | d]; simpl; try discriminate.
  destruct (eq_str (match assoc "status" d with Some x => x | None => PyStr "unknown" end)
                   "completed") eqn:Hc.
  - destruct (get (match assoc "result" d with Some x => x | None => PyDict [] end)
                  "video_url" PyNone) as [[m | m] | v]; simpl; try discriminate.
    destruct (truthy v); simpl; [| discriminate].
    intros _. now exists r, data, (PyDict d).
  - destruct (eq_str (match assoc "status" d with Some x => x | None => PyStr "unknown" end)
                     "failed") eqn:Hf; simpl.
    + intros H. congruence.
    + intros _. now exists r, data, (PyDict d).
Qed.

Lemma start_task_request c image_url prompt width height seed http :
  (start_image_to_video_task repr c image_url prompt width height seed http).2
  = if String.eqb (api_key c) "" || String.eqb image_url "" || String.eqb prompt ""
    then [] else [Post (NOVITA_API_BASE_URL +:+ "/wan-i2v")].
Proof.
  unfold start_image_to_video_task.
  destruct (String.eqb (api_key c) ""), (String.eqb image_url ""),
    (String.eqb prompt ""); reflexivity.
Qed.

Lemma start_task_accepted c image_url prompt width height seed http :
  (start_image_to_video_task repr c image_url prompt width height seed http).1.1.1
    <> PyNone ->
  exists r data,
    http = inr r /\ status_code r = 200 /\ json r = inr data
    /\ get data "task_id" PyNone
       = inr (start_image_to_video_task repr c image_url prompt width height seed
                http).1.1.1
    /\ truthy (start_image_to_video_task repr c image_url prompt width height seed
                 http).1.1.1 = true
    /\ (start_image_to_video_task repr c image_url prompt width height seed http).1.1.2
       = "Tarea de generación iniciada."
    /\ (start_image_to_video_task repr c image_url prompt width height seed http).1.2
       = data.
Proof.
  unfold start_image_to_video_task.
  destruct (String.eqb (api_key c) ""); [simpl; congruence |].
  destruct (String.eqb image_url ""); [simpl; congruence |].
  destruct (String.eqb prompt ""); [simpl; congruence |].
  destruct http as [[m | m] | r]; simpl; try congruence.
  destruct (status_code r =? 200)%Z eqn:Hs.
  - apply Z.eqb_eq in Hs.
    destruct (json r) as [[m | m] | data] eqn:Hj; simpl; try congruence.
    destruct (get data "task_id" PyNone) as [[m | m] | tid] eqn:Ht; simpl; try congruence.
    destruct (truthy tid) eqn:Htr; simpl; [| congruence].
    intros _. now exists r, data.
  - destruct (if String.eqb (text r) "" then inr PyNone else json r) as [[m | m] | body];
      simpl; congruence.
Qed.

End ClientExtras.

Section ApiWorkerMore.

Import Audio.ApiWorker.

Implicit Types (w : t) (e : env).

(** The requests of a run: one, first, when the worker is running and its
    method is GET or POST; none otherwise. *)
Lemma api_run_requests w e :
  exists rest,
    (run w e).2
    = (if is_running w && (String.eqb (method w) "GET" || String.eqb (method w) "POST")
       then [Request (method w) (endpoint w)] else []) ++ rest
    /\ forallb (fun ev => negb (api_request ev)) rest = true.
Proof.
  unfold run, run_try, after_request, observe_stop, stop.
  destruct (is_running w) eqn:Hr; simpl.
  2: { eexists. split; [reflexivity | reflexivity]. }
  repeat (case_match; simplify_eq; simpl in * );
    eexists; (split; [reflexivity | reflexivity]).
Qed.

(** A [stop()] seen at the checkpoint after the request wins over whatever
    was answered. *)
Lemma api_run_stopped_after_request w e r :
  is_running w = true ->
  method w = "GET" \/ method w = "POST" ->
  http e = inr r ->
  stop_during_request e = true ->
  (run w e).2
  = [Request (method w) (endpoint w);
     Finished NoData false "Operación cancelada durante la ejecución."].
Proof.
  intros Hr Hm Hh Hs. unfold run, run_try, after_request, observe_stop.
  rewrite Hr, Hh, Hs. simpl.
  destruct Hm as [-> | ->]; reflexivity.
Qed.

End ApiWorkerMore.

Section AudioGeneratorMore.

Import Audio.AudioGenerator.

Implicit Types (w : t) (e : env) (items : list item).

Lemma estimate_range (i : nat) :
  0 <= (Z.of_nat i * 5) mod 100 <= 95 /\ ((Z.of_nat i * 5) mod 100) mod 5 = 0.
Proof.
  pose proof (Z.mod_pos_bound (Z.of_nat i * 5) 100 ltac:(lia)) as Hb.
  pose proof (Z.div_mod (Z.of_nat i * 5) 100 ltac:(lia)) as Hd.
  assert (Hm : ((Z.of_nat i * 5) mod 100) mod 5 = 0).
  { replace ((Z.of_nat i * 5) mod 100)
      with (Z.of_nat i * 5 - 100 * (Z.of_nat i * 5 / 100)) by lia.
    replace (Z.of_nat i * 5 - 100 * (Z.of_nat i * 5 / 100))
      with ((Z.of_nat i - 20 * (Z.of_nat i * 5 / 100)) * 5) by lia.
    apply Z.mod_mul. lia. }
  split; [| exact Hm].
  pose proof (Z.div_mod ((Z.of_nat i * 5) mod 100) 5 ltac:(lia)) as Hd5.
  lia.
Qed.

(** Without a usable declared length every value sent from the loop is the
    cyclic estimate. *)
Lemma download_estimates e expected items :
  expected = None \/ expected = Some 0 ->
  forall i w total,
    Forall (fun p => 0 <= p <= 95 /\ p mod 5 = 0)
           (percents (download e expected items i w total).1.2).
Proof.
  intros Hexp. induction items as [| it rest IH]; intros i w total; simpl.
  - destruct (body_error e); constructor.
  - destruct (negb (is_running (observe_stop (stop_before it) w))); [constructor |].
    destruct (negb (nonempty (chunk it))); [apply IH |].
    destruct (write_error it); [constructor |].
    assert (Hem : match expected with
                  | Some n => if (n =? 0)%Z then inr ((Z.of_nat i * 5) mod 100)
                              else percent (total + Z.of_nat (List.length (chunk it))) n
                  | None => inr ((Z.of_nat i * 5) mod 100)
                  end = inr ((Z.of_nat i * 5) mod 100))
      by (destruct Hexp as [-> | ->]; reflexivity).
    rewrite Hem.
    specialize (IH (S i) (observe_stop (stop_before it) w)
                  (total + Z.of_nat (List.length (chunk it)))).
    destruct (download e expected rest (S i) (observe_stop (stop_before it) w)
                (total + Z.of_nat (List.length (chunk it)))) as [[[w' total'] evs] fl].
    simpl in *. constructor; [apply estimate_range | exact IH].
Qed.

(** What the loop wrote is the beginning of the non-empty chunks of the
    body: all of them when the loop ends normally, and then no [stop()] was
    seen. *)
Lemma download_writes e expected items :
  forall i w total,
    (exists k,
        writes (download e expected items i w total).1.2
        = firstn k (payload_chunks items))
    /\ ((download e expected items i w total).2 = Normal ->
        writes (download e expected items i w total).1.2 = payload_chunks items
        /\ forall it, In it items -> stop_before it = false).
Proof.
  induction items as [| it rest IH]; intros i w total; simpl.
  - destruct (body_error e); simpl.
    + split; [now exists 0%nat | discriminate].
    + split; [now exists 0%nat |]. intros _. split; [reflexivity | intros it []].
  - unfold payload_chunks. simpl.
    destruct (stop_before it) eqn:Hstop; simpl.
    { split; [now exists 0%nat | discriminate]. }
    destruct (is_running w) eqn:Hr; simpl.
    2: { split; [now exists 0%nat | discriminate]. }
    destruct (nonempty (chunk it)) eqn:Hne; simpl.
    2: { destruct (IH (S i) w total) as [Hk Hn]. split; [exact Hk |].
         intros Hfl. destruct (Hn Hfl) as [Hw Hs]. split; [exact Hw |].
         intros it' [<- | Hin]; auto. }
    destruct (write_error it); simpl.
    { split; [now exists 0%nat | discriminate]. }
    match goal with |- context [match ?x with inl _ => _ | inr _ => _ end] =>
      destruct x as [ex | p] end; simpl.
    { split; [now exists 1%nat | discriminate]. }
    destruct (IH (S i) w (total + Z.of_nat (List.length (chunk it)))) as [[k Hk] Hn].
    destruct (download e expected rest (S i) w
                (total + Z.of_nat (List.length (chunk it)))) as [[[w' total'] evs] fl].
    simpl in *. split.
    + exists (S k). simpl. now rewrite Hk.
    + intros Hfl. destruct (Hn Hfl) as [Hw Hs]. split; [now rewrite Hw |].
      intros it' [<- | Hin]; auto.
Qed.

(** The paths the loop can report. *)
Lemma download_paths e expected items :
  forall i w total p ok m,
    In (Finished p ok m) (download e expected items i w total).1.2 ->
    p = "" \/ p = temp_file e.
Proof.
  induction items as [| it rest IH]; intros i w total p ok m; simpl.
  - destruct (body_error e); intros [].
  - destruct (negb (is_running (observe_stop (stop_before it) w))).
    { simpl. intros [[= <- _ _] | []]. destruct (temp_file_exists e); auto. }
    destruct (negb (nonempty (chunk it))); [apply IH |].
    destruct (write_error it); [intros [] |].
    match goal with |- context [match ?x with inl _ => _ | inr _ => _ end] =>
      destruct x as [ex | q] end.
    { simpl. intros [H | []]. discriminate. }
    specialize (IH (S i) (observe_stop (stop_before it) w)
                  (total + Z.of_nat (List.length (chunk it))) p ok m).
    destruct (download e expected rest (S i) (observe_stop (stop_before it) w)
                (total + Z.of_nat (List.length (chunk it)))) as [[[w' total'] evs] fl].
    simpl in *. intros [H | [H | Hin]]; try discriminate. auto.
Qed.

(** The anatomy of a run: what is done before the body is read, the events
    of the loop (none when the loop is not reached), and the closing
    events. *)
Lemma audio_run_shape w e :
  exists pre evs post,
    (run w e).2 = pre ++ evs ++ post
    /\ forallb setup pre = true
    /\ (evs = []
        \/ evs = (download e (expected_of (content_length e)) (body e) 0 w 0).1.2)
    /\ (post = []
        \/ (exists p m, post = [Finished p false m] /\ (p = "" \/ p = temp_file e))
        \/ (post = [Progress 100; Finished (temp_file e) true ""]
            /\ is_running w = true
            /\ (exists r, http e = inr r /\ status_code r = 200)
            /\ stop_during_request e = false
            /\ In (Open (temp_file e)) pre
            /\ evs = (download e (expected_of (content_length e)) (body e) 0 w 0).1.2
            /\ (download e (expected_of (content_length e)) (body e) 0 w 0).2 = Normal)).
Proof.
  assert (Hpath : forall b, reported_path e b = "" \/ reported_path e b = temp_file e).
  { intros b. unfold reported_path.
    destruct (b && negb (String.eqb (temp_file e) "") && temp_file_exists e); auto. }
  unfold run.
  destruct (is_running w) eqn:Hr; simpl.
  2: { exists [], [], [Finished "" false "Generación de audio cancelada antes de iniciar."].
       (split; [| split; [| split]]); [reflexivity | reflexivity | now left | right; left; eauto]. }
  unfold run_try.
  destruct (http e) as [ex | r] eqn:Hh.
  { destruct ex as [m | m]; simpl; eexists [Request (url w)], [], [Finished _ false _];
      ((split; [| split; [| split]]); [reflexivity | reflexivity | now left | right; left; eauto]). }
  destruct (stop_during_request e) eqn:Hstop; simpl.
  { eexists [Request (url w)], [], [Finished _ false _].
    (split; [| split; [| split]]); [reflexivity | reflexivity | now left | right; left; eauto]. }
  rewrite Hr. simpl.
  destruct (status_code r =? 200)%Z eqn:Hs.
  2: { eexists [Request (url w)], [], [Finished _ false _].
       (split; [| split; [| split]]); [reflexivity | reflexivity | now left | right; left; eauto]. }
  apply Z.eqb_eq in Hs.
  unfold save_stream.
  destruct (if temp_dir_exists e then None else makedirs_error e) as [ex |] eqn:Hmk.
  { destruct ex as [m | m]; simpl; eexists [Request (url w)], [], [Finished _ false _];
      ((split; [| split; [| split]]); [reflexivity | reflexivity | now left | right; left; eauto]). }
  set (mk_dir := if temp_dir_exists e then [] else [MakeDirs (temp_dir e)]).
  assert (Hdir : forallb setup mk_dir = true)
    by (unfold mk_dir; destruct (temp_dir_exists e); reflexivity).
  destruct (open_error e) as [ex |] eqn:Hop.
  { destruct ex as [m | m]; simpl;
      eexists (Request (url w) :: mk_dir), [], [Finished _ false _];
      ((split; [| split; [| split]]); [reflexivity | simpl; exact Hdir | now left | right; left; eauto]). }
  assert (Hopened : forallb setup (Request (url w) :: mk_dir ++ [Open (temp_file e)]) = true)
    by (simpl; now rewrite forallb_app, Hdir).
  assert (Hin : In (Open (temp_file e)) (Request (url w) :: mk_dir ++ [Open (temp_file e)]))
    by (right; apply in_or_app; right; now left).
  destruct (content_length e) as [| n | ex] eqn:Hcl.
  3: { destruct ex as [m | m]; simpl;
         eexists (Request (url w) :: mk_dir ++ [Open (temp_file e)]), [], [Finished _ false _];
         ((split; [| split; [| split]]); [simpl; now rewrite <- !app_assoc | exact Hopened | now left | right; left; eauto]). }
  all: simpl expected_of.
  all: match goal with |- context [download ?e' ?x ?b ?i ?w' ?t'] =>
         destruct (download e' x b i w' t') as [[[w1 total] evs] fl] eqn:Hd end.
  all: unfold close.
  all: destruct (total =? 0)%Z;
         [| destruct (close_error e) as [[cm | cm] |]];
         destruct fl as [| | ex]; simpl.
  all: try (destruct ex as [m | m]; simpl).
  all: try (exists (Request (url w1) :: mk_dir ++ [Open (temp_file e)]), evs,
              [Finished (temp_file e) false "Error: Archivo de audio generado está vacío."];
            (split; [| split; [| split]]);
            [simpl; now rewrite <- !app_assoc | exact Hopened | now right
            | right; left; eauto]).
  all: try (exists (Request (url w1) :: mk_dir ++ [Open (temp_file e)]), evs,
              [Progress 100; Finished (temp_file e) true ""];
            (split; [| split; [| split]]);
            [simpl; now rewrite <- !app_assoc | exact Hopened | now right
            | right; right; repeat split; eauto;
              right; apply in_or_app; right; now left]).
  all: try (exists (Request (url w1) :: mk_dir ++ [Open (temp_file e)]), evs, [];
            (split; [| split; [| split]]);
            [simpl; now rewrite <- !app_assoc, app_nil_r | exact Hopened | now right
            | now left]).
  all: try (eexists (Request (url w1) :: mk_dir ++ [Open (temp_file e)]), evs,
              [Finished _ false _];
            (split; [| split; [| split]]);
            [simpl; now rewrite <- !app_assoc | exact Hopened | now right
            | right; left; eauto]).
Qed.

Lemma writes_app tr1 tr2 : writes (tr1 ++ tr2) = writes tr1 ++ writes tr2.
Proof.
  induction tr1 as [| ev tr1 IH]; [reflexivity |].
  destruct ev; simpl; now rewrite ?IH.
Qed.

Lemma percents_app tr1 tr2 : percents (tr1 ++ tr2) = percents tr1 ++ percents tr2.
Proof.
  induction tr1 as [| ev tr1 IH]; [reflexivity |].
  destruct ev; simpl; now rewrite ?IH.
Qed.

Lemma setup_quiet pre :
  forallb setup pre = true ->
  writes pre = [] /\ percents pre = []
  /\ forall p ok m, ~ In (Finished p ok m) pre.
Proof.
  induction pre as [| ev pre IH]; simpl.
  - intros _. repeat split. intros p ok m [].
  - intros [Hev Hpre]%andb_prop. destruct (IH Hpre) as (Hw & Hp & Hf).
    destruct ev; try discriminate; simpl; repeat split; auto;
      intros p ok m [Heq | Hin]; try discriminate; now apply (Hf p ok m).
Qed.

(** A [stop()] seen at the checkpoint after the request wins over whatever
    was answered: nothing is saved. *)
Lemma audio_run_stopped_after_request w e r :
  is_running w = true ->
  http e = inr r ->
  stop_during_request e = true ->
  (run w e).2
  = [Request (url w);
     Finished "" false "Generación de audio cancelada durante la petición."].
Proof.
  intros Hr Hh Hs. unfold run, run_try. rewrite Hr, Hh, Hs. reflexivity.
Qed.

End AudioGeneratorMore.

Section RunnerMore.

Import Audio.ElevenLabsTTS.

Implicit Types (self : t).

Lemma thread_is_running_spec self tid :
  thread_is_running self tid = true
  <-> exists th, threads self !! tid = Some th /\ isRunning th = true.
Proof.
  unfold thread_is_running. destruct (threads self !! tid) as [th |]; split.
  - intros H. now exists th.
  - now intros (th' & [= <-] & H).
  - discriminate.
  - now intros (th' & [=] & _).
Qed.

Lemma idle_slot_invariant self :
  (forall tid, thread_is_running self tid = false) -> slot_invariant self.
Proof.
  intros Hidle tid th Hl Hrun.
  assert (H : thread_is_running self tid = true)
    by (apply thread_is_running_spec; eauto).
  rewrite Hidle in H. discriminate.
Qed.

Lemma orderly_invariant_step self a self' :
  orderly_invariant self -> step self a self' ->
  (queued_clears self = 0%nat \/ forall instance, a <> Start instance) ->
  orderly_invariant self'.
Proof.
  intros [Hinv Hq] Hstep Hord.
  assert (Hbusy : forall tid th,
             threads self !! tid = Some th -> isRunning th = true ->
             queued_clears self = 0%nat).
  { intros tid th Hl Hr. destruct Hq as [Hq | [_ Hidle]]; [exact Hq |].
    assert (H : thread_is_running self tid = true)
      by (apply thread_is_running_spec; eauto).
    rewrite Hidle in H. discriminate. }
  destruct Hstep as [self instance | self tid th Hl Hr Hf | self tid th Hl Hr Hf
                    | self Hpos].
  - destruct Hord as [Hzero | Hno]; [| now elim (Hno instance)].
    split; [now apply slot_invariant_start |].
    left. unfold _start_worker.
    destruct (match worker_thread self with
              | Some tid => thread_is_running self tid
              | None => false
              end); exact Hzero.
  - split; [now apply slot_invariant_worker_finished |].
    left. exact (Hbusy tid th Hl Hr).
  - assert (Hidle : forall tid', thread_is_running (on_thread_finished self tid) tid' = false).
    { intros tid'. destruct (thread_is_running _ tid') eqn:Ht; [| reflexivity].
      apply thread_is_running_spec in Ht as (th' & Hl' & Hr').
      rewrite (thread_finished_none_running self tid th Hinv Hl Hr tid' th' Hl') in Hr'.
      discriminate. }
    split; [now apply idle_slot_invariant |].
    right. split; [| exact Hidle]. simpl. now rewrite (Hbusy tid th Hl Hr).
  - destruct Hq as [Hq | [Hq Hidle]]; [lia |].
    split; [now apply idle_slot_invariant |].
    left. simpl. now rewrite Hq.
Qed.

Lemma orderly_invariant_holds self : orderly self -> orderly_invariant self.
Proof.
  induction 1 as [| self a self' _ IH Hstep Hord].
  - split; [| now left]. intros tid th Hl. discriminate.
  - eapply orderly_invariant_step; eauto.
Qed.

Lemma start_worker_accepted self instance :
  match worker_thread self with
  | Some tid => thread_is_running self tid
  | None => false
  end = false ->
  _start_worker self instance
  = (mk (Some instance) (Some (length (threads self)))
        (threads self ++ [mkThread true false]) (queued_clears self), true, []).
Proof. intros H. unfold _start_worker. now rewrite H. Qed.

(** With a running thread being the one the window refers to, the guard of
    [_start_worker] lets a worker in exactly when no thread runs. *)
Lemma guard_iff_idle self :
  slot_invariant self ->
  match worker_thread self with
  | Some tid => thread_is_running self tid
  | None => false
  end = false
  <-> forall tid, thread_is_running self tid = false.
Proof.
  intros Hinv. split.
  - intros Hguard tid. destruct (thread_is_running self tid) eqn:Ht; [| reflexivity].
    apply thread_is_running_spec in Ht as Hex. destruct Hex as (th & Hl & Hr).
    rewrite (Hinv tid th Hl Hr), Ht in Hguard. discriminate.
  - intros Hidle. destruct (worker_thread self) as [tid |]; [apply Hidle | reflexivity].
Qed.

End RunnerMore.

Section ImageMore.

Import Imagenes.ImageGeneratorThread.

Lemma image_run_cases w e :
  (exists r, http e = inr r /\ status_code r = 200
             /\ run w e = [progress_signal "Enviando solicitud a FLUX.1-schnell...";
                           Post url; result_signal (content r);
                           finished_signal (elapsed_time e)])
  \/ (exists m, (forall r, http e = inr r -> status_code r <> 200)
                /\ run w e = [progress_signal "Enviando solicitud a FLUX.1-schnell...";
                              Post url; error_signal m]).
Proof.
  unfold run. destruct (http e) as [ex | r].
  - right. eexists. split; [discriminate | reflexivity].
  - destruct (status_code r =? 200)%Z eqn:Hs.
    + left. exists r. apply Z.eqb_eq in Hs. now repeat split.
    + right. eexists. split; [| reflexivity].
      intros r' [= <-]. now apply Z.eqb_neq.
Qed.

End ImageMore.

Section ImageWindowMore.

Import Imagenes Imagenes.ImageGeneratorThread Imagenes.MainWindow.

Implicit Types (self : MainWindow.t) (s : session).

Lemma run_signals_release_last (w : ImageGeneratorThread.t) e :
  releases_last (List.filter image_signal (run w e)).
Proof.
  destruct (image_run_cases w e) as [(r & _ & _ & ->) | (m & _ & ->)]; simpl.
  - now eexists [_; _], _.
  - now eexists [_], _.
Qed.

Lemma deliver_releasing self ev :
  releases_controls ev = true ->
  controls_enabled (deliver self ev) = true
  /\ progress_bar_visible (deliver self ev) = false.
Proof. destruct ev; try discriminate; now split. Qed.

Lemma deliver_other self ev :
  releases_controls ev = false ->
  controls_enabled (deliver self ev) = controls_enabled self
  /\ progress_bar_visible (deliver self ev) = progress_bar_visible self.
Proof. destruct ev; try discriminate; now split. Qed.

Lemma resizeEvent_controls self :
  controls_enabled (resizeEvent self) = controls_enabled self
  /\ progress_bar_visible (resizeEvent self) = progress_bar_visible self.
Proof.
  unfold resizeEvent. destruct (current_image self) as [image |]; [| now split].
  destruct (nonempty image); now split.
Qed.

Lemma generate_image_cases self prompt api_key :
  (String.prefix "hf_" api_key = true /\ prompt <> ""
   /\ generate_image self prompt api_key
      = (setVisible true (toggle_ui false self), [],
         Some (ImageGeneratorThread.mk prompt api_key)))
  \/ ((String.prefix "hf_" api_key = false \/ prompt = "")
      /\ exists message,
          generate_image self prompt api_key
          = (self, [Warning "Advertencia" message], None)).
Proof.
  unfold generate_image.
  destruct (String.eqb_spec api_key "") as [-> | Hkey].
  { right. split; [now left | eauto]. }
  destruct (String.prefix "hf_" api_key) eqn:Hp; simpl.
  2: { right. split; [now left | eauto]. }
  destruct (String.eqb_spec prompt "") as [-> | Hprompt].
  { right. split; [now right | eauto]. }
  left. now repeat split.
Qed.

Lemma session_invariant_step s s' :
  session_invariant s -> session_step s s' -> session_invariant s'.
Proof.
  intros [Hbar Hinv] Hstep.
  destruct Hstep as [s prompt api_key e Hen | s Hen | s | s i ev rest Hl].
  - rewrite Hen in Hinv, Hbar.
    destruct (generate_image_cases (window s) prompt api_key)
      as [(_ & _ & ->) | (_ & m & ->)]; simpl.
    + split; [reflexivity |]. simpl.
      exists (length (runs s)), (List.filter image_signal (run (ImageGeneratorThread.mk prompt api_key) e)).
      split; [rewrite lookup_app_r by lia; now rewrite Nat.sub_diag |].
      split; [apply run_signals_release_last |].
      intros j other Hj Hother.
      destruct (decide (j < length (runs s))%nat) as [Hlt | Hge].
      * rewrite lookup_app_l in Hother by exact Hlt. eauto.
      * apply lookup_lt_Some in Hother. rewrite length_app in Hother.
        simpl in Hother. lia.
    + rewrite app_nil_r. split; simpl; [now rewrite Hen, Hbar |]. now rewrite Hen.
  - split; simpl; [exact Hbar | exact Hinv].
  - destruct (resizeEvent_controls (window s)) as [Hc Hp].
    split; simpl; [now rewrite Hc, Hp | now rewrite Hc].
  - unfold session_invariant. simpl.
    destruct (controls_enabled (window s)) eqn:Hen.
    { specialize (Hinv i _ Hl). discriminate. }
    destruct Hinv as (i0 & pending & Hl0 & (pre & last & -> & Hlast & Hpre) & Hothers).
    destruct (decide (i = i0)) as [-> | Hne].
    2: { specialize (Hothers i _ Hne Hl). discriminate. }
    assert (Hlt : (i0 < length (runs s))%nat) by (eapply lookup_lt_Some; eauto).
    rewrite Hl in Hl0. injection Hl0 as Heq.
    destruct pre as [| ev' pre']; simpl in Heq; injection Heq as -> ->.
    + destruct (deliver_releasing (window s) last Hlast) as [Hc Hp].
      rewrite Hc, Hp. split; [reflexivity |].
      intros j other Hj.
      destruct (decide (j = i0)) as [-> | Hne].
      * rewrite list_lookup_insert_eq in Hj by exact Hlt. congruence.
      * rewrite list_lookup_insert_ne in Hj by congruence. eauto.
    + simpl in Hpre. apply andb_prop in Hpre as [Hev Hpre].
      apply negb_true_iff in Hev.
      destruct (deliver_other (window s) ev' Hev) as [Hc Hp].
      rewrite Hc, Hp, Hen. split; [exact Hbar |].
      exists i0, (pre' ++ [last]).
      split; [now rewrite list_lookup_insert_eq by exact Hlt |].
      split; [now exists pre', last |].
      intros j other Hne Hj.
      rewrite list_lookup_insert_ne in Hj by congruence. eauto.
Qed.

Lemma session_invariant_reachable s : session_reachable s -> session_invariant s.
Proof.
  induction 1 as [| s s' _ IH Hstep].
  - split; [reflexivity |]. simpl. intros i pending Hl.
    rewrite lookup_nil in Hl. discriminate.
  - eapply session_invariant_step; eauto.
Qed.

End ImageWindowMore.

(** * The claims of the specification *)

Import Examples.




(** C3 (as the specification states it, refuted).  With a job that stays
    pending the run ends, after 120 status queries, by emitting
    [task_failed]: the timeout is not an outcome of its own, it is reported
    on the signal that reports failures. *)
Lemma timeout_is_emitted_as_task_failed :
  exists w' tr m,
    Video.VideoTaskWorker.run plain_repr always_processing poller = Some (w', tr, Normal)
    /\ List.length (List.filter query tr) = 120%nat
    /\ List.last tr (Video.Sleep 0) = Video.TaskFailed m.
Proof.
  eexists _, _, _. split; [vm_compute; reflexivity |]. split; reflexivity.
Qed.

(** C3 (amended).  With [N] as the maximum number of polls, a running worker
    that is never stopped and whose job is never seen in a terminal state
    sends exactly [N] status queries, emits no terminal signal meanwhile, and
    then emits [task_failed] with the timeout message as its last event.
    The timeout has no signal of its own; it differs from a failure by its
    message only: nothing an iteration reports on [task_failed] equals the
    timeout message.  [run] is the instance [N = 120]. *)
Theorem polling_times_out repr (e : Video.VideoTaskWorker.env) (N : nat)
    (w : Video.VideoTaskWorker.t) :
  Video.VideoTaskWorker._is_running w = true ->
  never_stopped e ->
  never_terminal repr e w ->
  (exists evs,
      Video.VideoTaskWorker.run_with repr e (S N) N w
      = Some (w,
              Video.StatusUpdated
                ("Iniciando monitoreo de tarea: " +:+ Video.VideoTaskWorker.task_id w)
              :: evs ++ [Video.ReadFlag true;
                         Video.TaskFailed (Video.VideoTaskWorker.timeout_message w)],
              Normal)
      /\ List.length (List.filter query evs) = N
      /\ forallb (fun ev => negb (terminal ev)) evs = true)
  /\ (forall w0 n m w',
         In (Video.TaskFailed m) (Video.VideoTaskWorker.poll_once repr e w0 n).1.2 ->
         m <> Video.VideoTaskWorker.timeout_message w')
  /\ Video.VideoTaskWorker.run repr e w
     = Video.VideoTaskWorker.run_with repr e 121 120 w.
Proof.
  intros Hw Hs Hnt. split; [| split].
  - exact (video_run_timeout repr e N w Hw Hs Hnt).
  - intros w0 n m w'. apply poll_once_failed_message.
  - reflexivity.
Qed.

Lemma polling_times_out_witness :
  Video.VideoTaskWorker._is_running poller = true
  /\ never_stopped always_processing
  /\ never_terminal plain_repr always_processing poller
  /\ exists evs,
       Video.VideoTaskWorker.run_with plain_repr always_processing 4 3 poller
       = Some (poller,
               Video.StatusUpdated "Iniciando monitoreo de tarea: 0123456789abcdef"
               :: evs ++ [Video.ReadFlag true;
                          Video.TaskFailed (Video.VideoTaskWorker.timeout_message poller)],
               Normal)
       /\ List.length (List.filter query evs) = 3%nat.
Proof.
  assert (H1 : Video.VideoTaskWorker._is_running poller = true) by reflexivity.
  assert (H2 : never_stopped always_processing) by (split; [intros n |]; reflexivity).
  assert (H3 : never_terminal plain_repr always_processing poller)
    by (intros n; split; reflexivity).
  split; [exact H1 |]. split; [exact H2 |]. split; [exact H3 |].
  destruct (proj1 (polling_times_out plain_repr always_processing 3 poller H1 H2 H3))
    as (evs & Hrun & Hlen & _).
  exists evs. split; [exact Hrun | exact Hlen].
Defined.

(** C4 (as the specification states it, refuted).  When the polling worker
    detects the cancellation it does not move to any outcome: in the run
    where [stop()] lands during the second iteration the flag is read down
    and [run] returns at once, the events before that read hold no terminal
    signal and nothing but a second read of the flag follows it. *)
Lemma detected_stop_reports_nothing :
  exists w' pre,
    Video.VideoTaskWorker.run plain_repr stopped_in_loop poller
    = Some (w', pre ++ [Video.ReadFlag false; Video.ReadFlag false], Normal)
    /\ forallb (fun ev => negb (terminal ev)) pre = true.
Proof.
  eexists _, (_ :: _ :: _ :: _ :: _ :: _ :: _ :: _ :: _ :: []).
  split; [vm_compute; reflexivity | reflexivity].
Qed.

(** C4 (amended).  Every run of the polling worker returns, and in its trace:
    the first event is the opening status notification; every wait comes
    directly after a read of the flag that found it up; every status query
    comes directly after a wait, so each query has its own check, made before
    the wait of its iteration; the flag is read once for each wait, and twice
    more when the loop is left (its condition, then the [if] after it); and
    once the flag has been read down nothing follows but reads of the flag:
    no further wait or query, and no signal either, cancellation being
    reported by no signal; the worker then returns with the flag down. *)
Theorem cancellation_checked_each_iteration repr
    (e : Video.VideoTaskWorker.env) (w : Video.VideoTaskWorker.t) :
  exists w' tr,
    Video.VideoTaskWorker.run repr e w = Some (w', tr, Normal)
    /\ (exists m, tr !! 0%nat = Some (Video.StatusUpdated m))
    /\ (forall i s, tr !! S i = Some (Video.Sleep s) ->
                    tr !! i = Some (Video.ReadFlag true))
    /\ (forall i u, tr !! S i = Some (Video.Get u) ->
                    exists s, tr !! i = Some (Video.Sleep s))
    /\ List.length (List.filter flag_read tr)
       = (List.length (List.filter wait tr) + 2)%nat
    /\ (forall i j ev, tr !! i = Some (Video.ReadFlag false) -> (i < j)%nat ->
                       tr !! j = Some ev -> ev = Video.ReadFlag false)
    /\ (In (Video.ReadFlag false) tr -> Video.VideoTaskWorker._is_running w' = false).
Proof.
  destruct (video_run_outcome repr e Video.VideoTaskWorker.max_polls w)
    as (w' & tr & Hrun & _).
  exists w', tr. split; [exact Hrun |].
  pose proof (video_run_reads repr e _ _ _ _ Hrun) as Hreads.
  destruct (video_run_chain repr e _ _ _ _ Hrun) as (m & tr' & Htr & Hch).
  simpl in Htr, Hreads. subst tr.
  repeat split.
  - now exists m.
  - intros i s Hs.
    destruct ((Video.StatusUpdated m :: tr') !! i) as [a |] eqn:Ha.
    + pose proof (chain_lookup_cons _ _ Hch i a _ Ha Hs) as Hal.
      destruct a as [| | | [] | | |]; try discriminate; reflexivity.
    + apply lookup_ge_None in Ha. apply lookup_lt_Some in Hs. lia.
  - intros i u Hu.
    destruct ((Video.StatusUpdated m :: tr') !! i) as [a |] eqn:Ha.
    + pose proof (chain_lookup_cons _ _ Hch i a _ Ha Hu) as Hal.
      destruct a as [| | s | [] | | |]; try discriminate. now exists s.
    + apply lookup_ge_None in Ha. apply lookup_lt_Some in Hu. lia.
  - exact Hreads.
  - exact (chain_after_flag_down_cons _ _ Hch).
  - exact (video_run_flag_down repr e _ _ _ _ Hrun).
Qed.

(** C5 (the code departs from the specification).  A body longer than the declared
    content length drives the reported percentage above 100, and the closing
    emission of 100 then makes the sequence decrease: with 10 bytes declared
    and one chunk of 20 bytes the [progress] signal carries 200, then 100. *)
Theorem progress_overshoots_declared_length :
  percents (Audio.AudioGenerator.run speech_worker overlong_stream).2 = [200; 100]
  /\ Audio.AudioGenerator.percent 20 10 = inr 200.
Proof. split; vm_compute; reflexivity. Qed.

(** C6.  A download that is answered 200 and whose stream is read to its
    end without a single byte (every chunk empty, nothing raised, no
    [stop()]) emits [finished] with [success = False] and the empty-file
    message as its only outcome; nothing was written; that message is not
    the message of a network error; and no event reports success. *)
Theorem empty_stream_is_failure (w : Audio.AudioGenerator.t)
    (e : Audio.AudioGenerator.env) (r : Response) :
  Audio.AudioGenerator.is_running w = true ->
  Audio.AudioGenerator.http e = inr r ->
  status_code r = 200 ->
  Audio.AudioGenerator.stop_during_request e = false ->
  (if Audio.AudioGenerator.temp_dir_exists e then None
   else Audio.AudioGenerator.makedirs_error e) = None ->
  Audio.AudioGenerator.open_error e = None ->
  (forall ex, Audio.AudioGenerator.content_length e <> Audio.AudioGenerator.BadLength ex) ->
  Audio.AudioGenerator.body_error e = None ->
  (forall it, In it (Audio.AudioGenerator.body e) ->
              Audio.AudioGenerator.chunk it = []
              /\ Audio.AudioGenerator.stop_before it = false) ->
  (Audio.AudioGenerator.run w e).2
  = Audio.AudioGenerator.Request (Audio.AudioGenerator.url w)
    :: (if Audio.AudioGenerator.temp_dir_exists e then []
        else [Audio.AudioGenerator.MakeDirs (Audio.AudioGenerator.temp_dir e)])
    ++ [Audio.AudioGenerator.Open (Audio.AudioGenerator.temp_file e);
        Audio.AudioGenerator.Finished (Audio.AudioGenerator.temp_file e) false
          "Error: Archivo de audio generado está vacío."]
  /\ (forall m, "Error: Archivo de audio generado está vacío."
                <> "Error de red generando audio: " +:+ m)
  /\ forallb (fun ev => negb (audio_success ev)) (Audio.AudioGenerator.run w e).2 = true.
Proof.
  intros Hr Hh Hs Hstop Hmk Hop Hcl Hend Hall.
  split; [now apply (audio_run_empty w e r) |]. split; [intros m; discriminate |].
  apply forallb_forall. intros ev Hin.
  destruct (audio_success ev) eqn:Hok; [| reflexivity].
  destruct (audio_run_success_inv w e ev Hin Hok) as (_ & it & Hit & Hne).
  now destruct (Hall it Hit).
Qed.

Lemma empty_stream_is_failure_witness :
  (Audio.AudioGenerator.run speech_worker empty_stream).2
  = [Audio.AudioGenerator.Request
       "https://api.elevenlabs.io/v1/text-to-speech/voice-1/stream";
     Audio.AudioGenerator.Open "/home/user/.elevenlabs_tts/temp_audio_0a1b2c3d.mp3";
     Audio.AudioGenerator.Finished
       "/home/user/.elevenlabs_tts/temp_audio_0a1b2c3d.mp3" false
       "Error: Archivo de audio generado está vacío."].
Proof.
  refine (proj1 (empty_stream_is_failure speech_worker empty_stream ok_stream
                   eq_refl eq_refl eq_refl eq_refl eq_refl eq_refl _ eq_refl _)).
  - intros ex. discriminate.
  - intros it [<- | [<- | []]]; split; reflexivity.
Defined.

(** C7.  For a running worker that sends a GET or a POST: an answer outside
    200..299 that arrives before any [stop()] is reported by [finished] with
    [success = False] and a message made of the status code and the body; a
    [RequestException] raised by the request is reported with
    [success = False] and the network-error message carrying its text; and
    in neither case does any event report success, whatever [stop()] did. *)
Theorem request_failures_are_classified (w : Audio.ApiWorker.t)
    (e : Audio.ApiWorker.env) :
  Audio.ApiWorker.is_running w = true ->
  Audio.ApiWorker.method w = "GET" \/ Audio.ApiWorker.method w = "POST" ->
  (forall r,
      Audio.ApiWorker.http e = inr r ->
      ~ (200 <= status_code r < 300) ->
      (Audio.ApiWorker.stop_during_request e = false ->
       (Audio.ApiWorker.run w e).2
       = [Audio.ApiWorker.Request (Audio.ApiWorker.method w) (Audio.ApiWorker.endpoint w);
          Audio.ApiWorker.Finished Audio.ApiWorker.NoData false
            ("Error: " +:+ pretty (status_code r) +:+ " - " +:+ text r)])
      /\ forallb (fun ev => negb (api_success ev)) (Audio.ApiWorker.run w e).2 = true)
  /\ (forall m,
         Audio.ApiWorker.http e = inl (RequestException m) ->
         (Audio.ApiWorker.run w e).2
         = [Audio.ApiWorker.Request (Audio.ApiWorker.method w) (Audio.ApiWorker.endpoint w);
            Audio.ApiWorker.Finished Audio.ApiWorker.NoData false ("Error de red: " +:+ m)]).
Proof.
  intros Hr Hm. split.
  - intros r Hh H2xx.
    assert (Hs : status_code r <> 200) by lia.
    split; [intros Hstop; now apply api_run_http_status |].
    apply api_run_no_success. intros r' Hh'. congruence.
  - intros m Hh. now apply api_run_network.
Qed.

Lemma request_failures_are_classified_witness :
  (Audio.ApiWorker.run connect_worker answers_404).2
  = [Audio.ApiWorker.Request "GET" "https://api.elevenlabs.io/v1/user";
     Audio.ApiWorker.Finished Audio.ApiWorker.NoData false "Error: 404 - Not Found"]
  /\ (Audio.ApiWorker.run connect_worker times_out).2
     = [Audio.ApiWorker.Request "GET" "https://api.elevenlabs.io/v1/user";
        Audio.ApiWorker.Finished Audio.ApiWorker.NoData false
          "Error de red: Read timed out."].
Proof.
  split.
  - refine (proj1 (proj1 (request_failures_are_classified connect_worker answers_404
                            eq_refl (or_introl eq_refl)) not_found eq_refl _) eq_refl).
    simpl. lia.
  - exact (proj2 (request_failures_are_classified connect_worker times_out
                    eq_refl (or_introl eq_refl)) "Read timed out." eq_refl).
Defined.

(** C8 (as the specification states it, refuted).  A polling worker that
    is stopped before [run] starts is not reported as cancelled: its run
    announces the monitoring, reads the flag twice and returns; no signal
    carries an outcome. *)
Lemma stopped_poller_is_not_reported_cancelled :
  Video.VideoTaskWorker.run plain_repr always_processing stopped_poller
  = Some (stopped_poller,
          [Video.StatusUpdated "Iniciando monitoreo de tarea: 0123456789abcdef";
           Video.ReadFlag false; Video.ReadFlag false],
          Normal).
Proof. vm_compute. reflexivity. Qed.

(** C8 (amended).  A worker whose flag is already down when [run] starts:
    the simple request worker and the streaming download worker emit
    [finished] with [success = False] and the "cancelled before starting"
    message and nothing else, so no request is sent and nothing is created,
    opened or written; the polling worker sends no request either, but it
    reports no outcome: it announces the monitoring, reads its flag twice
    and returns. *)
Theorem cancel_before_start
    (aw : Audio.ApiWorker.t) (ae : Audio.ApiWorker.env)
    (gw : Audio.AudioGenerator.t) (ge : Audio.AudioGenerator.env)
    repr (vw : Video.VideoTaskWorker.t) (ve : Video.VideoTaskWorker.env) :
  Audio.ApiWorker.is_running aw = false ->
  Audio.AudioGenerator.is_running gw = false ->
  Video.VideoTaskWorker._is_running vw = false ->
  (Audio.ApiWorker.run aw ae
   = (aw, [Audio.ApiWorker.Finished Audio.ApiWorker.NoData false
             "Operación cancelada antes de iniciar."])
   /\ forallb (fun ev => negb (api_request ev)) (Audio.ApiWorker.run aw ae).2 = true)
  /\ (Audio.AudioGenerator.run gw ge
      = (gw, [Audio.AudioGenerator.Finished "" false
                "Generación de audio cancelada antes de iniciar."])
      /\ forallb (fun ev => negb (audio_effect ev)) (Audio.AudioGenerator.run gw ge).2 = true)
  /\ (exists w' tr,
         Video.VideoTaskWorker.run repr ve vw = Some (w', tr, Normal)
         /\ tr = [Video.StatusUpdated
                    ("Iniciando monitoreo de tarea: "
                     +:+ Video.VideoTaskWorker.task_id vw);
                  Video.ReadFlag false; Video.ReadFlag false]
         /\ forallb (fun ev => negb (request ev)) tr = true
         /\ forallb (fun ev => negb (terminal ev)) tr = true).
Proof.
  intros Ha Hg Hv. split; [| split].
  - rewrite (run_cancelled_before aw ae Ha). now split.
  - rewrite (audio_run_cancelled_before gw ge Hg). now split.
  - unfold Video.VideoTaskWorker.run.
    rewrite (video_run_cancelled_before repr ve _ _ vw Hv).
    eexists _, _. split; [reflexivity |]. now repeat split.
Qed.

Lemma cancel_before_start_witness :
  Audio.ApiWorker.run (Audio.ApiWorker.stop connect_worker) answers_404
  = (Audio.ApiWorker.stop connect_worker,
     [Audio.ApiWorker.Finished Audio.ApiWorker.NoData false
        "Operación cancelada antes de iniciar."])
  /\ Audio.AudioGenerator.run (Audio.AudioGenerator.stop speech_worker) overlong_stream
     = (Audio.AudioGenerator.stop speech_worker,
        [Audio.AudioGenerator.Finished "" false
           "Generación de audio cancelada antes de iniciar."]).
Proof.
  pose proof (cancel_before_start
                (Audio.ApiWorker.stop connect_worker) answers_404
                (Audio.AudioGenerator.stop speech_worker) overlong_stream
                plain_repr stopped_poller always_processing
                eq_refl eq_refl eq_refl) as ((Ha & _) & (Hg & _) & _).
  split; [exact Ha | exact Hg].
Defined.

(** C9.  The flag of each of the three workers starts up, and once it is
    down no sequence of [stop] and [run] calls, whatever the environment,
    brings it up again. *)
Theorem cancellation_flag_is_monotonic :
  (forall api_key endpoint method data,
      Audio.ApiWorker.is_running (Audio.ApiWorker.init api_key endpoint method data) = true)
  /\ (forall api_key voice_id text model_id stability clarity,
         Audio.AudioGenerator.is_running
           (Audio.AudioGenerator.init api_key voice_id text model_id stability clarity)
         = true)
  /\ (forall api_client task_id,
         Video.VideoTaskWorker._is_running (Video.VideoTaskWorker.init api_client task_id)
         = true)
  /\ (forall ops w,
         Audio.ApiWorker.is_running w = false ->
         Audio.ApiWorker.is_running (fold_left api_apply ops w) = false)
  /\ (forall ops w,
         Audio.AudioGenerator.is_running w = false ->
         Audio.AudioGenerator.is_running (fold_left audio_apply ops w) = false)
  /\ (forall ops w,
         Video.VideoTaskWorker._is_running w = false ->
         Video.VideoTaskWorker._is_running (fold_left video_apply ops w) = false).
Proof.
  repeat split; try reflexivity.
  - induction ops as [| o ops IH]; intros w Hw; [exact Hw |].
    simpl. apply IH. destruct o as [| e]; [reflexivity | apply api_run_clears_flag].
  - induction ops as [| o ops IH]; intros w Hw; [exact Hw |].
    simpl. apply IH. destruct o as [| e]; [reflexivity | apply audio_run_clears_flag].
  - induction ops as [| o ops IH]; intros w Hw; [exact Hw |].
    simpl. apply IH. destruct o as [| repr e]; [reflexivity |].
    simpl. destruct (Video.VideoTaskWorker.run repr e w) as [[[w' tr] fl] |] eqn:Hrun;
      [| exact Hw].
    exact (video_run_flag repr e _ _ w _ Hrun Hw).
Qed.



(** The float arithmetic of the percentage is Python's: 29 bytes of 100 are
    reported as 28 percent. *)
Example percent_is_float_arithmetic : Audio.AudioGenerator.percent 29 100 = inr 28.
Proof. vm_compute. reflexivity. Qed.

(** * Further properties of the code *)

Import Examples2.

(** ** The client of the video service *)

Section ClientTheorems.

Import Video Video.NovitaApiClient.

(** X1.  Each method of [NovitaApiClient] sends one request, whatever comes
    back (an answer of any status, an exception), and none at all when the
    key or one of its inputs is empty; what is returned without a request is
    never a success. *)
Theorem client_sends_one_request_or_none repr (c : t) :
  (forall http,
      (check_api_status c http).2
      = if String.eqb (api_key c) "" then []
        else [Get "https://api.novita.ai/v2/models"])
  /\ (forall image_url prompt width height seed http,
         (start_image_to_video_task repr c image_url prompt width height seed http).2
         = if String.eqb (api_key c) "" || String.eqb image_url ""
              || String.eqb prompt ""
           then [] else [Post (NOVITA_API_BASE_URL +:+ "/wan-i2v")])
  /\ (forall tid http,
         (get_task_result repr c tid http).2
         = if String.eqb (api_key c) "" || String.eqb tid "" then []
           else [Get (NOVITA_API_BASE_URL +:+ "/task-result?task_id=" +:+ tid)])
  /\ (forall http,
         (check_api_status c http).2 = [] -> (check_api_status c http).1.1 = false)
  /\ (forall image_url prompt width height seed http,
         (start_image_to_video_task repr c image_url prompt width height seed http).2 = [] ->
         (start_image_to_video_task repr c image_url prompt width height seed http).1.1.1
         = PyNone)
  /\ (forall tid http,
         (get_task_result repr c tid http).2 = [] ->
         (get_task_result repr c tid http).1.1.1 = PyStr "failed").
Proof.
  repeat apply conj.
  - intros http. unfold check_api_status.
    destruct (String.eqb (api_key c) ""); reflexivity.
  - intros. apply start_task_request.
  - intros tid http. unfold get_task_result.
    destruct (String.eqb (api_key c) ""); [reflexivity |].
    destruct (String.eqb tid ""); reflexivity.
  - intros http. unfold check_api_status.
    destruct (String.eqb (api_key c) ""); [reflexivity | discriminate].
  - intros image_url prompt width height seed http.
    unfold start_image_to_video_task.
    destruct (String.eqb (api_key c) ""); [reflexivity |].
    destruct (String.eqb image_url ""); [reflexivity |].
    destruct (String.eqb prompt ""); [reflexivity | discriminate].
  - intros tid http. unfold get_task_result.
    destruct (String.eqb (api_key c) ""); [reflexivity |].
    destruct (String.eqb tid ""); [reflexivity | discriminate].
Qed.

(** X2.  [get_task_result] answers "completed" only together with a result
    whose [video_url] is a true value (a completed task without one is turned
    into "failed").  So the worker's own test of the URL never fails: the
    branch of [run] that reports a completed task without URL is dead, and
    its message is never sent on [task_failed]. *)
Theorem completed_answer_carries_url repr :
  (forall c tid http,
      eq_str (get_task_result repr c tid http).1.1.1 "completed" = true ->
      exists v,
        get (get_task_result repr c tid http).1.1.2 "video_url" PyNone = inr v
        /\ truthy v = true)
  /\ (forall e w r,
         VideoTaskWorker.run repr e w = Some r ->
         forall m, In (TaskFailed m) r.1.2 ->
           m <> "La tarea completó pero no se encontró URL de video.").
Proof.
  split.
  - intros c tid http H.
    destruct (get_task_result repr c tid http) as [[[status result] msg] evs] eqn:Hg.
    exact (get_task_result_completed repr c tid http status result msg evs Hg H).
  - intros e w r Hrun m Hin.
    destruct (video_run_counts repr e _ _ w r Hrun) as (_ & _ & _ & Hall).
    rewrite List.Forall_forall in Hall. exact (Hall _ Hin).
Qed.

(** X3.  A state other than "failed" is never made up by the client: it
    is returned only when the key and the task id are not empty, one query
    was sent, the answer had status 200 and decoded to an object, and the
    state and the result are what that object holds under "task" (with
    "unknown" and the empty object for what is missing). *)
Theorem unfailed_status_is_read_from_answer repr (c : t) tid http :
  eq_str (get_task_result repr c tid http).1.1.1 "failed" = false ->
  api_key c <> "" /\ tid <> ""
  /\ (get_task_result repr c tid http).2
     = [Get (NOVITA_API_BASE_URL +:+ "/task-result?task_id=" +:+ tid)]
  /\ exists r data task_data,
      http = inr r /\ status_code r = 200 /\ json r = inr data
      /\ get data "task" (PyDict []) = inr task_data
      /\ get task_data "status" (PyStr "unknown")
         = inr (get_task_result repr c tid http).1.1.1
      /\ get task_data "result" (PyDict [])
         = inr (get_task_result repr c tid http).1.1.2.
Proof.
  intros H.
  assert (Hkey : api_key c <> "").
  { intros Heq. unfold get_task_result in H. rewrite Heq in H. discriminate. }
  assert (Htid : tid <> "").
  { intros Heq. unfold get_task_result in H. rewrite Heq in H.
    destruct (String.eqb (api_key c) ""); discriminate. }
  split; [exact Hkey |]. split; [exact Htid |].
  split; [now apply get_task_result_request |].
  now apply get_task_result_not_failed.
Qed.

Lemma unfailed_status_is_read_from_answer_witness :
  eq_str (get_task_result plain_repr client "t1" (inr processing)).1.1.1 "failed" = false
  /\ (get_task_result plain_repr client "t1" (inr processing)).1.1.1 = PyStr "processing"
  /\ exists r data task_data,
      @inr exn Response processing = inr r /\ status_code r = 200 /\ json r = inr data
      /\ get data "task" (PyDict []) = inr task_data
      /\ get task_data "status" (PyStr "unknown")
         = inr (get_task_result plain_repr client "t1" (inr processing)).1.1.1
      /\ get task_data "result" (PyDict [])
         = inr (get_task_result plain_repr client "t1" (inr processing)).1.1.2.
Proof.
  split; [reflexivity |]. split; [reflexivity |].
  exact (proj2 (proj2 (proj2
    (unfailed_status_is_read_from_answer plain_repr client "t1" (inr processing)
       eq_refl)))).
Defined.

(** X4.  A task id is returned by [start_image_to_video_task] only when the
    key, the image URL and the prompt are not empty, the request was sent,
    and the answer had status 200 and decoded to an object holding that id,
    a true value, under "task_id"; the decoded answer is returned with
    it. *)
Theorem started_task_id_comes_from_answer repr (c : t) image_url prompt
    width height seed http :
  (start_image_to_video_task repr c image_url prompt width height seed http).1.1.1
    <> PyNone ->
  api_key c <> "" /\ image_url <> "" /\ prompt <> ""
  /\ (start_image_to_video_task repr c image_url prompt width height seed http).2
     = [Post (NOVITA_API_BASE_URL +:+ "/wan-i2v")]
  /\ exists r data,
      http = inr r /\ status_code r = 200 /\ json r = inr data
      /\ get data "task_id" PyNone
         = inr (start_image_to_video_task repr c image_url prompt width height seed
                  http).1.1.1
      /\ truthy (start_image_to_video_task repr c image_url prompt width height seed
                   http).1.1.1 = true
      /\ (start_image_to_video_task repr c image_url prompt width height seed
            http).1.1.2 = "Tarea de generación iniciada."
      /\ (start_image_to_video_task repr c image_url prompt width height seed
            http).1.2 = data.
Proof.
  intros H.
  assert (Hin : String.eqb (api_key c) "" || String.eqb image_url ""
                || String.eqb prompt "" = false).
  { unfold start_image_to_video_task in H.
    destruct (String.eqb (api_key c) ""); [now elim H |].
    destruct (String.eqb image_url ""); [now elim H |].
    destruct (String.eqb prompt ""); [now elim H | reflexivity]. }
  apply orb_false_elim in Hin as [[Hk Hu]%orb_false_elim Hp].
  apply String.eqb_neq in Hk, Hu, Hp.
  repeat (split; [assumption |]).
  split.
  - rewrite start_task_request.
    apply String.eqb_neq in Hk, Hu, Hp. now rewrite Hk, Hu, Hp.
  - now apply start_task_accepted.
Qed.

Lemma started_task_id_comes_from_answer_witness :
  (start_image_to_video_task plain_repr client "https://example.org/cat.png"
     "a cat walking" 832 480 (-1) (inr accepted)).1.1.1 = PyStr "0123456789abcdef"
  /\ (start_image_to_video_task plain_repr client "https://example.org/cat.png"
        "a cat walking" 832 480 (-1) (inr accepted)).2
     = [Post (NOVITA_API_BASE_URL +:+ "/wan-i2v")].
Proof.
  split; [reflexivity |].
  refine (proj1 (proj2 (proj2 (proj2
    (started_task_id_comes_from_answer plain_repr client "https://example.org/cat.png"
       "a cat walking" 832 480 (-1) (inr accepted) _))))).
  discriminate.
Defined.

End ClientTheorems.

(** ** The polling worker *)

Section PollingTheorems.

Import Video Video.VideoTaskWorker.

(** X6.  An answer with status 200 that decodes to an object without "task"
    is read as the state "unknown", which is neither completion nor failure:
    a task whose queries are all answered so, and that nobody stops, is
    polled 120 times and then reported on [task_failed] with the timeout
    message. *)
Theorem answers_without_task_time_out repr (e : env) (w : t) :
  _is_running w = true ->
  NovitaApiClient.api_key (api_client w) <> "" -> task_id w <> "" ->
  never_stopped e ->
  (forall n, exists r kvs,
      http e n = inr r /\ status_code r = 200
      /\ json r = inr (PyDict kvs) /\ assoc "task" kvs = None) ->
  exists evs,
    run repr e w
    = Some (w, StatusUpdated ("Iniciando monitoreo de tarea: " +:+ task_id w)
               :: evs ++ [ReadFlag true; TaskFailed (timeout_message w)], Normal)
    /\ List.length (List.filter query evs) = 120%nat
    /\ forallb (fun ev => negb (terminal ev)) evs = true.
Proof.
  intros Hrun Hkey Htid Hstop Hans.
  apply (video_run_timeout repr e max_polls w Hrun Hstop).
  intros n. destruct (Hans n) as (r & kvs & Hh & Hs & Hj & Hnone).
  unfold NovitaApiClient.get_task_result.
  rewrite (eqb_false_ne _ _ Hkey), (eqb_false_ne _ _ Htid), Hh.
  unfold NovitaApiClient.task_result_of. rewrite Hs, Hj. simpl. rewrite Hnone.
  split; reflexivity.
Qed.

Lemma answers_without_task_time_out_witness :
  never_stopped always_empty_object
  /\ exists evs,
      run plain_repr always_empty_object poller
      = Some (poller,
              StatusUpdated ("Iniciando monitoreo de tarea: " +:+ task_id poller)
              :: evs ++ [ReadFlag true; TaskFailed (timeout_message poller)], Normal)
      /\ List.length (List.filter query evs) = 120%nat
      /\ forallb (fun ev => negb (terminal ev)) evs = true.
Proof.
  assert (Hstop : never_stopped always_empty_object) by (split; reflexivity).
  split; [exact Hstop |].
  refine (answers_without_task_time_out plain_repr always_empty_object poller
            eq_refl _ _ Hstop _); try discriminate.
  intros n. exists empty_object, []. repeat split; reflexivity.
Defined.

(** X7.  The first answer in a terminal state ends the polling: when the
    first [k - 1] answers are pending, no [stop()] is seen and answer [k]
    (at most the 120th) is terminal, [run] waits [k] times, sends at most
    [k] queries (exactly [k] with a key and a task id), emits the signal of
    that answer as its only terminal signal, finds its own flag down at the
    next two reads and returns. *)
Theorem first_terminal_answer_ends_polling repr (e : env) (k : nat) T (w : t) :
  _is_running w = true ->
  (1 <= k <= 120)%nat ->
  (forall n, (n < k)%nat -> stop_before_poll e n = false) ->
  (forall j, (1 <= j < k)%nat -> pending_at repr e w j) ->
  signal_of (answer repr e w k) = Some T ->
  exists evs,
    run repr e w
    = Some (set_is_running false w,
            StatusUpdated ("Iniciando monitoreo de tarea: " +:+ task_id w)
            :: evs ++ [T; ReadFlag false; ReadFlag false],
            Normal)
    /\ List.length (List.filter wait evs) = k
    /\ (List.length (List.filter query evs) <= k)%nat
    /\ (String.eqb (NovitaApiClient.api_key (api_client w)) "" = false ->
        String.eqb (task_id w) "" = false ->
        List.length (List.filter query evs) = k)
    /\ forallb (fun ev => negb (terminal ev)) evs = true.
Proof. intros Hrun Hk. now apply video_run_until. Qed.

Lemma first_terminal_answer_ends_polling_witness :
  signal_of (answer plain_repr done_on_fourth poller 4) = Some (TaskCompleted (PyStr "X"))
  /\ exists evs,
      run plain_repr done_on_fourth poller
      = Some (set_is_running false poller,
              StatusUpdated ("Iniciando monitoreo de tarea: " +:+ task_id poller)
              :: evs ++ [TaskCompleted (PyStr "X"); ReadFlag false; ReadFlag false],
              Normal)
      /\ List.length (List.filter wait evs) = 4%nat
      /\ (List.length (List.filter query evs) <= 4)%nat
      /\ (String.eqb (NovitaApiClient.api_key (api_client poller)) "" = false ->
          String.eqb (task_id poller) "" = false ->
          List.length (List.filter query evs) = 4%nat)
      /\ forallb (fun ev => negb (terminal ev)) evs = true.
Proof.
  split; [reflexivity |].
  refine (first_terminal_answer_ends_polling plain_repr done_on_fourth 4
            (TaskCompleted (PyStr "X")) poller eq_refl _ _ _ eq_refl).
  - lia.
  - reflexivity.
  - intros j Hj.
    assert (Hcases : j = 1%nat \/ j = 2%nat \/ j = 3%nat) by lia.
    destruct Hcases as [-> | [-> | ->]]; split; reflexivity.
Defined.

(** X8.  A query that fails is not tried again.  When the first [k - 1]
    answers are pending, no [stop()] is seen, and query [k] raises or is
    answered with a status other than 200, [run] emits [task_failed] right
    after that query, [k] waits and [k] queries after its start, and
    returns. *)
Theorem failed_query_ends_polling repr (e : env) (k : nat) (w : t) :
  _is_running w = true ->
  NovitaApiClient.api_key (api_client w) <> "" -> task_id w <> "" ->
  (1 <= k <= 120)%nat ->
  (forall n, (n < k)%nat -> stop_before_poll e n = false) ->
  (forall j, (1 <= j < k)%nat -> pending_at repr e w j) ->
  (exists ex, http e k = inl ex)
  \/ (exists r, http e k = inr r /\ status_code r <> 200) ->
  exists evs m,
    run repr e w
    = Some (set_is_running false w,
            StatusUpdated ("Iniciando monitoreo de tarea: " +:+ task_id w)
            :: evs ++ [TaskFailed m; ReadFlag false; ReadFlag false],
            Normal)
    /\ List.length (List.filter wait evs) = k
    /\ List.length (List.filter query evs) = k
    /\ forallb (fun ev => negb (terminal ev)) evs = true.
Proof.
  intros Hrun Hkey Htid Hk Hstop Hpend Hfail.
  apply eqb_false_ne in Hkey, Htid.
  assert (Hsig : exists m, signal_of (answer repr e w k) = Some (TaskFailed m)).
  { unfold answer, NovitaApiClient.get_task_result. rewrite Hkey, Htid.
    destruct Hfail as [[ex Hh] | (r & Hh & Hs)]; rewrite Hh.
    - destruct ex as [m | m]; eexists; reflexivity.
    - unfold NovitaApiClient.task_result_of.
      apply Z.eqb_neq in Hs. rewrite Hs. eexists; reflexivity. }
  destruct Hsig as [m Hsig].
  destruct (video_run_until repr e max_polls k (TaskFailed m) w Hrun Hk Hstop Hpend Hsig)
    as (evs & Heq & Hw & _ & Hq & Hno).
  exists evs, m. repeat split; auto.
Qed.

Lemma failed_query_ends_polling_witness :
  http fails_on_second 2 = inl (RequestException "Connection aborted.")
  /\ exists evs m,
      run plain_repr fails_on_second poller
      = Some (set_is_running false poller,
              StatusUpdated ("Iniciando monitoreo de tarea: " +:+ task_id poller)
              :: evs ++ [TaskFailed m; ReadFlag false; ReadFlag false],
              Normal)
      /\ List.length (List.filter wait evs) = 2%nat
      /\ List.length (List.filter query evs) = 2%nat
      /\ forallb (fun ev => negb (terminal ev)) evs = true.
Proof.
  split; [reflexivity |].
  refine (failed_query_ends_polling plain_repr fails_on_second 2 poller
            eq_refl _ _ _ _ _ _); try discriminate.
  - lia.
  - reflexivity.
  - intros j Hj. assert (j = 1%nat) as -> by lia. split; reflexivity.
  - left. eexists. reflexivity.
Defined.

(** X9.  [run] always returns, and its work is bounded whatever the service
    answers and whenever [stop()] is called: at most 120 waits, each of five
    seconds, at most one query per wait, and one [status_updated] per wait
    besides the one sent at the start. *)
Theorem polling_is_bounded repr (e : env) (w : t) :
  exists w' tr,
    run repr e w = Some (w', tr, Normal)
    /\ (List.length (List.filter wait tr) <= 120)%nat
    /\ (List.length (List.filter query tr) <= List.length (List.filter wait tr))%nat
    /\ List.length (List.filter status_update tr) = S (List.length (List.filter wait tr))
    /\ forall s, In (Sleep s) tr -> s = 5.
Proof.
  destruct (video_run_outcome repr e max_polls w) as (w' & tr & Hrun & _).
  exists w', tr. split; [exact Hrun |].
  destruct (video_run_counts repr e _ _ w _ Hrun) as (Hw & Hq & Hs & Hall).
  repeat split; auto.
  intros s Hin. rewrite List.Forall_forall in Hall. exact (Hall _ Hin).
Qed.

End PollingTheorems.

(** ** The request worker of the speech window *)

Section ApiWorkerTheorems.

Import Audio.ApiWorker.

(** X10.  [ApiWorker.run] sends at most one request: exactly one, before
    anything else, when the worker is running and its method is GET or POST,
    and none otherwise.  With any other method a running worker that sees no
    [stop()] reports one failure and nothing else. *)
Theorem api_worker_sends_at_most_one_request (w : t) (e : env) :
  (exists rest,
      (run w e).2
      = (if is_running w && (String.eqb (method w) "GET" || String.eqb (method w) "POST")
         then [Request (method w) (endpoint w)] else []) ++ rest
      /\ forallb (fun ev => negb (api_request ev)) rest = true)
  /\ (is_running w = true -> method w <> "GET" -> method w <> "POST" ->
      stop_during_request e = false ->
      exists m, (run w e).2 = [Finished NoData false m]).
Proof.
  split; [apply api_run_requests |].
  intros Hr Hg Hp Hs. apply String.eqb_neq in Hg, Hp.
  unfold run, run_try, after_request. rewrite Hr, Hg, Hp, Hs. simpl. rewrite Hr. simpl.
  eexists. reflexivity.
Qed.

Lemma api_worker_sends_at_most_one_request_witness :
  exists m,
    (run (init "sk-key" "https://api.elevenlabs.io/v1/voices/21m00Tcm" "DELETE" PyNone)
         answers_ok).2
    = [Finished NoData false m].
Proof.
  refine (proj2 (api_worker_sends_at_most_one_request
                   (init "sk-key" "https://api.elevenlabs.io/v1/voices/21m00Tcm" "DELETE"
                         PyNone) answers_ok) eq_refl _ _ eq_refl); discriminate.
Defined.

(** X11.  What a 200 answer delivers to a running worker that sees no
    [stop()]: the response object itself for a POST answered with an empty
    body, the decoded body otherwise; a body that does not decode makes the
    run report a failure although the status was 200. *)
Theorem ok_answer_delivery (w : t) (e : env) r :
  is_running w = true ->
  method w = "GET" \/ method w = "POST" ->
  http e = inr r -> status_code r = 200 ->
  stop_during_request e = false ->
  (run w e).2
  = [Request (method w) (endpoint w);
     if String.eqb (method w) "POST" && negb (nonempty (content r))
     then Finished (RawResponse r) true ""
     else match json r with
          | inr v => Finished (JsonData v) true ""
          | inl (RequestException m) => Finished NoData false ("Error de red: " +:+ m)
          | inl (OtherException m) => Finished NoData false m
          end].
Proof.
  intros Hr Hm Hh Hs Hstop. unfold run, run_try, after_request, observe_stop.
  rewrite Hr, Hh, Hstop. simpl. rewrite Hr, Hs. simpl.
  destruct Hm as [-> | ->]; simpl.
  - destruct (json r) as [[m | m] | v]; reflexivity.
  - destruct (nonempty (content r)); simpl; [| reflexivity].
    destruct (json r) as [[m | m] | v]; reflexivity.
Qed.

Lemma ok_answer_delivery_witness :
  (run connect_worker answers_ok).2
  = [Request "GET" "https://api.elevenlabs.io/v1/user";
     Finished (JsonData (PyList [])) true ""].
Proof.
  refine (ok_answer_delivery connect_worker answers_ok ok_list eq_refl _ eq_refl
            eq_refl eq_refl).
  now left.
Defined.

End ApiWorkerTheorems.

(** X12.  In both workers of the speech window a [stop()] that lands while
    the request is out wins over the answer: whatever its status and body,
    the run reports the cancellation and nothing is decoded, opened or
    written. *)
Theorem stop_during_request_discards_answer :
  (forall (w : Audio.ApiWorker.t) (e : Audio.ApiWorker.env) r,
      Audio.ApiWorker.is_running w = true ->
      Audio.ApiWorker.method w = "GET" \/ Audio.ApiWorker.method w = "POST" ->
      Audio.ApiWorker.http e = inr r ->
      Audio.ApiWorker.stop_during_request e = true ->
      (Audio.ApiWorker.run w e).2
      = [Audio.ApiWorker.Request (Audio.ApiWorker.method w) (Audio.ApiWorker.endpoint w);
         Audio.ApiWorker.Finished Audio.ApiWorker.NoData false
           "Operación cancelada durante la ejecución."])
  /\ (forall (w : Audio.AudioGenerator.t) (e : Audio.AudioGenerator.env) r,
         Audio.AudioGenerator.is_running w = true ->
         Audio.AudioGenerator.http e = inr r ->
         Audio.AudioGenerator.stop_during_request e = true ->
         (Audio.AudioGenerator.run w e).2
         = [Audio.AudioGenerator.Request (Audio.AudioGenerator.url w);
            Audio.AudioGenerator.Finished "" false
              "Generación de audio cancelada durante la petición."]).
Proof.
  split.
  - intros w e r. apply api_run_stopped_after_request.
  - intros w e r. apply audio_run_stopped_after_request.
Qed.

Lemma stop_during_request_discards_answer_witness :
  (Audio.ApiWorker.run connect_worker stopped_while_asking).2
  = [Audio.ApiWorker.Request "GET" "https://api.elevenlabs.io/v1/user";
     Audio.ApiWorker.Finished Audio.ApiWorker.NoData false
       "Operación cancelada durante la ejecución."]
  /\ (Audio.AudioGenerator.run speech_worker stopped_while_posting).2
     = [Audio.AudioGenerator.Request (Audio.AudioGenerator.url speech_worker);
        Audio.AudioGenerator.Finished "" false
          "Generación de audio cancelada durante la petición."].
Proof.
  split.
  - refine (proj1 stop_during_request_discards_answer connect_worker stopped_while_asking
              ok_list eq_refl _ eq_refl eq_refl).
    now left.
  - exact (proj2 stop_during_request_discards_answer speech_worker stopped_while_posting
             ok_stream eq_refl eq_refl eq_refl).
Defined.

(** ** The streaming worker of the speech window *)

Section AudioGeneratorTheorems.

Import Audio.AudioGenerator.

(** X13.  When the answer declares no length, or declares 0, no division is
    made: every value sent on [progress] is a multiple of five between 0 and
    100, for every body. *)
Theorem estimated_progress_range (w : t) (e : env) :
  content_length e = NoLength \/ content_length e = Length 0 ->
  Forall (fun p => 0 <= p <= 100 /\ p mod 5 = 0) (percents (run w e).2).
Proof.
  intros Hcl.
  destruct (audio_run_shape w e) as (pre & evs & post & -> & Hpre & Hevs & Hpost).
  destruct (setup_quiet pre Hpre) as (_ & Hp & _).
  rewrite !percents_app, Hp. simpl. apply Forall_app. split.
  - destruct Hevs as [-> | ->]; [constructor |].
    eapply Forall_impl; [apply download_estimates |].
    + destruct Hcl as [-> | ->]; simpl; auto.
    + simpl. intros p' [? ?]. split; [lia | assumption].
  - destruct Hpost as [-> | [(p' & m' & -> & _) | (-> & _)]]; simpl;
      repeat constructor; lia.
Qed.

Lemma estimated_progress_range_witness :
  content_length three_items = NoLength
  /\ percents (run speech_worker three_items).2 = [0; 10; 100]
  /\ Forall (fun p => 0 <= p <= 100 /\ p mod 5 = 0)
            (percents (run speech_worker three_items).2).
Proof.
  split; [reflexivity |]. split; [reflexivity |].
  apply (estimated_progress_range speech_worker three_items). now left.
Defined.

(** X14.  Whatever happens during a run, what it wrote to the file is the
    beginning of the non-empty chunks of the body, in their order: no chunk
    is written twice, skipped or reordered, and an empty chunk is never
    written. *)
Theorem written_chunks_follow_body (w : t) (e : env) :
  exists k, writes (run w e).2 = firstn k (payload_chunks (body e)).
Proof.
  destruct (audio_run_shape w e) as (pre & evs & post & -> & Hpre & Hevs & Hpost).
  destruct (setup_quiet pre Hpre) as (Hw & _ & _).
  assert (Hq : writes post = []).
  { destruct Hpost as [-> | [(p & m & -> & _) | (-> & _)]]; reflexivity. }
  rewrite !writes_app, Hw, Hq, app_nil_r. simpl.
  destruct Hevs as [-> | ->].
  - now exists 0%nat.
  - apply download_writes.
Qed.

(** X15.  Success is reported only at the very end of a run that was
    answered 200 and saw no [stop()] at any of its checkpoints: the file was
    opened, every non-empty chunk of the body was written to it, the last two
    events are [progress(100)] and [finished(temp_file, True, "")]. *)
Theorem success_report_shape (w : t) (e : env) p m :
  In (Finished p true m) (run w e).2 ->
  p = temp_file e /\ m = ""
  /\ is_running w = true
  /\ (exists r, http e = inr r /\ status_code r = 200)
  /\ stop_during_request e = false
  /\ (forall it, In it (body e) -> stop_before it = false)
  /\ In (Open (temp_file e)) (run w e).2
  /\ writes (run w e).2 = payload_chunks (body e)
  /\ exists pre, (run w e).2 = pre ++ [Progress 100; Finished (temp_file e) true ""].
Proof.
  destruct (audio_run_shape w e) as (pre & evs & post & Htr & Hpre & Hevs & Hpost).
  rewrite Htr.
  destruct (setup_quiet pre Hpre) as (Hw & _ & Hf).
  intros [Hin | [Hin | Hin]%in_app_or]%in_app_or.
  - now apply Hf in Hin.
  - exfalso. destruct Hevs as [-> | ->]; [destruct Hin |].
    pose proof (download_no_success e (expected_of (content_length e)) (body e) 0%nat w 0) as Hno.
    rewrite forallb_forall in Hno. apply Hno in Hin. discriminate.
  - destruct Hpost as [-> | [(p' & m' & -> & Hp) | (-> & Hr & Hh & Hs & Hopen & -> & Hfl)]].
    + destruct Hin.
    + destruct Hin as [[=] | []].
    + destruct Hin as [[=] | [[= <- <-] | []]].
      destruct (download_writes e (expected_of (content_length e)) (body e) 0%nat w 0)
        as [_ Hall].
      destruct (Hall Hfl) as [Hwr Hstop].
      repeat split; auto.
      * apply in_or_app. now left.
      * rewrite !writes_app, Hw, Hwr. simpl. now rewrite app_nil_r.
      * eexists. now rewrite app_assoc.
Qed.

Lemma success_report_shape_witness :
  In (Finished (temp_file three_items) true "") (run speech_worker three_items).2
  /\ writes (run speech_worker three_items).2
     = [list_byte_of_string "ID3-"; list_byte_of_string "0123"].
Proof.
  assert (Hin : In (Finished (temp_file three_items) true "")
                   (run speech_worker three_items).2).
  { vm_compute. do 8 right. now left. }
  split; [exact Hin |].
  exact (proj1 (proj2 (proj2 (proj2 (proj2 (proj2 (proj2 (proj2
    (success_report_shape speech_worker three_items _ _ Hin))))))))).
Defined.

(** X16.  The path sent on [finished] is the empty string or the path of
    the file of this run, never anything else. *)
Theorem reported_path_is_own_file (w : t) (e : env) p ok m :
  In (Finished p ok m) (run w e).2 -> p = "" \/ p = temp_file e.
Proof.
  destruct (audio_run_shape w e) as (pre & evs & post & -> & Hpre & Hevs & Hpost).
  destruct (setup_quiet pre Hpre) as (_ & _ & Hf).
  intros [Hin | [Hin | Hin]%in_app_or]%in_app_or.
  - now apply Hf in Hin.
  - destruct Hevs as [-> | ->]; [destruct Hin |].
    eapply download_paths, Hin.
  - destruct Hpost as [-> | [(p' & m' & -> & Hp) | (-> & _)]].
    + destruct Hin.
    + destruct Hin as [[= <- <- <-] | []]. exact Hp.
    + destruct Hin as [[=] | [[= <- <- <-] | []]]. now right.
Qed.

Lemma reported_path_is_own_file_witness :
  In (Finished "" false "Generación de audio cancelada durante la petición.")
     (run speech_worker stopped_while_posting).2
  /\ ("" = "" \/ "" = temp_file stopped_while_posting).
Proof.
  assert (Hin : In (Finished "" false "Generación de audio cancelada durante la petición.")
                   (run speech_worker stopped_while_posting).2).
  { vm_compute. right. now left. }
  split; [exact Hin |].
  exact (reported_path_is_own_file speech_worker stopped_while_posting _ _ _ Hin).
Defined.

End AudioGeneratorTheorems.

(** ** The slot of the speech window *)

Section RunnerTheorems.

Import Audio.ElevenLabsTTS.

(** X17.  As long as [_start_worker] is never called between the stop of a
    thread and the run of the [_clear_worker_references] it posted, the
    guard is exclusive: at most one thread runs, [_start_worker] accepts the
    worker exactly when no thread is running, and the accepted worker and
    its new thread then fill the slot, that thread being the only one
    running. *)
Theorem start_accepted_iff_idle (self : t) instance :
  orderly self ->
  (forall tid1 tid2,
      thread_is_running self tid1 = true -> thread_is_running self tid2 = true ->
      tid1 = tid2)
  /\ ((_start_worker self instance).1.2 = true
      <-> forall tid, thread_is_running self tid = false)
  /\ ((_start_worker self instance).1.2 = true ->
      worker (_start_worker self instance).1.1 = Some instance
      /\ worker_thread (_start_worker self instance).1.1 = Some (length (threads self))
      /\ forall tid,
          thread_is_running (_start_worker self instance).1.1 tid = true
          <-> tid = length (threads self)).
Proof.
  intros Hord. destruct (orderly_invariant_holds self Hord) as [Hinv _].
  pose proof (guard_iff_idle self Hinv) as Hguard.
  split.
  { intros tid1 tid2 (th1 & Hl1 & Hr1)%thread_is_running_spec
      (th2 & Hl2 & Hr2)%thread_is_running_spec.
    pose proof (Hinv tid1 th1 Hl1 Hr1). pose proof (Hinv tid2 th2 Hl2 Hr2). congruence. }
  destruct (match worker_thread self with
            | Some tid => thread_is_running self tid
            | None => false
            end) eqn:Hg.
  - assert (Hrej : (_start_worker self instance).1.2 = false)
      by (unfold _start_worker; now rewrite Hg).
    rewrite Hrej. split; [| discriminate]. split; [discriminate |].
    intros Hidle. apply Hguard in Hidle. discriminate.
  - rewrite (start_worker_accepted self instance Hg). simpl.
    pose proof (proj1 Hguard eq_refl) as Hidle.
    split; [split; [intros _; exact Hidle | reflexivity] |].
    intros _. split; [reflexivity |]. split; [reflexivity |].
    intros tid. rewrite thread_is_running_spec. simpl. split.
    + intros (th & Hl & Hr).
      destruct (decide (tid < length (threads self))%nat) as [Hlt | Hge].
      * rewrite lookup_app_l in Hl by exact Hlt.
        assert (Hrun : thread_is_running self tid = true)
          by (apply thread_is_running_spec; eauto).
        rewrite Hidle in Hrun. discriminate.
      * apply lookup_lt_Some in Hl. rewrite length_app in Hl. simpl in Hl. lia.
    + intros ->. exists (mkThread true false). split; [| reflexivity].
      rewrite lookup_app_r by lia. now rewrite Nat.sub_diag.
Qed.

Lemma start_accepted_iff_idle_witness :
  orderly init
  /\ (_start_worker init (AnApiWorker connect_worker)).1.2 = true
  /\ worker_thread (_start_worker init (AnApiWorker connect_worker)).1.1 = Some 0%nat.
Proof.
  split; [apply orderly_init |]. split; [reflexivity |].
  exact (proj1 (proj2 (proj2 (proj2 (start_accepted_iff_idle init
                                       (AnApiWorker connect_worker) orderly_init))
                        eq_refl))).
Defined.

(** X18.  In such a schedule, once a thread has left its event loop and the
    [_clear_worker_references] it posted has run, the slot is released: both
    attributes are [None], no thread is running, no call is pending, no
    thread object is lost, and the next [_start_worker] is accepted. *)
Theorem finished_thread_frees_slot (self self1 self2 : t) tid instance :
  orderly self ->
  step self (ThreadFinished tid) self1 ->
  step self1 ClearDelivered self2 ->
  worker self2 = None /\ worker_thread self2 = None
  /\ (forall tid', thread_is_running self2 tid' = false)
  /\ queued_clears self2 = 0%nat
  /\ length (threads self2) = length (threads self)
  /\ (_start_worker self2 instance).1.2 = true.
Proof.
  intros Hord Hstep1 Hstep2.
  assert (Hord1 : orderly self1).
  { apply (orderly_next self (ThreadFinished tid) self1 Hord Hstep1).
    right. discriminate. }
  assert (Hord2 : orderly self2).
  { apply (orderly_next self1 ClearDelivered self2 Hord1 Hstep2).
    right. discriminate. }
  destruct (orderly_invariant_holds self1 Hord1) as [_ Hq1].
  destruct (orderly_invariant_holds self2 Hord2) as [Hinv2 _].
  inversion Hstep1 as [| | self0 tid0 th Hl Hr Hf |]; subst.
  inversion Hstep2 as [| | | self0 Hpos]; subst.
  destruct Hq1 as [Hzero | [Hone Hidle]]; [simpl in Hzero; discriminate |].
  assert (Hnone : worker_thread (on_clear_delivered (on_thread_finished self tid)) = None)
    by reflexivity.
  split; [reflexivity |]. split; [exact Hnone |].
  split; [exact Hidle |].
  split; [simpl in *; lia |].
  split; [simpl; now rewrite length_alter |].
  rewrite (start_worker_accepted _ instance); [reflexivity | now rewrite Hnone].
Qed.

Lemma finished_thread_frees_slot_witness :
  orderly window_finishing
  /\ step window_finishing (ThreadFinished 0) (on_thread_finished window_finishing 0)
  /\ step (on_thread_finished window_finishing 0) ClearDelivered window_released
  /\ (_start_worker window_released (AnAudioGenerator speech_worker)).1.2 = true.
Proof.
  assert (Hbusy : orderly window_busy).
  { eapply orderly_next; [apply orderly_init | apply step_start | now left]. }
  assert (Hord : orderly window_finishing).
  { apply (orderly_next window_busy (WorkerFinished 0) window_finishing Hbusy);
      [| right; discriminate].
    apply (step_worker_finished window_busy 0 (mkThread true false)); reflexivity. }
  assert (Hstep1 : step window_finishing (ThreadFinished 0)
                        (on_thread_finished window_finishing 0)).
  { apply (step_thread_finished window_finishing 0 (mkThread true true)); reflexivity. }
  assert (Hstep2 : step (on_thread_finished window_finishing 0) ClearDelivered
                        window_released).
  { apply step_clear_delivered. vm_compute. lia. }
  split; [exact Hord |]. split; [exact Hstep1 |]. split; [exact Hstep2 |].
  exact (proj2 (proj2 (proj2 (proj2 (proj2
    (finished_thread_frees_slot window_finishing _ _ 0 (AnAudioGenerator speech_worker)
       Hord Hstep1 Hstep2)))))).
Defined.

(** X19.  In such a schedule the slot stays taken between the [finished] of
    a worker and the [finished] of its thread: when the slot that receives
    the result of a worker runs, the thread of that worker is still running,
    and a [_start_worker] called at that moment is refused with the
    warning. *)
Theorem start_refused_while_thread_finishes (self self' : t) tid instance :
  orderly self -> step self (WorkerFinished tid) self' ->
  (exists th,
      threads self' !! tid = Some th /\ worker_finished th = true
      /\ isRunning th = true)
  /\ _start_worker self' instance
     = (self', false,
        [Warning "Operación en curso"
                 "Por favor, espera a que la operación actual termine."]).
Proof.
  intros Hord Hstep.
  assert (Hord' : orderly self').
  { apply (orderly_next self (WorkerFinished tid) self' Hord Hstep).
    right. discriminate. }
  destruct (orderly_invariant_holds self' Hord') as [Hinv _].
  inversion Hstep as [| self0 tid0 th Hl Hr Hf | |]; subst.
  assert (Hl' : threads (on_worker_finished self tid) !! tid
                = Some (mkThread (isRunning th) true)).
  { simpl. now rewrite list_lookup_alter_eq, Hl. }
  split; [eexists; split; [exact Hl' |]; now split |].
  apply (start_worker_rejected _ tid instance).
  - exact (Hinv tid _ Hl' Hr).
  - apply thread_is_running_spec. eexists. split; [exact Hl' | exact Hr].
Qed.

Lemma start_refused_while_thread_finishes_witness :
  orderly window_busy
  /\ step window_busy (WorkerFinished 0) window_finishing
  /\ (_start_worker window_finishing (AnApiWorker connect_worker)).1.2 = false.
Proof.
  assert (Hbusy : orderly window_busy).
  { eapply orderly_next; [apply orderly_init | apply step_start | now left]. }
  assert (Hstep : step window_busy (WorkerFinished 0) window_finishing).
  { apply (step_worker_finished window_busy 0 (mkThread true false)); reflexivity. }
  split; [exact Hbusy |]. split; [exact Hstep |].
  exact (f_equal (fun r => r.1.2)
           (proj2 (start_refused_while_thread_finishes window_busy window_finishing 0
                     (AnApiWorker connect_worker) Hbusy Hstep))).
Defined.

End RunnerTheorems.

(** ** The worker of the image window *)

Section ImageTheorems.

Import Imagenes.ImageGeneratorThread.

(** X20.  Every run of [ImageGeneratorThread] sends one request and ends
    with exactly one of the two signals whose slots give the controls of the
    window back, [finished_signal] or [error_signal]; the image is delivered
    only on status 200 and is then directly followed by
    [finished_signal]. *)
Theorem image_run_releases_controls_once (w : t) (e : env) :
  List.length (List.filter image_request (run w e)) = 1%nat
  /\ List.length (List.filter releases_controls (run w e)) = 1%nat
  /\ (exists pre ev, run w e = pre ++ [ev] /\ releases_controls ev = true)
  /\ (forall image, In (result_signal image) (run w e) ->
      exists r pre,
        http e = inr r /\ status_code r = 200 /\ image = content r
        /\ run w e = pre ++ [result_signal image; finished_signal (elapsed_time e)]).
Proof.
  destruct (image_run_cases w e) as [(r & Hh & Hs & ->) | (m & Hne & ->)].
  - repeat split; try reflexivity.
    + eexists [_; _; _], _. split; reflexivity.
    + intros image [[=] | [[=] | [[= <-] | [[=] | []]]]].
      exists r, [progress_signal "Enviando solicitud a FLUX.1-schnell..."; Post url].
      repeat split; assumption.
  - repeat split; try reflexivity.
    + eexists [_; _], _. split; reflexivity.
    + intros image [[=] | [[=] | [[=] | []]]].
Qed.

End ImageTheorems.

(** ** The image window *)

Section ImageWindowTheorems.

Import Imagenes Imagenes.ImageGeneratorThread Imagenes.MainWindow.

(** X21.  [generate_image] starts a thread only for a key that begins with
    "hf_" and a prompt that is not empty; the thread carries exactly these
    two, the controls are disabled and no dialog is shown.  Otherwise it
    shows one warning and leaves the window as it is. *)
Theorem generate_image_checks_inputs (self : MainWindow.t) prompt api_key :
  (forall w,
      (generate_image self prompt api_key).2 = Some w ->
      String.prefix "hf_" (ImageGeneratorThread.api_key w) = true
      /\ ImageGeneratorThread.prompt w <> ""
      /\ w = ImageGeneratorThread.mk prompt api_key
      /\ controls_enabled (generate_image self prompt api_key).1.1 = false
      /\ (generate_image self prompt api_key).1.2 = [])
  /\ ((generate_image self prompt api_key).2 = None ->
      (String.prefix "hf_" api_key = false \/ prompt = "")
      /\ (generate_image self prompt api_key).1.1 = self
      /\ exists message,
          (generate_image self prompt api_key).1.2 = [Warning "Advertencia" message]).
Proof.
  destruct (generate_image_cases self prompt api_key)
    as [(Hkey & Hprompt & ->) | (Hbad & m & ->)]; simpl.
  - split; [| discriminate]. intros w [= <-]. now repeat split.
  - split; [discriminate |]. intros _. repeat split; eauto.
Qed.

(** X22.  The button "Generar Imagen" is the only guard of the image
    window, and it is enough: in every state the window can reach, at most
    one thread has signals that are still to be delivered, the controls are
    enabled exactly when there is none, and the progress bar is visible
    exactly when the controls are disabled. *)
Theorem one_generation_at_a_time (s : session) :
  session_reachable s ->
  (forall i j p q,
      runs s !! i = Some p -> runs s !! j = Some q -> p <> [] -> q <> [] -> i = j)
  /\ (controls_enabled (window s) = true
      <-> forall i p, runs s !! i = Some p -> p = [])
  /\ progress_bar_visible (window s) = negb (controls_enabled (window s)).
Proof.
  intros Hreach. destruct (session_invariant_reachable s Hreach) as [Hbar Hinv].
  split; [| split; [| exact Hbar]].
  - intros i j p q Hi Hj Hp Hq.
    destruct (controls_enabled (window s)).
    + now specialize (Hinv i p Hi).
    + destruct Hinv as (i0 & pending & _ & _ & Hothers).
      destruct (decide (i = i0)) as [-> | Hne]; [| now specialize (Hothers i p Hne Hi)].
      destruct (decide (j = i0)) as [-> | Hne]; [| now specialize (Hothers j q Hne Hj)].
      reflexivity.
  - destruct (controls_enabled (window s)).
    + split; [intros _; exact Hinv | reflexivity].
    + split; [discriminate |]. intros Hall.
      destruct Hinv as (i0 & pending & Hl & (pre & ev & -> & _) & _).
      specialize (Hall i0 _ Hl). now destruct pre.
Qed.

Lemma one_generation_at_a_time_witness :
  session_reachable one_click
  /\ runs one_click
     = [[progress_signal "Enviando solicitud a FLUX.1-schnell...";
         result_signal (content picture); finished_signal (elapsed_time image_ok)]]
  /\ controls_enabled (window one_click) = false
  /\ progress_bar_visible (window one_click) = negb (controls_enabled (window one_click)).
Proof.
  assert (Hreach : session_reachable one_click).
  { eapply session_next; [apply session_init |].
    exact (click_generate (mkSession MainWindow.init []) "un gato" "hf_0123" image_ok
             eq_refl). }
  split; [exact Hreach |]. split; [reflexivity |]. split; [reflexivity |].
  exact (proj2 (proj2 (one_generation_at_a_time one_click Hreach))).
Defined.

(** X23.  What a generation leaves behind once the signals of its thread
    have been delivered: the controls are enabled again and the progress bar
    is hidden, whatever happened; a 200 answer makes its body the current
    picture and enables the save button; any other answer, or an exception,
    leaves the earlier picture and the save button as they were. *)
Theorem generation_outcome (self : MainWindow.t) prompt api_key e :
  String.prefix "hf_" api_key = true -> prompt <> "" ->
  exists w,
    (generate_image self prompt api_key).2 = Some w
    /\ fold_left deliver (run w e) (generate_image self prompt api_key).1.1
       = match http e with
         | inr r =>
             if (status_code r =? 200)%Z
             then MainWindow.mk true true false (Some (content r))
             else MainWindow.mk true (save_button_enabled self) false (current_image self)
         | inl _ =>
             MainWindow.mk true (save_button_enabled self) false (current_image self)
         end.
Proof.
  intros Hkey Hprompt.
  destruct (generate_image_cases self prompt api_key)
    as [(_ & _ & ->) | ([Hbad | Hbad] & _)]; [| congruence | congruence].
  eexists. split; [reflexivity |].
  unfold run. simpl. destruct (http e) as [ex | r]; [reflexivity |].
  destruct (status_code r =? 200)%Z; reflexivity.
Qed.

Lemma generation_outcome_witness :
  exists w,
    (generate_image window_with_picture "un gato" "hf_0123").2 = Some w
    /\ fold_left deliver (run w image_refused)
         (generate_image window_with_picture "un gato" "hf_0123").1.1
       = MainWindow.mk true true false (Some (list_byte_of_string "JFIF-0123")).
Proof.
  refine (generation_outcome window_with_picture "un gato" "hf_0123" image_refused
            eq_refl _).
  discriminate.
Defined.

End ImageWindowTheorems.
